(** * Page-offset detection: sampler, label recognizer, consensus engine, mapping builder

    A shallow embedding of [offset_detection/pdf_processor.py],
    [offset_detection/ocr_detector.py] and
    [offset_detection/offset_calculator.py], and the properties the
    specification states about them.

    Python [int] is [Z]; a [len] or a [Counter] value is [nat]; Python
    [float] is IEEE binary64, computed with the executable specification
    of the Standard Library ([SpecFloat]); [Optional[int]] is [option Z];
    a dictionary built with a fixed set of keys is a record whose optional
    keys are [option] fields; a [Counter] is an association list in
    insertion order, because [most_common] depends on that order. *)

From Stdlib Require Import ZArith List Bool Lia String Ascii DecimalString FinFun.
From Stdlib Require Import Floats.SpecFloat.
From Stdlib Require Import Permutation.
Import ListNotations.
Open Scope Z_scope.

(** ** Python floats *)

Module PyFloat.

Definition float := spec_float.

Definition prec : Z := 53.
Definition emax : Z := 1024.

(** [float(z)]: exact below [2^53], rounded to nearest-even above. *)
Definition of_int (z : Z) : float := binary_normalize prec emax z 0 false.

Definition mul : float -> float -> float := SFmul prec emax.
Definition add : float -> float -> float := SFadd prec emax.
Definition div : float -> float -> float := SFdiv prec emax.

(** [a / b] on two ints.  Every caller below divides by a positive int, so
    [ZeroDivisionError] does not arise; both operands are far below
    [2^53], where the quotient of the converted operands is the correctly
    rounded quotient Python computes. *)
Definition truediv (a b : Z) : float := div (of_int a) (of_int b).

Definition eqb : float -> float -> bool := SFeqb.
Definition leb : float -> float -> bool := SFleb.
Definition ltb : float -> float -> bool := SFltb.

(** [int(x)]: truncation towards zero.  Python raises on an infinity or a
    NaN; no caller below produces one from page counts under [2^1023], and
    the model answers [0] there. *)
Definition to_int (x : float) : Z :=
  match x with
  | S754_finite s m e => cond_Zopp s (Z.shiftl (Zpos m) e)
  | _ => 0
  end.

(** The literals of the source, as the doubles the parser reads. *)
Definition lit_1_0 : float := S754_finite false 4503599627370496 (-52).
Definition lit_0_66 : float := S754_finite false 5944751508129055 (-53).
Definition lit_0_10 : float := S754_finite false 7205759403792794 (-56).
Definition lit_0_90 : float := S754_finite false 8106479329266893 (-53).

End PyFloat.

(** ** Sampler ([pdf_processor.py]) *)

(** [list(range(a, b))] *)
Definition py_range (a b : Z) : list Z :=
  map (fun k => a + Z.of_nat k) (seq 0 (Z.to_nat (b - a))).

Definition default_num_samples : Z := 3.
Definition default_skip_first : Z := 5.

(** The page computed by one turn of the loop of [select_sample_pages]. *)
Definition sample_position (usable_start usable_range num_samples i : Z) : Z :=
  let fraction := PyFloat.truediv (i + 1) (num_samples + 1) in
  PyFloat.to_int
    (PyFloat.add (PyFloat.of_int usable_start)
                 (PyFloat.mul (PyFloat.of_int usable_range) fraction)).

Definition select_sample_pages (total_pages num_samples skip_first : Z) : list Z :=
  if total_pages <=? skip_first then
    if 0 <? total_pages then [total_pages / 2] else []
  else
    let usable_start := skip_first + 1 in
    let usable_end := total_pages in
    let usable_range := usable_end - usable_start in
    if usable_range <? num_samples then
      py_range usable_start (usable_end + 1)
    else
      map (sample_position usable_start usable_range num_samples)
          (py_range 0 num_samples).

(** A physical page index of a document of [total_pages] pages is 1-based. *)
Definition valid_page_index (total_pages p : Z) : bool :=
  (1 <=? p) && (p <=? total_pages).

(** The sampler as section 4.1 of the specification words it: the usable
    pages are [skip_first+1 .. total_pages]; when there are fewer of them
    than [num_samples] all are returned, otherwise the evenly spaced ones. *)
Definition usable_pages (total_pages skip_first : Z) : list Z :=
  py_range (skip_first + 1) (total_pages + 1).

Definition select_sample_pages_spec (total_pages num_samples skip_first : Z) : list Z :=
  if Z.of_nat (List.length (usable_pages total_pages skip_first)) <? num_samples then
    usable_pages total_pages skip_first
  else
    map (sample_position (skip_first + 1) (total_pages - (skip_first + 1)) num_samples)
        (py_range 0 num_samples).

(** ** Exceptions *)

(** A computation that returns a value or raises. *)
Inductive Exc (A : Type) : Type :=
| Ok (a : A)
| Raise (e : string).

Arguments Ok {A} a.
Arguments Raise {A} e.

Definition bind {A B : Type} (m : Exc A) (k : A -> Exc B) : Exc B :=
  match m with
  | Ok a => k a
  | Raise e => Raise e
  end.

Notation "x <- m ;; k" := (bind m (fun x => k))
  (at level 61, m at next level, right associativity).
Notation "' p <- m ;; k" := (bind m (fun x => let 'p := x in k))
  (at level 61, p pattern, m at next level, right associativity).

(** [l[i]] for [i >= 0]: [IndexError] past the end. *)
Definition index {A : Type} (l : list A) (i : nat) : Exc A :=
  match nth_error l i with
  | Some a => Ok a
  | None => Raise "IndexError"
  end.

(** ** Consensus engine ([offset_calculator.py]) *)

(** [OffsetSample]: [__init__] is the only place its attributes are
    assigned, so [offset] is a function of the two constructor arguments. *)
Record OffsetSample : Type := {
  pdf_page : Z;
  detected_label : option Z
}.

Definition offset (s : OffsetSample) : option Z :=
  match detected_label s with
  | Some label => Some (pdf_page s - label)
  | None => None
  end.

Definition is_not_None {A : Type} (o : option A) : bool :=
  match o with Some _ => true | None => false end.

(** [a == b] on two [Optional[int]] values. *)
Definition opt_eqb (a b : option Z) : bool :=
  match a, b with
  | Some x, Some y => x =? y
  | None, None => true
  | _, _ => false
  end.

(** *** [collections.Counter] *)

(** A [Counter] keeps its keys in the order of their first insertion. *)
Definition Counter_t : Type := list (Z * nat).

(** [self[elem] = self.get(elem, 0) + 1] *)
Fixpoint counter_incr (c : Counter_t) (elem : Z) : Counter_t :=
  match c with
  | [] => [(elem, 1%nat)]
  | (k, n) :: rest =>
      if k =? elem then (k, S n) :: rest else (k, n) :: counter_incr rest elem
  end.

Definition Counter (iterable : list Z) : Counter_t :=
  fold_left counter_incr iterable [].

(** [c[key]] on the dictionary made from a counter. *)
Fixpoint dict_get (c : Counter_t) (key : Z) : option nat :=
  match c with
  | [] => None
  | (k, n) :: rest => if k =? key then Some n else dict_get rest key
  end.

(** [max(items, key=itemgetter(1))] with the running maximum [best]: a later
    item replaces it only when its count is strictly greater. *)
Fixpoint max_by_count (best : Z * nat) (items : list (Z * nat)) : Z * nat :=
  match items with
  | [] => best
  | it :: rest =>
      if (snd best <? snd it)%nat then max_by_count it rest
      else max_by_count best rest
  end.

(** [c.most_common(1)], which is [heapq.nlargest(1, c.items(), key=count)]:
    empty on an empty counter, otherwise the one item [max] selects. *)
Definition most_common_1 (c : Counter_t) : list (Z * nat) :=
  match c with
  | [] => []
  | it :: rest => [max_by_count it rest]
  end.

(** *** The result dictionary *)

Inductive Confidence : Type := HIGH | MEDIUM | LOW | NONE.

(** One entry of ['evidence'].  ['agrees_with_consensus'] is a key of the
    entry only on the path that found a consensus. *)
Record Evidence : Type := {
  ev_pdf_page : Z;
  ev_detected_label : option Z;
  ev_offset : option Z;
  agrees_with_consensus : option bool
}.

(** The dictionary [calculate_offset_from_samples] returns.  A field of type
    [option] that is [None] for a key the dictionary does not have, except
    [res_offset], whose key is always there and holds [None] or an int. *)
Record OffsetResult : Type := {
  res_offset : option Z;
  confidence : Confidence;
  samples_processed : nat;
  samples_agreed : nat;
  samples_valid : option nat;
  agreement_ratio : option PyFloat.float;
  all_offsets : list Z;
  offset_distribution : option Counter_t;
  evidence : list Evidence;
  warning : option string;
  message : option string
}.

Definition str_nat (n : nat) : string := NilEmpty.string_of_uint (Nat.to_uint n).
Definition str_int (z : Z) : string := NilZero.string_of_int (Z.to_int z).

Definition is_valid_sample (s : OffsetSample) : bool := is_not_None (offset s).

(** [[s.offset for s in valid_samples]] *)
Definition offsets_of (valid_samples : list OffsetSample) : list Z :=
  flat_map (fun s => match offset s with Some o => [o] | None => [] end)
           valid_samples.

Definition no_detection_message : string :=
  "No labeled page numbers detected. Document may use PDF page numbers directly (offset = 0).".

Definition calculate_offset_from_samples (samples : list OffsetSample)
  : Exc OffsetResult :=
  let valid_samples := filter is_valid_sample samples in
  match valid_samples with
  | [] =>
      Ok {| res_offset := None;
            confidence := NONE;
            samples_processed := List.length samples;
            samples_agreed := 0%nat;
            samples_valid := None;
            agreement_ratio := None;
            all_offsets := [];
            offset_distribution := None;
            evidence :=
              map (fun s => {| ev_pdf_page := pdf_page s;
                               ev_detected_label := detected_label s;
                               ev_offset := offset s;
                               agrees_with_consensus := None |}) samples;
            warning := None;
            message := Some no_detection_message |}
  | _ :: _ =>
      let offsets := offsets_of valid_samples in
      let offset_counts := Counter offsets in
      '(consensus_offset, consensus_count) <- index (most_common_1 offset_counts) 0 ;;
      let total_valid := List.length valid_samples in
      let agreement_ratio :=
        PyFloat.truediv (Z.of_nat consensus_count) (Z.of_nat total_valid) in
      let confidence :=
        if PyFloat.eqb agreement_ratio PyFloat.lit_1_0 then HIGH
        else if PyFloat.leb PyFloat.lit_0_66 agreement_ratio then MEDIUM
        else LOW in
      Ok {| res_offset := Some consensus_offset;
            confidence := confidence;
            samples_processed := List.length samples;
            samples_agreed := consensus_count;
            samples_valid := Some total_valid;
            agreement_ratio := Some agreement_ratio;
            all_offsets := offsets;
            offset_distribution := Some offset_counts;
            evidence :=
              map (fun s => {| ev_pdf_page := pdf_page s;
                               ev_detected_label := detected_label s;
                               ev_offset := offset s;
                               agrees_with_consensus :=
                                 Some (opt_eqb (offset s) (Some consensus_offset)) |})
                  samples;
            warning :=
              match confidence with
              | LOW =>
                  Some ("Low confidence: Only " ++ str_nat consensus_count ++ "/"
                        ++ str_nat total_valid
                        ++ " samples agree. Manual review recommended.")%string
              | MEDIUM =>
                  Some ("Medium confidence: " ++ str_nat consensus_count ++ "/"
                        ++ str_nat total_valid
                        ++ " samples agree. Consider manual verification.")%string
              | _ => None
              end;
            message := None |}
  end.

(** *** Mapping builder *)

Definition default_max_offset : Z := 50.

Definition validate_offset (offset : option Z) (max_offset : Z) : bool * string :=
  match offset with
  | None => (false, "No offset detected"%string)
  | Some offset =>
      if max_offset <? Z.abs offset then
        (false, ("Offset " ++ str_int offset ++ " exceeds maximum "
                 ++ str_int max_offset ++ ". May be incorrect.")%string)
      else if offset <? 0 then
        (true, ("Negative offset (" ++ str_int offset
                ++ "): PDF pages numbered lower than document pages")%string)
      else if offset =? 0 then
        (true, "Zero offset: PDF and document pages match"%string)
      else
        (true, ("Positive offset (" ++ str_int offset
                ++ "): PDF pages numbered higher than document pages")%string)
  end.

Record Validation : Type := {
  is_valid : bool;
  validation_message : string
}.

(** The dictionary [create_offset_mapping] returns; [option] fields are the
    keys it adds conditionally, and [map_offset] holds [None] or an int. *)
Record OffsetMapping : Type := {
  document_name : string;
  map_offset : option Z;
  map_confidence : Confidence;
  map_samples_processed : nat;
  map_samples_agreed : nat;
  method : string;
  map_evidence : list Evidence;
  evidence_images : list string;
  map_warning : option string;
  map_message : option string;
  map_offset_distribution : option Counter_t;
  validation : option Validation
}.

Definition create_offset_mapping (company document_name : string)
    (offset_result : OffsetResult) (evidence_images : list string)
    (method : string) : OffsetMapping :=
  {| document_name := document_name;
     map_offset := res_offset offset_result;
     map_confidence := confidence offset_result;
     map_samples_processed := samples_processed offset_result;
     map_samples_agreed := samples_agreed offset_result;
     method := method;
     map_evidence := evidence offset_result;
     evidence_images := evidence_images;
     map_warning := warning offset_result;
     map_message := message offset_result;
     map_offset_distribution := offset_distribution offset_result;
     validation :=
       match res_offset offset_result with
       | Some o =>
           let '(is_valid, validation_msg) :=
             validate_offset (Some o) default_max_offset in
           Some {| is_valid := is_valid; validation_message := validation_msg |}
       | None => None
       end |}.

(** ** Label recognizer ([ocr_detector.py]) *)

(** *** Strings

    Recognized tokens are modelled as ASCII strings: [str.strip],
    [str.isdigit] and [int] are given on the ASCII whitespace and digit
    characters. *)

Definition is_space (c : ascii) : bool :=
  let n := nat_of_ascii c in
  ((9 <=? n) && (n <=? 13) || (28 <=? n) && (n <=? 32))%nat.

Definition is_digit_char (c : ascii) : bool :=
  let n := nat_of_ascii c in
  ((48 <=? n) && (n <=? 57))%nat.

Fixpoint lstrip (s : string) : string :=
  match s with
  | EmptyString => EmptyString
  | String c rest => if is_space c then lstrip rest else s
  end.

Fixpoint rstrip (s : string) : string :=
  match s with
  | EmptyString => EmptyString
  | String c rest =>
      match rstrip rest with
      | EmptyString => if is_space c then EmptyString else String c EmptyString
      | rest' => String c rest'
      end
  end.

(** [s.strip()] *)
Definition strip (s : string) : string := rstrip (lstrip s).

Fixpoint all_digits (s : string) : bool :=
  match s with
  | EmptyString => true
  | String c rest => is_digit_char c && all_digits rest
  end.

(** [s.isdigit()]: false on the empty string. *)
Definition isdigit (s : string) : bool :=
  match s with
  | EmptyString => false
  | _ => all_digits s
  end.

Fixpoint int_digits (acc : Z) (s : string) : option Z :=
  match s with
  | EmptyString => Some acc
  | String c rest =>
      if is_digit_char c
      then int_digits (10 * acc + (Z.of_nat (nat_of_ascii c) - 48)) rest
      else None
  end.

(** [int(s)] on an unsigned decimal numeral; [None] is [ValueError]. *)
Definition py_int (s : string) : option Z :=
  match s with
  | EmptyString => None
  | _ => int_digits 0 s
  end.

(** *** The recognizer's output *)

(** The dictionary [pytesseract.image_to_data] returns with
    [Output.DICT]: parallel lists, of which the code reads three. *)
Record OcrData : Type := {
  text : list string;
  top : list Z;
  conf : list Z
}.

Definition PAGE_PATTERNS : list string :=
  [ "\bPage[\s:\.]*(\d+)\b";
    "\bP[\s:\.]+(\d+)\b";
    "[-|]\s*(\d+)\s*[-|]";
    "^\s*(\d+)\s*$";
    "\b(\d+)\s*(?:of|/)\s*\d+\b" ]%string.

(** [1 <= page_num <= 9999] *)
Definition reasonable_page_number (page_num : Z) : bool :=
  (1 <=? page_num) && (page_num <=? 9999).

(** What one turn of the loop of [find_positional_page_numbers] appends for
    the token [word] at position [i]. *)
Definition positional_candidate (ocr_data : OcrData) (height : Z)
    (i : nat) (word : string) : list Z :=
  let header_threshold := PyFloat.mul (PyFloat.of_int height) PyFloat.lit_0_10 in
  let footer_threshold := PyFloat.mul (PyFloat.of_int height) PyFloat.lit_0_90 in
  match strip word with
  | EmptyString => []
  | stripped =>
      match nth_error (top ocr_data) i, nth_error (conf ocr_data) i with
      | Some top, Some conf =>
          let in_footer := PyFloat.leb footer_threshold (PyFloat.of_int top) in
          let in_header := PyFloat.leb (PyFloat.of_int top) header_threshold in
          if negb (in_footer || in_header) then []
          else if isdigit stripped then
            match py_int stripped with
            | Some page_num =>
                if reasonable_page_number page_num && (50 <? conf)
                then [page_num] else []
            | None => []
            end
          else []
      | _, _ => []
      end
  end.

(** [enumerate(l)] *)
Definition enumerate {A : Type} (l : list A) : list (nat * A) :=
  combine (seq 0 (List.length l)) l.

Definition find_positional_page_numbers (ocr_data : OcrData)
    (image_size : Z * Z) : list Z :=
  let '(width, height) := image_size in
  flat_map (fun iw => positional_candidate ocr_data height (fst iw) (snd iw))
           (enumerate (text ocr_data)).

(** The external recognizer and the regular-expression engine. *)
Class Recognizer (Image : Type) : Type := {
  (** [pytesseract.image_to_string(image)] *)
  image_to_string : Image -> Exc string;
  (** [pytesseract.image_to_data(image, output_type=Output.DICT)] *)
  image_to_data : Image -> Exc OcrData;
  (** [image.size], as [(width, height)] *)
  size : Image -> Z * Z;
  (** [[m.group(1) for m in re.finditer(pattern, text, MULTILINE | IGNORECASE)]] *)
  finditer_group1 : string -> string -> list string
}.

Section Detector.

Context {Image : Type} `{Recognizer Image}.

Definition find_page_number_patterns (text : string) : list Z :=
  flat_map
    (fun pattern =>
       flat_map
         (fun group1 =>
            match py_int group1 with
            | Some page_num =>
                if reasonable_page_number page_num then [page_num] else []
            | None => []
            end)
         (finditer_group1 pattern text))
    PAGE_PATTERNS.

(** The body of the [try] block. *)
Definition detect_body (image : Image) : Exc (option Z) :=
  text <- image_to_string image ;;
  ocr_data <- image_to_data image ;;
  let pattern_matches := find_page_number_patterns text in
  let positional_matches := find_positional_page_numbers ocr_data (size image) in
  let all_candidates := positional_matches ++ pattern_matches in
  match all_candidates with
  | [] => Ok None
  | _ :: _ =>
      result <- index all_candidates 0 ;;
      Ok (Some result)
  end.

(** [except Exception: return None] *)
Definition detect_labeled_page_number (image : Image) : option Z :=
  match detect_body image with
  | Ok result => result
  | Raise _ => None
  end.

End Detector.

(** ** Vocabulary of the statements *)

(** The distinct values of a list, in the order of their first occurrence. *)
Fixpoint first_occ (l : list Z) : list Z :=
  match l with
  | [] => []
  | x :: rest => x :: filter (fun y => negb (y =? x)) (first_occ rest)
  end.

(** [sum(d.values())] *)
Definition sum_values (c : Counter_t) : nat := list_sum (map snd c).

(** The samples whose offset is the integer [o]. *)
Definition agreeing (o : Z) (samples : list OffsetSample) : list OffsetSample :=
  filter (fun s => opt_eqb (offset s) (Some o)) samples.

(** A sample whose label was read, as the specification words validity. *)
Definition has_label (s : OffsetSample) : bool := is_not_None (detected_label s).

(** The comparisons of the double [c / t] with [1.0] and [0.66] give what
    the comparisons of the fraction [c / t] with 1 and 66/100 give. *)
Definition ratio_exact (c t : nat) : bool :=
  let r := PyFloat.truediv (Z.of_nat c) (Z.of_nat t) in
  Bool.eqb (PyFloat.eqb r PyFloat.lit_1_0) (c =? t)%nat
  && Bool.eqb (PyFloat.ltb r PyFloat.lit_1_0) (c <? t)%nat
  && Bool.eqb (PyFloat.leb PyFloat.lit_0_66 r) (66 * t <=? 100 * c)%nat.

(** What makes the token [word] at position [i] a positional candidate of
    value [p]: its place in the parallel lists, its text, its confidence and
    its zone. *)
Definition is_positional_candidate (ocr_data : OcrData) (height : Z)
    (i : nat) (word : string) (p : Z) : Prop :=
  exists t c,
    nth_error (top ocr_data) i = Some t
    /\ nth_error (conf ocr_data) i = Some c
    /\ isdigit (strip word) = true
    /\ py_int (strip word) = Some p
    /\ 1 <= p <= 9999
    /\ 50 < c
    /\ (PyFloat.leb (PyFloat.mul (PyFloat.of_int height) PyFloat.lit_0_90)
                    (PyFloat.of_int t) = true
        \/ PyFloat.leb (PyFloat.of_int t)
                       (PyFloat.mul (PyFloat.of_int height) PyFloat.lit_0_10) = true).

(** Two recognizers to evaluate the detector on: one reads a page whose
    footer holds the number 12, the other raises. *)
Definition footer_recognizer : Recognizer unit := {|
  image_to_string := fun _ => Ok "Annual report page 7 of 90"%string;
  image_to_data := fun _ =>
    Ok {| text := ["Annual"; "2024"; " "; "12"]%string;
          top := [40; 500; 700; 950];
          conf := [96; 93; -1; 91] |};
  size := fun _ => (800, 1000);
  finditer_group1 := fun pattern _ =>
    if String.eqb pattern "\b(\d+)\s*(?:of|/)\s*\d+\b" then ["7"%string] else []
|}.

Definition failing_recognizer : Recognizer unit := {|
  image_to_string := fun _ => Raise "TesseractError"%string;
  image_to_data := fun _ => Raise "TesseractError"%string;
  size := fun _ => (800, 1000);
  finditer_group1 := fun _ _ => []
|}.

(** ** Outliers and summaries ([offset_calculator.py]) *)

Definition detect_outliers (samples : list OffsetSample) : Exc (list OffsetSample) :=
  let valid_samples := filter is_valid_sample samples in
  if (List.length valid_samples <? 2)%nat then Ok []
  else
    let offsets := offsets_of valid_samples in
    first <- index (most_common_1 (Counter offsets)) 0 ;;
    let consensus_offset := fst first in
    let outliers :=
      filter (fun s => negb (opt_eqb (offset s) (Some consensus_offset)))
             valid_samples in
    Ok outliers.

(** A dictionary with string keys, in insertion order: assigning to a key
    that is present replaces its value in place. *)
Definition Dict (V : Type) : Type := list (string * V).

(** [d[key] = value] *)
Fixpoint dict_setitem {V : Type} (d : Dict V) (key : string) (value : V) : Dict V :=
  match d with
  | [] => [(key, value)]
  | (k, v) :: rest =>
      if String.eqb k key then (k, value) :: rest
      else (k, v) :: dict_setitem rest key value
  end.

(** [d.get(key)] *)
Fixpoint dict_getitem {V : Type} (d : Dict V) (key : string) : option V :=
  match d with
  | [] => None
  | (k, v) :: rest => if String.eqb k key then Some v else dict_getitem rest key
  end.

(** [list(d.values())] and [list(d.keys())] *)
Definition dict_values {V : Type} (d : Dict V) : list V := map snd d.
Definition dict_keys {V : Type} (d : Dict V) : list string := map fst d.

(** The truth value of a string: false on the empty string. *)
Definition str_truthy (s : string) : bool :=
  match s with
  | EmptyString => false
  | String _ _ => true
  end.

(** A mapping dictionary as the pipeline hands it on: the keys
    [create_offset_mapping] sets, and the two keys [process_single_pdf]
    adds; [None] is an absent key. *)
Record DocumentMapping : Type := {
  core : OffsetMapping;
  company_key : option string;
  pdf_path : option string
}.

Definition merge_offset_mappings (mappings : list DocumentMapping)
  : Dict DocumentMapping :=
  fold_left
    (fun merged mapping =>
       match company_key mapping with
       | Some key => if str_truthy key then dict_setitem merged key mapping else merged
       | None => merged
       end)
    mappings [].

(** A number that is an [int] or a [float]. *)
Inductive PyNum : Type :=
| PInt (z : Z)
| PFloat (x : PyFloat.float).

(** [sorted(data)] on integers. *)
Fixpoint insert_sorted (x : Z) (l : list Z) : list Z :=
  match l with
  | [] => [x]
  | y :: rest => if x <=? y then x :: l else y :: insert_sorted x rest
  end.

Definition sorted (data : list Z) : list Z := fold_right insert_sorted [] data.

(** [statistics.mean] on integers: the exact fraction [sum / n], returned as
    an int when it is integral and as the nearest double otherwise. *)
Definition mean (data : list Z) : Exc PyNum :=
  let n := Z.of_nat (List.length data) in
  if n <? 1 then Raise "StatisticsError"
  else
    let total := fold_left Z.add data 0 in
    let g := Z.gcd total n in
    let numerator := total / g in
    let denominator := n / g in
    if denominator =? 1 then Ok (PInt numerator)
    else Ok (PFloat (PyFloat.truediv numerator denominator)).

(** [statistics.median] on integers. *)
Definition median (data : list Z) : Exc PyNum :=
  let data := sorted data in
  let n := List.length data in
  if (n =? 0)%nat then Raise "StatisticsError"
  else if (n mod 2 =? 1)%nat then
    x <- index data (n / 2) ;;
    Ok (PInt x)
  else
    let i := (n / 2)%nat in
    a <- index data (i - 1) ;;
    b <- index data i ;;
    Ok (PFloat (PyFloat.truediv (a + b) 2)).

Definition confidence_eqb (a b : Confidence) : bool :=
  match a, b with
  | HIGH, HIGH | MEDIUM, MEDIUM | LOW, LOW | NONE, NONE => true
  | _, _ => false
  end.

Record ConfidenceDistribution : Type := {
  dist_HIGH : Z;
  dist_MEDIUM : Z;
  dist_LOW : Z;
  dist_NONE : Z
}.

Record OffsetStatistics : Type := {
  stat_min : Z;
  stat_max : Z;
  stat_mean : PyNum;
  stat_median : PyNum;
  stat_mode : option Z
}.

Record SummaryStatistics : Type := {
  total_documents : Z;
  confidence_distribution : ConfidenceDistribution;
  documents_with_offset : Z;
  documents_no_offset : Z;
  offset_statistics : option OffsetStatistics
}.

(** [sum(1 for m in values if test(m))] *)
Definition count_if {A : Type} (test : A -> bool) (values : list A) : Z :=
  Z.of_nat (List.length (filter test values)).

Definition generate_summary_statistics (all_mappings : Dict DocumentMapping)
  : Exc SummaryStatistics :=
  let values := dict_values all_mappings in
  let total := Z.of_nat (List.length all_mappings) in
  let high_conf := count_if (fun m => confidence_eqb (map_confidence (core m)) HIGH) values in
  let medium_conf := count_if (fun m => confidence_eqb (map_confidence (core m)) MEDIUM) values in
  let low_conf := count_if (fun m => confidence_eqb (map_confidence (core m)) LOW) values in
  let no_offset :=
    count_if (fun m => match map_offset (core m) with
                       | Some o => o =? 0
                       | None => true
                       end) values in
  let offsets :=
    flat_map (fun m => match map_offset (core m) with
                       | Some o => [o]
                       | None => []
                       end) values in
  offset_statistics <-
    match offsets with
    | [] => Ok None
    | first :: rest =>
        mean_value <- mean offsets ;;
        median_value <- median offsets ;;
        most_common <- index (most_common_1 (Counter offsets)) 0 ;;
        Ok (Some {| stat_min := fold_left Z.min rest first;
                    stat_max := fold_left Z.max rest first;
                    stat_mean := mean_value;
                    stat_median := median_value;
                    stat_mode := Some (fst most_common) |})
    end ;;
  Ok {| total_documents := total;
        confidence_distribution :=
          {| dist_HIGH := high_conf;
             dist_MEDIUM := medium_conf;
             dist_LOW := low_conf;
             dist_NONE := total - high_conf - medium_conf - low_conf |};
        documents_with_offset := total - no_offset;
        documents_no_offset := no_offset;
        offset_statistics := offset_statistics |}.

(** ** Plausibility and region helpers ([ocr_detector.py]) *)

Definition validate_page_number (detected pdf_page max_offset : Z) : bool :=
  let offset := Z.abs (pdf_page - detected) in
  offset <=? max_offset.

Definition float_sub : PyFloat.float -> PyFloat.float -> PyFloat.float :=
  SFsub PyFloat.prec PyFloat.emax.

(** The literal [0.15]. *)
Definition lit_0_15 : PyFloat.float := S754_finite false 5404319552844595 (-55).

(** [Image.crop] and [re.findall]. *)
Class ImageOps (Image : Type) : Type := {
  (** [image.crop((left, upper, right, lower))] *)
  crop : Image -> Z * Z * Z * Z -> Image;
  (** [re.findall(pattern, text)] for a pattern with one group *)
  findall : string -> string -> list string
}.

Section Region.

Context {Image : Type} `{Recognizer Image} `{ImageOps Image}.

Definition extract_page_numbers_from_region (image : Image) (region : string)
    (height_fraction : PyFloat.float) : list Z :=
  let '(width, height) := size image in
  let crop_box :=
    if String.eqb region "footer" then
      (0,
       PyFloat.to_int (PyFloat.mul (PyFloat.of_int height)
                                   (float_sub (PyFloat.of_int 1) height_fraction)),
       width, height)
    else if String.eqb region "header" then
      (0, 0, width,
       PyFloat.to_int (PyFloat.mul (PyFloat.of_int height) height_fraction))
    else (0, 0, width, height) in
  let cropped := crop image crop_box in
  let attempt :=
    text <- image_to_string cropped ;;
    let numbers := findall "\b(\d+)\b" text in
    Ok (flat_map
          (fun num_str =>
             match py_int num_str with
             | Some num => if reasonable_page_number num then [num] else []
             | None => []
             end)
          numbers) in
  match attempt with
  | Ok page_numbers => page_numbers
  | Raise _ => []
  end.

End Region.

(** ** Input and output *)

(** A computation that reads and changes the world outside the program
    (files, directories) and returns or raises; the world it leaves is kept
    also when it raises.  [print] calls are left out. *)
Definition IO (World A : Type) : Type := World -> Exc A * World.

Definition io_ret {World A : Type} (a : A) : IO World A := fun w => (Ok a, w).

Definition io_raise {World A : Type} (e : string) : IO World A :=
  fun w => (Raise e, w).

Definition io_bind {World A B : Type} (m : IO World A) (k : A -> IO World B)
  : IO World B :=
  fun w =>
    match m w with
    | (Ok a, w') => k a w'
    | (Raise e, w') => (Raise e, w')
    end.

(** [try: m  except Exception as e: handler(e)] *)
Definition io_try {World A : Type} (m : IO World A) (handler : string -> IO World A)
  : IO World A :=
  fun w =>
    match m w with
    | (Ok a, w') => (Ok a, w')
    | (Raise e, w') => handler e w'
    end.

Definition io_lift {World A : Type} (m : Exc A) : IO World A := fun w => (m, w).

Notation "x <~ m ;; k" := (io_bind m (fun x => k))
  (at level 61, m at next level, right associativity).

(** [for x in l: state = body(state, x)] *)
Fixpoint io_for {World S A : Type} (body : S -> A -> IO World S) (l : list A)
    (state : S) : IO World S :=
  match l with
  | [] => io_ret state
  | x :: rest => state' <~ body state x ;; io_for body rest state'
  end.

(** [enumerate(l, 1)] *)
Definition enumerate_from_1 {A : Type} (l : list A) : list (nat * A) :=
  combine (seq 1 (List.length l)) l.

(** The libraries and the file system the pipeline runs on. *)
Class Platform (World Image : Type) : Type := {
  (** [doc = fitz.open(path); len(doc); doc.close()] *)
  fitz_page_count : string -> IO World nat;
  (** [convert_from_path(path, dpi=dpi, first_page=p, last_page=p, thread_count=1)] *)
  convert_from_path : string -> Z -> Z -> IO World (list Image);
  (** [os.makedirs(path, exist_ok=True)] *)
  makedirs : string -> IO World unit;
  (** [Path.mkdir(exist_ok=True)] *)
  mkdir : string -> IO World unit;
  (** [image.save(filepath, 'PNG')] *)
  image_save : Image -> string -> IO World unit;
  (** [path.exists()] *)
  path_exists : string -> IO World bool;
  (** [list(path.glob("*.pdf"))] *)
  glob_pdf : string -> IO World (list string);
  (** [os.path.relpath(path, start)] *)
  relpath : string -> string -> IO World string;
  (** [os.path.join(a, b)] and [Path(a) / b] *)
  path_join : string -> string -> string;
  (** [Path(path).name] *)
  path_name : string -> string;
  (** [Path(__file__).parent / "output"] and its [evidence_images] child *)
  OUTPUT_DIR : string;
  EVIDENCE_DIR : string
}.

Definition SOURCE_DOCUMENTS_PATH : string :=
  "H:\D_and_M\Ag_project\ag-verification-dashboard\public\source_documents".
Definition YEAR : string := "2024".

(** An entry of the list of documents flagged for review. *)
Record FlaggedItem : Type := {
  flag_company : string;
  flag_document : string;
  flag_confidence : Confidence;
  flag_reason : string
}.

Section Pipeline.

Context {World Image : Type} `{Recognizer Image} `{Platform World Image}.

(** *** [pdf_processor.py] *)

Definition get_pdf_page_count (pdf_path : string) : IO World Z :=
  io_try (page_count <~ fitz_page_count pdf_path ;;
          io_ret (Z.of_nat page_count))
         (fun _ => io_ret 0).

Definition convert_pdf_page_to_image (pdf_path : string) (page_number dpi : Z)
  : IO World (option Image) :=
  io_try (images <~ convert_from_path pdf_path dpi page_number ;;
          match images with
          | image :: _ => io_ret (Some image)
          | [] => io_ret None
          end)
         (fun _ => io_ret None).

Definition evidence_filename (company : string) (sample_num : nat) (page : Z)
    (detected_label : option Z) : string :=
  match detected_label with
  | Some label =>
      company ++ "_2024_sample" ++ str_nat sample_num ++ "_pdf" ++ str_int page
      ++ "_detected" ++ str_int label ++ ".png"
  | None =>
      company ++ "_2024_sample" ++ str_nat sample_num ++ "_pdf" ++ str_int page
      ++ "_nodetection.png"
  end.

Definition save_evidence_image (image : Image) (output_path company : string)
    (sample_num : nat) (page : Z) (detected_label : option Z) : IO World string :=
  _ <~ makedirs output_path ;;
  let filename := evidence_filename company sample_num page detected_label in
  let filepath := path_join output_path filename in
  io_try (_ <~ image_save image filepath ;; io_ret filepath)
         (fun _ => io_ret EmptyString).

(** *** [detect_offsets.py] *)

Definition find_pdfs_in_company_folder (company : string) : IO World (list string) :=
  let company_path := path_join (path_join SOURCE_DOCUMENTS_PATH company) YEAR in
  found <~ path_exists company_path ;;
  if negb found then io_ret []
  else
    pdfs <~ glob_pdf company_path ;;
    io_ret pdfs.

(** One turn of the sampling loop of [process_single_pdf], on the samples and
    evidence images gathered so far. *)
Definition process_sample (path company : string)
    (state : list OffsetSample * list string) (numbered_page : nat * Z)
  : IO World (list OffsetSample * list string) :=
  let '(samples, evidence_images) := state in
  let '(i, page) := numbered_page in
  image <~ convert_pdf_page_to_image path page 200 ;;
  match image with
  | None =>
      io_ret (samples ++ [ {| pdf_page := page; detected_label := None |} ],
              evidence_images)
  | Some image =>
      let detected_label := detect_labeled_page_number image in
      evidence_path <~
        save_evidence_image image EVIDENCE_DIR company i page detected_label ;;
      evidence_images <~
        (if str_truthy evidence_path then
           rel_path <~ relpath evidence_path OUTPUT_DIR ;;
           io_ret (evidence_images ++ [rel_path])
         else io_ret evidence_images) ;;
      io_ret (samples ++ [ {| pdf_page := page; detected_label := detected_label |} ],
              evidence_images)
  end.

Definition process_single_pdf (path company : string) (num_samples : Z)
  : IO World (option DocumentMapping) :=
  total_pages <~ get_pdf_page_count path ;;
  if total_pages =? 0 then io_ret None
  else
    let sample_pages := select_sample_pages total_pages num_samples default_skip_first in
    match sample_pages with
    | [] => io_ret None
    | _ :: _ =>
        gathered <~ io_for (process_sample path company)
                           (enumerate_from_1 sample_pages) ([], []) ;;
        let '(samples, evidence_images) := gathered in
        offset_result <~ io_lift (calculate_offset_from_samples samples) ;;
        let company_key := (company ++ "_" ++ YEAR)%string in
        let mapping :=
          create_offset_mapping company (path_name path) offset_result
                                evidence_images "ocr_auto" in
        io_ret (Some {| core := mapping;
                        company_key := Some company_key;
                        pdf_path := Some path |})
    end.

(** [mapping.get('warning') or mapping.get('message', 'Unknown')] *)
Definition review_reason (mapping : OffsetMapping) : string :=
  let fallback :=
    match map_message mapping with
    | Some message => message
    | None => "Unknown"%string
    end in
  match map_warning mapping with
  | Some warning => if str_truthy warning then warning else fallback
  | None => fallback
  end.

(** What [process_all_companies] does with the mapping of one document. *)
Definition record_mapping (company : string)
    (state : Dict DocumentMapping * list FlaggedItem) (mapping : DocumentMapping)
  : IO World (Dict DocumentMapping * list FlaggedItem) :=
  let '(all_mappings, flagged_items) := state in
  match company_key mapping with
  | None => io_raise "KeyError"
  | Some key =>
      let all_mappings := dict_setitem all_mappings key mapping in
      let flagged_items :=
        match map_confidence (core mapping) with
        | HIGH => flagged_items
        | _ =>
            flagged_items
            ++ [ {| flag_company := company;
                    flag_document := document_name (core mapping);
                    flag_confidence := map_confidence (core mapping);
                    flag_reason := review_reason (core mapping) |} ]
        end in
      io_ret (all_mappings, flagged_items)
  end.

(** One document of the batch, inside its [try]. *)
Definition process_document (company : string) (num_samples : Z)
    (state : Dict DocumentMapping * list FlaggedItem) (path : string)
  : IO World (Dict DocumentMapping * list FlaggedItem) :=
  io_try (mapping <~ process_single_pdf path company num_samples ;;
          match mapping with
          | Some mapping => record_mapping company state mapping
          | None => io_ret state
          end)
         (fun _ => io_ret state).

Definition process_company (num_samples : Z)
    (state : Dict DocumentMapping * list FlaggedItem) (company : string)
  : IO World (Dict DocumentMapping * list FlaggedItem) :=
  pdfs <~ find_pdfs_in_company_folder company ;;
  match pdfs with
  | [] => io_ret state
  | _ :: _ => io_for (process_document company num_samples) pdfs state
  end.

Definition process_all_companies (companies : list string) (num_samples : Z)
  : IO World (Dict DocumentMapping * list FlaggedItem) :=
  _ <~ mkdir OUTPUT_DIR ;;
  _ <~ mkdir EVIDENCE_DIR ;;
  io_for (process_company num_samples) companies ([], []).

End Pipeline.

(** ** The files of the results ([detect_offsets.py]) *)

Definition nl : string := String (ascii_of_nat 10) EmptyString.

(** [s * n] *)
Fixpoint str_repeat (s : string) (n : nat) : string :=
  match n with
  | O => EmptyString
  | S n' => (s ++ str_repeat s n')%string
  end.

(** [f"{s:10s}"] and [f"{n:3d}"]: padding with spaces up to a width. *)
Definition ljust (width : nat) (s : string) : string :=
  (s ++ str_repeat " " (width - String.length s))%string.

Definition rjust (width : nat) (s : string) : string :=
  (str_repeat " " (width - String.length s) ++ s)%string.

Definition confidence_str (c : Confidence) : string :=
  match c with
  | HIGH => "HIGH"
  | MEDIUM => "MEDIUM"
  | LOW => "LOW"
  | NONE => "NONE"
  end.

(** [a / b] on integers, with its [ZeroDivisionError]. *)
Definition py_truediv (a b : Z) : Exc PyFloat.float :=
  if b =? 0 then Raise "ZeroDivisionError" else Ok (PyFloat.truediv a b).

(** [sorted(d.items())]: the keys of a dictionary are distinct, so the items
    are ordered by their keys alone. *)
Fixpoint insert_item {V : Type} (item : string * V) (l : list (string * V))
  : list (string * V) :=
  match l with
  | [] => [item]
  | other :: rest =>
      if String.leb (fst item) (fst other) then item :: l
      else other :: insert_item item rest
  end.

Definition sorted_items {V : Type} (d : Dict V) : list (string * V) :=
  fold_right insert_item [] d.

(** The files [save_results] writes, the clock and the formatting of
    floats. *)
Class Reporter (World : Type) : Type := {
  (** [with open(path, 'w') as f: json.dump(all_mappings, f, indent=2)] *)
  json_dump_file : string -> Dict DocumentMapping -> IO World unit;
  (** [open(path, 'w')], [f.write(text)] and the closing of the file when
      its [with] block is left *)
  open_w : string -> IO World unit;
  f_write : string -> string -> IO World unit;
  f_close : string -> IO World unit;
  (** [datetime.now().strftime('%Y-%m-%d %H:%M:%S')] *)
  strftime_now : IO World string;
  (** [f"{x:5.1f}"], [f"{x:.2f}"] and [str(x)] on a float *)
  format_5_1f : PyFloat.float -> string;
  format_2f : PyFloat.float -> string;
  str_float : PyFloat.float -> string
}.

Section Results.

Context {World Image : Type} `{Platform World Image} `{Reporter World}.

Local Open Scope string_scope.

(** [with open(path, 'w') as f: body]: the file is closed however the body
    ends, and what the body raised is raised again. *)
Definition with_open_w {A : Type} (path : string) (body : IO World A) : IO World A :=
  _ <~ open_w path ;;
  fun w =>
    match body w with
    | (Ok a, w') => (_ <~ f_close path ;; io_ret a) w'
    | (Raise e, w') => (_ <~ f_close path ;; io_raise e) w'
    end.

(** [f"{x}"] and [f"{x:.2f}"] on a value of [statistics.mean] or
    [statistics.median]. *)
Definition str_num (x : PyNum) : string :=
  match x with
  | PInt z => str_int z
  | PFloat x => str_float x
  end.

Definition format_num_2f (x : PyNum) : string :=
  match x with
  | PInt z => format_2f (PyFloat.of_int z)
  | PFloat x => format_2f x
  end.

Definition str_optional_int (o : option Z) : string :=
  match o with
  | Some z => str_int z
  | None => "None"
  end.

(** One line of the confidence distribution. *)
Definition write_confidence_line (report_file : string) (total_documents : Z)
    (_ : unit) (entry : string * Z) : IO World unit :=
  let '(conf, count) := entry in
  ratio <~ io_lift (py_truediv count total_documents) ;;
  let percentage := PyFloat.mul ratio (PyFloat.of_int 100) in
  f_write report_file
    ("  " ++ ljust 10 conf ++ ": " ++ rjust 3 (str_int count) ++ " ("
     ++ format_5_1f percentage ++ "%)" ++ nl).

(** The lines of one document in the detailed results. *)
Definition write_document (report_file : string) (_ : unit)
    (item : string * DocumentMapping) : IO World unit :=
  let '(company_key, mapping) := item in
  let write := f_write report_file in
  _ <~ write (company_key ++ nl) ;;
  _ <~ write ("  Document: " ++ document_name (core mapping) ++ nl) ;;
  _ <~ write ("  Offset: " ++ str_optional_int (map_offset (core mapping)) ++ nl) ;;
  _ <~ write ("  Confidence: " ++ confidence_str (map_confidence (core mapping)) ++ nl) ;;
  _ <~ write ("  Samples: " ++ str_nat (map_samples_agreed (core mapping)) ++ "/"
              ++ str_nat (map_samples_processed (core mapping)) ++ " agreed" ++ nl) ;;
  _ <~ match map_warning (core mapping) with
       | Some warning => write ("  WARNING: " ++ warning ++ nl)
       | None => io_ret tt
       end ;;
  _ <~ match map_message (core mapping) with
       | Some message => write ("  INFO: " ++ message ++ nl)
       | None => io_ret tt
       end ;;
  write nl.

(** The body of the [with] block of the detection report. *)
Definition write_report (report_file : string) (all_mappings : Dict DocumentMapping)
    (stats : SummaryStatistics) : IO World unit :=
  let write := f_write report_file in
  _ <~ write (str_repeat "=" 80 ++ nl) ;;
  _ <~ write ("PAGE OFFSET DETECTION REPORT" ++ nl) ;;
  _ <~ write (str_repeat "=" 80 ++ nl ++ nl) ;;
  now <~ strftime_now ;;
  _ <~ write ("Generated: " ++ now ++ nl) ;;
  _ <~ write ("Source: " ++ SOURCE_DOCUMENTS_PATH ++ nl) ;;
  _ <~ write ("Year: " ++ YEAR ++ nl ++ nl) ;;
  _ <~ write ("SUMMARY STATISTICS" ++ nl) ;;
  _ <~ write (str_repeat "-" 80 ++ nl) ;;
  _ <~ write ("Total documents processed: " ++ str_int (total_documents stats)
              ++ nl ++ nl) ;;
  _ <~ write ("Confidence Distribution:" ++ nl) ;;
  _ <~ io_for (write_confidence_line report_file (total_documents stats))
         [("HIGH"%string, dist_HIGH (confidence_distribution stats));
          ("MEDIUM"%string, dist_MEDIUM (confidence_distribution stats));
          ("LOW"%string, dist_LOW (confidence_distribution stats));
          ("NONE"%string, dist_NONE (confidence_distribution stats))] tt ;;
  _ <~ write (nl ++ "Documents with offset: "
              ++ str_int (documents_with_offset stats) ++ nl) ;;
  _ <~ write ("Documents without offset: "
              ++ str_int (documents_no_offset stats) ++ nl ++ nl) ;;
  _ <~ match offset_statistics stats with
       | Some offset_stats =>
           _ <~ write ("Offset Statistics:" ++ nl) ;;
           _ <~ write ("  Min: " ++ str_int (stat_min offset_stats) ++ nl) ;;
           _ <~ write ("  Max: " ++ str_int (stat_max offset_stats) ++ nl) ;;
           _ <~ write ("  Mean: " ++ format_num_2f (stat_mean offset_stats) ++ nl) ;;
           _ <~ write ("  Median: " ++ str_num (stat_median offset_stats) ++ nl) ;;
           write ("  Mode: " ++ str_optional_int (stat_mode offset_stats) ++ nl ++ nl)
       | None => io_ret tt
       end ;;
  _ <~ write (nl ++ "DETAILED RESULTS" ++ nl) ;;
  _ <~ write (str_repeat "=" 80 ++ nl ++ nl) ;;
  io_for (write_document report_file) (sorted_items all_mappings) tt.

Definition write_flagged_item (flagged_file : string) (_ : unit) (item : FlaggedItem)
  : IO World unit :=
  let write := f_write flagged_file in
  _ <~ write ("Company: " ++ flag_company item ++ nl) ;;
  _ <~ write ("Document: " ++ flag_document item ++ nl) ;;
  _ <~ write ("Confidence: " ++ confidence_str (flag_confidence item) ++ nl) ;;
  _ <~ write ("Reason: " ++ flag_reason item ++ nl) ;;
  write nl.

Definition save_results (all_mappings : Dict DocumentMapping)
    (flagged_items : list FlaggedItem) : IO World unit :=
  let mappings_file := path_join OUTPUT_DIR "page_offset_mappings.json" in
  _ <~ json_dump_file mappings_file all_mappings ;;
  stats <~ io_lift (generate_summary_statistics all_mappings) ;;
  let report_file := path_join OUTPUT_DIR "detection_report.txt" in
  _ <~ with_open_w report_file (write_report report_file all_mappings stats) ;;
  match flagged_items with
  | _ :: _ =>
      let flagged_file := path_join OUTPUT_DIR "flagged_for_review.txt" in
      with_open_w flagged_file
        (let write := f_write flagged_file in
         _ <~ write (str_repeat "=" 80 ++ nl) ;;
         _ <~ write ("ITEMS FLAGGED FOR MANUAL REVIEW" ++ nl) ;;
         _ <~ write (str_repeat "=" 80 ++ nl ++ nl) ;;
         _ <~ write ("Total flagged: " ++ str_nat (List.length flagged_items)
                     ++ nl ++ nl) ;;
         io_for (write_flagged_item flagged_file) flagged_items tt)
  | [] => io_ret tt
  end.

End Results.


Definition always_returns {World A : Type} (m : IO World A) : Prop :=
  forall w, exists a w', m w = (Ok a, w').

Definition always_raises_with {World A : Type} (e : string) (m : IO World A) : Prop :=
  forall w, exists w', m w = (Raise e, w').

(** A reporter to evaluate [save_results] on: every write is counted. *)
Definition example_reporter : Reporter nat := {|
  json_dump_file := fun _ _ w => (Ok tt, S w);
  open_w := fun _ w => (Ok tt, w);
  f_write := fun _ _ w => (Ok tt, S w);
  f_close := fun _ w => (Ok tt, w);
  strftime_now := fun w => (Ok "2025-01-01 00:00:00"%string, w);
  format_5_1f := fun _ => "100.0"%string;
  format_2f := fun _ => "0.00"%string;
  str_float := fun _ => "0.0"%string
|}.

(** The last mapping of a list filed under the key [key]. *)
Definition last_with_key (key : string) (mappings : list DocumentMapping)
  : option DocumentMapping :=
  find (fun m => match company_key m with
                 | Some k => String.eqb k key
                 | None => false
                 end)
       (rev mappings).

(** The flag of an evidence entry that agrees with the consensus. *)
Definition flagged_agreeing (e : Evidence) : bool :=
  match agrees_with_consensus e with
  | Some true => true
  | _ => false
  end.

(** The pages of the default sampling in exact integer arithmetic: the
    quarter points of the usable span. *)
Definition quarter_points (total_pages : Z) : list Z :=
  let usable_range := total_pages - 6 in
  [6 + usable_range / 4; 6 + usable_range * 2 / 4; 6 + usable_range * 3 / 4].

Definition default_sampling_exact (total_pages : nat) : bool :=
  if list_eq_dec Z.eq_dec
       (select_sample_pages (Z.of_nat total_pages) default_num_samples
                            default_skip_first)
       (quarter_points (Z.of_nat total_pages))
  then true else false.

(** The offsets [generate_summary_statistics] gathers. *)
Definition gathered_offsets (all_mappings : Dict DocumentMapping) : list Z :=
  flat_map (fun m => match map_offset (core m) with
                     | Some o => [o]
                     | None => []
                     end) (dict_values all_mappings).

(** A mapping built by [create_offset_mapping] from a result of
    [calculate_offset_from_samples]. *)
Definition built_from_consensus (m : OffsetMapping) : Prop :=
  exists samples r company document_name evidence_images method,
    calculate_offset_from_samples samples = Ok r
    /\ m = create_offset_mapping company document_name r evidence_images method.

(** What [process_all_companies] keeps true of the mappings and the flagged
    items it has gathered, while it runs over [companies]. *)
Definition batch_invariant (companies : list string)
    (state : Dict DocumentMapping * list FlaggedItem) : Prop :=
  NoDup (dict_keys (fst state))
  /\ (forall key m, In (key, m) (fst state) ->
       exists company,
         In company companies
         /\ key = (company ++ "_2024")%string
         /\ company_key m = Some key
         /\ built_from_consensus (core m)
         /\ (map_confidence (core m) <> HIGH ->
             In {| flag_company := company;
                   flag_document := document_name (core m);
                   flag_confidence := map_confidence (core m);
                   flag_reason := review_reason (core m) |} (snd state)))
  /\ (forall f, In f (snd state) ->
       In (flag_company f) companies
       /\ flag_confidence f <> HIGH
       /\ flag_reason f <> "Unknown"%string
       /\ str_truthy (flag_reason f) = true).

(** A platform to evaluate the pipeline on.  Its world is the number of
    files written so far; [empty.pdf] has no page, [broken.pdf] cannot be
    opened, [scan.pdf] has 40 pages none of which can be rendered, and any
    other document has 100 pages. *)
Definition example_platform : Platform nat unit := {|
  fitz_page_count := fun path w =>
    if String.eqb path "empty.pdf" then (Ok 0%nat, w)
    else if String.eqb path "broken.pdf" then (Raise "FileDataError"%string, w)
    else if String.eqb path "scan.pdf" then (Ok 40%nat, w)
    else (Ok 100%nat, w);
  convert_from_path := fun path dpi page w =>
    if String.eqb path "scan.pdf" then (Raise "PDFPageCountError"%string, w)
    else (Ok [tt], w);
  makedirs := fun _ w => (Ok tt, w);
  mkdir := fun _ w => (Ok tt, w);
  image_save := fun _ _ w => (Ok tt, S w);
  path_exists := fun _ w => (Ok true, w);
  glob_pdf := fun _ w => (Ok ["report.pdf"; "broken.pdf"; "scan.pdf"]%string, w);
  relpath := fun path _ w => (Ok path, w);
  path_join := fun a b => (a ++ "/" ++ b)%string;
  path_name := fun path => path;
  OUTPUT_DIR := "output";
  EVIDENCE_DIR := "output/evidence_images"
|}.

(** Mappings to evaluate [save_results] on: one document without an offset. *)
Definition example_mappings : Dict DocumentMapping :=
  [("ACME_2024"%string,
    {| core := {| document_name := "report.pdf"; map_offset := None;
                  map_confidence := NONE; map_samples_processed := 3;
                  map_samples_agreed := 0; method := "ocr_auto";
                  map_evidence := []; evidence_images := [];
                  map_warning := None;
                  map_message := Some no_detection_message;
                  map_offset_distribution := None; validation := None |};
       company_key := Some "ACME_2024"%string;
       pdf_path := Some "report.pdf"%string |})].

(** The distribution invariant as section 5 of the specification words it,
    for any result: [offset_distribution] and [samples_valid] are fields of
    the result, and the counts of the first add up to the second. *)
Definition distribution_invariant_spec (r : OffsetResult) : Prop :=
  exists d n,
    offset_distribution r = Some d
    /\ samples_valid r = Some n
    /\ sum_values d = n.

(** * Properties *)

(** ** Sampler *)

Lemma py_range_length (a b : Z) : List.length (py_range a b) = Z.to_nat (b - a).
Proof. unfold py_range. now rewrite length_map, length_seq. Qed.

Lemma py_range_In (a b p : Z) : In p (py_range a b) <-> a <= p < b.
Proof.
  unfold py_range. rewrite in_map_iff. split.
  - intros (k & <- & Hk). apply in_seq in Hk. lia.
  - intros Hp. exists (Z.to_nat (p - a)). split; [lia|].
    apply in_seq. lia.
Qed.

Lemma py_range_NoDup (a b : Z) : NoDup (py_range a b).
Proof.
  unfold py_range. apply Injective_map_NoDup.
  - intros x y Hxy. lia.
  - apply seq_NoDup.
Qed.

Lemma py_range_nth_error (a b i : Z) :
  0 <= i < b - a -> nth_error (py_range a b) (Z.to_nat i) = Some (a + i).
Proof.
  intros Hi. unfold py_range.
  rewrite nth_error_map, nth_error_seq.
  destruct (Nat.ltb_spec (Z.to_nat i) (Z.to_nat (b - a))) as [_|Hge]; [|lia].
  simpl. f_equal. lia.
Qed.

Lemma select_sample_pages_too_short (total_pages num_samples skip_first : Z) :
  total_pages <= skip_first ->
  select_sample_pages total_pages num_samples skip_first
  = if 0 <? total_pages then [total_pages / 2] else [].
Proof.
  intros Hle. unfold select_sample_pages.
  now destruct (Z.leb_spec total_pages skip_first); [|lia].
Qed.

Lemma select_sample_pages_all_usable (total_pages num_samples skip_first : Z) :
  skip_first < total_pages ->
  total_pages - (skip_first + 1) < num_samples ->
  select_sample_pages total_pages num_samples skip_first
  = usable_pages total_pages skip_first.
Proof.
  intros Hlt Hfew. unfold select_sample_pages, usable_pages.
  destruct (Z.leb_spec total_pages skip_first); [lia|].
  now destruct (Z.ltb_spec (total_pages - (skip_first + 1)) num_samples); [|lia].
Qed.

Lemma select_sample_pages_spaced (total_pages num_samples skip_first : Z) :
  skip_first < total_pages ->
  num_samples <= total_pages - (skip_first + 1) ->
  select_sample_pages total_pages num_samples skip_first
  = map (sample_position (skip_first + 1) (total_pages - (skip_first + 1)) num_samples)
        (py_range 0 num_samples).
Proof.
  intros Hlt Hmany. unfold select_sample_pages.
  destruct (Z.leb_spec total_pages skip_first); [lia|].
  now destruct (Z.ltb_spec (total_pages - (skip_first + 1)) num_samples); [lia|].
Qed.

(** The double-precision product can fall just short of an integer that the
    exact product reaches, and truncation then gives the page before: with
    176 pages and 9 samples the seventh position is 124, where
    [6 + 170 * 7 / 10] is 125. *)
Remark sample_position_float_truncation :
  nth_error (select_sample_pages 176 9 5) 6 = Some 124
  /\ 6 + 170 * (6 + 1) / (9 + 1) = 125.
Proof. split; vm_compute; reflexivity. Qed.

(** C3, as the specification states it, fails: with 8 pages, 3 samples and
    5 skipped pages the usable pages 6..8 are three, not fewer than
    [num_samples], and the code still returns all of them, [6; 7; 8], not
    the evenly spaced [6; 7; 7]. *)
Lemma select_sample_pages_spec_counterexample :
  5 < 8
  /\ ~ (Z.of_nat (List.length (usable_pages 8 5)) < 3)
  /\ select_sample_pages 8 3 5 = [6; 7; 8]
  /\ select_sample_pages_spec 8 3 5 = [6; 7; 7]
  /\ select_sample_pages 8 3 5 <> select_sample_pages_spec 8 3 5.
Proof.
  split; [lia|]. split; [vm_compute; discriminate|].
  split; [vm_compute; reflexivity|]. split; [vm_compute; reflexivity|].
  vm_compute. discriminate.
Qed.

(** C3 (amended): for [total_pages > skip_first], with
    [usable_range = total_pages - (skip_first + 1)]: when
    [usable_range < num_samples] (at most [num_samples] usable pages) the
    result is every page [skip_first+1 .. total_pages], each once; otherwise
    it has exactly [num_samples] pages, the [i]-th being
    [int(usable_start + usable_range * ((i+1)/(num_samples+1)))] computed in
    double precision, in the order of [i]; and 100 pages with the default
    arguments give [29; 53; 76]. *)
Theorem select_sample_pages_usable_range (total_pages num_samples skip_first : Z) :
  skip_first < total_pages ->
  let usable_start := skip_first + 1 in
  let usable_range := total_pages - usable_start in
  let pages := select_sample_pages total_pages num_samples skip_first in
  (usable_range < num_samples ->
     pages = usable_pages total_pages skip_first
     /\ NoDup pages
     /\ forall p, In p pages <-> usable_start <= p <= total_pages)
  /\ (num_samples <= usable_range ->
        List.length pages = Z.to_nat num_samples
        /\ forall i, 0 <= i < num_samples ->
             nth_error pages (Z.to_nat i)
             = Some (sample_position usable_start usable_range num_samples i))
  /\ select_sample_pages 100 default_num_samples default_skip_first = [29; 53; 76].
Proof.
  intros Hlt usable_start usable_range pages. split; [|split].
  - intros Hfew. subst pages.
    rewrite select_sample_pages_all_usable by assumption.
    split; [reflexivity|]. split; [apply py_range_NoDup|].
    intros p. unfold usable_pages. rewrite py_range_In. subst usable_start. lia.
  - intros Hmany. subst pages.
    rewrite select_sample_pages_spaced by assumption. split.
    + rewrite length_map, py_range_length. f_equal. lia.
    + intros i Hi. rewrite nth_error_map, py_range_nth_error by lia. reflexivity.
  - vm_compute. reflexivity.
Qed.

Lemma select_sample_pages_usable_range_witness :
  5 < 100
  /\ List.length (select_sample_pages 100 3 5) = 3%nat
  /\ nth_error (select_sample_pages 100 3 5) 1 = Some 53.
Proof.
  split; [lia|].
  destruct (select_sample_pages_usable_range 100 3 5 ltac:(lia)) as (_ & Hspaced & _).
  destruct (Hspaced ltac:(lia)) as (Hlen & Hnth).
  split; [exact Hlen|].
  exact (eq_trans (Hnth 1 ltac:(lia)) eq_refl).
Defined.

(** C8: for [0 <= total_pages <= skip_first] the sampler returns at most one
    page: nothing when [total_pages = 0], otherwise [total_pages // 2]. *)
Theorem select_sample_pages_short_document (total_pages num_samples skip_first : Z) :
  0 <= total_pages ->
  total_pages <= skip_first ->
  let pages := select_sample_pages total_pages num_samples skip_first in
  (List.length pages <= 1)%nat
  /\ (total_pages = 0 -> pages = [])
  /\ (total_pages <> 0 -> pages = [total_pages / 2]).
Proof.
  intros Hnonneg Hle pages. subst pages.
  rewrite select_sample_pages_too_short by assumption.
  destruct (Z.ltb_spec 0 total_pages); simpl; repeat split; intros; try lia; reflexivity.
Qed.

Lemma select_sample_pages_short_document_witness :
  0 <= 4 /\ 4 <= 5 /\ select_sample_pages 4 3 5 = [2].
Proof.
  split; [lia|]. split; [lia|].
  apply (select_sample_pages_short_document 4 3 5); lia.
Defined.

(** A negative page count, which [len] never gives, yields no page. *)
Remark select_sample_pages_negative (total_pages num_samples skip_first : Z) :
  total_pages < 0 -> total_pages <= skip_first ->
  select_sample_pages total_pages num_samples skip_first = [].
Proof.
  intros Hneg Hle. rewrite select_sample_pages_too_short by assumption.
  now destruct (Z.ltb_spec 0 total_pages); [lia|].
Qed.

(** C10: a one-page document, with any [skip_first >= 1] (the default 5
    included), is sampled at page 0, which is not a 1-based page index of
    the document. *)
Theorem select_sample_pages_one_page (num_samples skip_first : Z) :
  1 <= skip_first ->
  select_sample_pages 1 num_samples skip_first = [0]
  /\ valid_page_index 1 0 = false
  /\ select_sample_pages 1 default_num_samples default_skip_first = [0].
Proof.
  intros Hskip. split; [|split; reflexivity].
  rewrite select_sample_pages_too_short by lia. reflexivity.
Qed.

Lemma select_sample_pages_one_page_witness :
  1 <= 5 /\ select_sample_pages 1 3 5 = [0].
Proof.
  split; [lia|]. apply (select_sample_pages_one_page 3 5). lia.
Defined.

(** ** Counters *)

Section ListFacts.

Context {A : Type}.

Lemma filter_filter_andb (f g : A -> bool) (l : list A) :
  filter f (filter g l) = filter (fun x => g x && f x) l.
Proof.
  induction l as [|a l IH]; simpl; [reflexivity|].
  destruct (g a); simpl; [destruct (f a)|]; now rewrite IH.
Qed.

Lemma filter_all (f : A -> bool) (l : list A) :
  (forall x, In x l -> f x = true) -> filter f l = l.
Proof.
  induction l as [|a l IH]; simpl; intros Hall; [reflexivity|].
  rewrite (Hall a) by now left. f_equal. apply IH. intros x Hx. apply Hall. now right.
Qed.

(** A list without duplicates splits around an element in one way only. *)
Lemma NoDup_split_unique (x : A) (a b a' b' : list A) :
  NoDup (a ++ x :: b) -> a ++ x :: b = a' ++ x :: b' -> a = a' /\ b = b'.
Proof.
  revert a'. induction a as [|y a IH]; intros [|y' a'] Hnd Heq; simpl in *.
  - split; [reflexivity|]. now injection Heq.
  - injection Heq as -> ->. inversion Hnd as [|? ? Hnotin _]; subst.
    exfalso. apply Hnotin. apply in_or_app. right. now left.
  - injection Heq as -> <-. inversion Hnd as [|? ? Hnotin _]; subst.
    exfalso. apply Hnotin. apply in_or_app. right. now left.
  - injection Heq as -> Heq. inversion Hnd as [|? ? _ Hnd']; subst.
    destruct (IH a' Hnd' Heq) as [-> ->]. now split.
Qed.

End ListFacts.

(** An element of a list has a first occurrence. *)
Lemma first_occurrence_split (o : Z) (l : list Z) :
  In o l -> exists l1 l2, l = l1 ++ o :: l2 /\ ~ In o l1.
Proof.
  induction l as [|x l IH]; intros Hin; [destruct Hin|].
  destruct (Z.eq_dec x o) as [->|Hne].
  - exists [], l. split; [reflexivity|]. intros [].
  - destruct Hin as [Heq|Hin]; [contradiction|].
    destruct (IH Hin) as (l1 & l2 & -> & Hnot).
    exists (x :: l1), l2. split; [reflexivity|].
    intros [Heq|Hin']; [contradiction|]. now apply Hnot.
Qed.

Lemma existsb_eqb_In (x : Z) (l : list Z) :
  existsb (Z.eqb x) l = true <-> In x l.
Proof.
  rewrite existsb_exists. split.
  - intros (y & Hy & Heq). apply Z.eqb_eq in Heq. now subst.
  - intros Hin. exists x. split; [assumption|apply Z.eqb_refl].
Qed.

Lemma first_occ_In (k : Z) (l : list Z) : In k (first_occ l) <-> In k l.
Proof.
  induction l as [|x l IH]; simpl; [tauto|].
  rewrite filter_In, IH, negb_true_iff, Z.eqb_neq.
  destruct (Z.eq_dec x k) as [->|Hne]; [tauto|]. intuition congruence.
Qed.

Lemma first_occ_NoDup (l : list Z) : NoDup (first_occ l).
Proof.
  induction l as [|x l IH]; simpl; constructor.
  - rewrite filter_In, negb_true_iff, Z.eqb_neq. tauto.
  - now apply NoDup_filter.
Qed.

Lemma first_occ_app (l1 l2 : list Z) :
  first_occ (l1 ++ l2)
  = first_occ l1 ++ filter (fun y => negb (existsb (Z.eqb y) l1)) (first_occ l2).
Proof.
  induction l1 as [|a l1 IH]; simpl.
  - symmetry. now apply filter_all.
  - rewrite IH, filter_app, filter_filter_andb. do 2 f_equal.
    apply filter_ext. intros y. now rewrite negb_orb, andb_comm.
Qed.

Lemma first_occ_snoc (l : list Z) (x : Z) :
  first_occ (l ++ [x]) = first_occ l ++ (if existsb (Z.eqb x) l then [] else [x]).
Proof.
  rewrite first_occ_app. simpl. now destruct (existsb (Z.eqb x) l).
Qed.

(** Counting one more [x] in the items [(k, g k)] of distinct keys. *)
Lemma counter_incr_map (g : Z -> nat) (x : Z) (keys : list Z) :
  NoDup keys ->
  counter_incr (map (fun k => (k, g k)) keys) x
  = map (fun k => (k, if k =? x then S (g k) else g k)) keys
    ++ (if existsb (Z.eqb x) keys then [] else [(x, 1%nat)]).
Proof.
  induction keys as [|k keys IH]; intros Hnd; simpl; [reflexivity|].
  inversion Hnd as [|? ? Hnotin Hnd']; subst.
  rewrite (Z.eqb_sym x k).
  destruct (Z.eqb_spec k x) as [->|Hne]; simpl.
  - rewrite app_nil_r. f_equal. apply map_ext_in. intros k Hk.
    destruct (Z.eqb_spec k x) as [->|_]; [contradiction|reflexivity].
  - f_equal. now apply IH.
Qed.

(** A counter lists each distinct value once, in first-occurrence order,
    with the number of its occurrences. *)
Lemma Counter_first_occ (l : list Z) :
  Counter l = map (fun k => (k, count_occ Z.eq_dec l k)) (first_occ l).
Proof.
  induction l as [|x l IH] using rev_ind; [reflexivity|].
  unfold Counter in *. rewrite fold_left_app. simpl. rewrite IH.
  rewrite counter_incr_map by apply first_occ_NoDup.
  rewrite first_occ_snoc, map_app. f_equal.
  - apply map_ext. intros k. rewrite count_occ_app. simpl.
    destruct (Z.eqb_spec k x) as [->|Hne].
    + destruct (Z.eq_dec x x); [|contradiction]. f_equal. lia.
    + destruct (Z.eq_dec x k); [congruence|]. f_equal. lia.
  - destruct (existsb (Z.eqb x) (first_occ l)) eqn:Hex1;
    destruct (existsb (Z.eqb x) l) eqn:Hex2; simpl; try reflexivity.
    + pose proof (proj1 (existsb_eqb_In x _) Hex1) as Hin.
      pose proof (proj2 (existsb_eqb_In x l) (proj1 (first_occ_In x l) Hin)).
      congruence.
    + pose proof (proj1 (existsb_eqb_In x _) Hex2) as Hin.
      pose proof (proj2 (existsb_eqb_In x _) (proj2 (first_occ_In x l) Hin)).
      congruence.
    + rewrite count_occ_app. simpl. destruct (Z.eq_dec x x); [|contradiction].
      assert (Hnot : ~ In x l).
      { intros Hin. apply existsb_eqb_In in Hin. congruence. }
      apply (count_occ_not_In Z.eq_dec) in Hnot. now rewrite Hnot.
Qed.

(** [max] returns the first item of greatest count: the items before it
    have a smaller count, the items after it none greater. *)
Lemma max_by_count_first_max (rest pre mid : list (Z * nat)) (best : Z * nat) :
  (forall e, In e pre -> (snd e < snd best)%nat) ->
  (forall e, In e mid -> (snd e <= snd best)%nat) ->
  exists before after,
    pre ++ best :: mid ++ rest = before ++ max_by_count best rest :: after
    /\ (forall e, In e before -> (snd e < snd (max_by_count best rest))%nat)
    /\ (forall e, In e after -> (snd e <= snd (max_by_count best rest))%nat).
Proof.
  revert pre mid best.
  induction rest as [|it rest IH]; intros pre mid best Hpre Hmid; simpl.
  - exists pre, mid. rewrite app_nil_r. now repeat split.
  - destruct (Nat.ltb_spec (snd best) (snd it)) as [Hlt|Hge].
    + destruct (IH (pre ++ best :: mid) [] it) as (before & after & Heq & Hb & Ha).
      * intros e He. apply in_app_or in He. destruct He as [He|[<-|He]].
        -- specialize (Hpre e He). lia.
        -- assumption.
        -- specialize (Hmid e He). lia.
      * intros e [].
      * exists before, after. split; [|now split].
        rewrite <- Heq. simpl. now rewrite <- app_assoc.
    + destruct (IH pre (mid ++ [it]) best) as (before & after & Heq & Hb & Ha).
      * assumption.
      * intros e He. apply in_app_or in He. destruct He as [He|[<-|[]]];
          [now apply Hmid|assumption].
      * exists before, after. split; [|now split].
        rewrite <- Heq. now rewrite <- app_assoc.
Qed.

(** The one item [most_common(1)] returns on a non-empty list: a value of
    greatest count, before whose first occurrence only values of smaller
    count occur. *)
Lemma most_common_1_mode (l : list Z) :
  l <> [] ->
  exists o,
    most_common_1 (Counter l) = [(o, count_occ Z.eq_dec l o)]
    /\ (forall x, (count_occ Z.eq_dec l x <= count_occ Z.eq_dec l o)%nat)
    /\ exists l1 l2,
         l = l1 ++ o :: l2
         /\ ~ In o l1
         /\ forall x, In x l1 ->
              (count_occ Z.eq_dec l x < count_occ Z.eq_dec l o)%nat.
Proof.
  intros Hne. set (cnt := fun k => (k, count_occ Z.eq_dec l k)).
  assert (HC : Counter l = map cnt (first_occ l)) by apply Counter_first_occ.
  destruct (first_occ l) as [|k0 keys] eqn:Hkeys.
  { destruct l as [|x l]; [contradiction|discriminate]. }
  simpl in HC. unfold most_common_1. rewrite HC.
  destruct (max_by_count_first_max (map cnt keys) [] [] (cnt k0))
    as (before & after & Heq & Hb & Ha); [intros e []|intros e []|].
  simpl in Heq. set (m := max_by_count (cnt k0) (map cnt keys)) in *.
  change (cnt k0 :: map cnt keys) with (map cnt (k0 :: keys)) in Heq.
  rewrite <- Hkeys in Heq.
  apply map_eq_app in Heq. destruct Heq as (K1 & K2' & HK & HK1 & HK2).
  apply map_eq_cons in HK2. destruct HK2 as (o & K2 & -> & Hm & HK2).
  exists o. split; [now rewrite <- Hm|].
  assert (Hcount : snd m = count_occ Z.eq_dec l o) by now rewrite <- Hm.
  assert (Hbefore : forall x, In x K1 ->
            (count_occ Z.eq_dec l x < count_occ Z.eq_dec l o)%nat).
  { intros x Hx. rewrite <- Hcount. apply (Hb (cnt x)). rewrite <- HK1.
    now apply in_map. }
  assert (Hafter : forall x, In x K2 ->
            (count_occ Z.eq_dec l x <= count_occ Z.eq_dec l o)%nat).
  { intros x Hx. rewrite <- Hcount. apply (Ha (cnt x)). rewrite <- HK2.
    now apply in_map. }
  split.
  - intros x. destruct (in_dec Z.eq_dec x l) as [Hin|Hnot].
    + apply first_occ_In in Hin. rewrite HK in Hin.
      apply in_app_or in Hin. destruct Hin as [Hin|[->|Hin]].
      * specialize (Hbefore x Hin). lia.
      * lia.
      * now apply Hafter.
    + apply (count_occ_not_In Z.eq_dec) in Hnot. lia.
  - assert (Hino : In o l).
    { apply first_occ_In. rewrite HK. apply in_or_app. right. now left. }
    destruct (first_occurrence_split o l Hino) as (l1 & l2 & Hl & Hnot).
    exists l1, l2. split; [assumption|]. split; [assumption|].
    intros x Hx. apply Hbefore.
    assert (Hsplit : first_occ l
              = first_occ l1
                ++ o :: filter (fun y => negb (existsb (Z.eqb y) l1))
                          (filter (fun y => negb (y =? o)) (first_occ l2))).
    { rewrite Hl at 1. rewrite first_occ_app. simpl.
      destruct (existsb (Z.eqb o) l1) eqn:Hex; [|reflexivity].
      apply existsb_eqb_In in Hex. contradiction. }
    assert (Hnd : NoDup (K1 ++ o :: K2)) by (rewrite <- HK; apply first_occ_NoDup).
    rewrite HK in Hsplit.
    destruct (NoDup_split_unique o _ _ _ _ Hnd Hsplit) as [-> _].
    now apply first_occ_In.
Qed.

(** *** Samples and their offsets *)

Lemma offsets_of_valid (samples : list OffsetSample) :
  offsets_of (filter is_valid_sample samples) = offsets_of samples.
Proof.
  unfold offsets_of. induction samples as [|s samples IH]; simpl; [reflexivity|].
  destruct (is_valid_sample s) eqn:Hs; simpl; [now rewrite IH|].
  unfold is_valid_sample in Hs. destruct (offset s); [discriminate|]. exact IH.
Qed.

Lemma offsets_of_length (samples : list OffsetSample) :
  List.length (offsets_of samples) = List.length (filter is_valid_sample samples).
Proof.
  unfold offsets_of. induction samples as [|s samples IH]; simpl; [reflexivity|].
  rewrite length_app, IH. unfold is_valid_sample. now destruct (offset s).
Qed.

Lemma offsets_of_count (o : Z) (samples : list OffsetSample) :
  count_occ Z.eq_dec (offsets_of samples) o = List.length (agreeing o samples).
Proof.
  unfold offsets_of, agreeing.
  induction samples as [|s samples IH]; simpl; [reflexivity|].
  rewrite count_occ_app, IH. destruct (offset s) as [x|]; simpl; [|reflexivity].
  destruct (Z.eq_dec x o) as [->|Hne].
  - now rewrite Z.eqb_refl.
  - destruct (Z.eqb_spec x o); [contradiction|reflexivity].
Qed.

Lemma agreeing_valid (o : Z) (samples : list OffsetSample) :
  agreeing o (filter is_valid_sample samples) = agreeing o samples.
Proof.
  unfold agreeing. rewrite filter_filter_andb. apply filter_ext.
  intros s. unfold is_valid_sample. now destruct (offset s).
Qed.

Lemma sum_values_counter_incr (c : Counter_t) (x : Z) :
  sum_values (counter_incr c x) = S (sum_values c).
Proof.
  unfold sum_values. induction c as [|[k n] c IH]; simpl; [reflexivity|].
  destruct (k =? x); simpl; [reflexivity|]. rewrite IH. lia.
Qed.

Lemma sum_values_Counter (l : list Z) : sum_values (Counter l) = List.length l.
Proof.
  unfold Counter. induction l as [|x l IH] using rev_ind; [reflexivity|].
  rewrite fold_left_app, length_app. simpl.
  rewrite sum_values_counter_incr, IH. lia.
Qed.

Lemma dict_get_map (g : Z -> nat) (keys : list Z) (k : Z) :
  In k keys -> dict_get (map (fun k => (k, g k)) keys) k = Some (g k).
Proof.
  induction keys as [|k' keys IH]; intros Hin; simpl; [destruct Hin|].
  destruct (Z.eqb_spec k' k) as [->|Hne]; [reflexivity|].
  destruct Hin as [Heq|Hin]; [contradiction|now apply IH].
Qed.

Lemma dict_get_Counter (l : list Z) (k : Z) :
  In k l -> dict_get (Counter l) k = Some (count_occ Z.eq_dec l k).
Proof.
  intros Hin. rewrite Counter_first_occ.
  apply (dict_get_map (count_occ Z.eq_dec l)). now apply first_occ_In.
Qed.

(** *** The two paths of [calculate_offset_from_samples] *)

Lemma is_valid_sample_has_label (s : OffsetSample) :
  is_valid_sample s = has_label s.
Proof. unfold is_valid_sample, has_label, offset. now destruct (detected_label s). Qed.

Lemma filter_has_label (samples : list OffsetSample) :
  filter has_label samples = filter is_valid_sample samples.
Proof. apply filter_ext. intros s. symmetry. apply is_valid_sample_has_label. Qed.

(** No valid sample: the early return. *)
Lemma calculate_offset_no_valid (samples : list OffsetSample) :
  filter is_valid_sample samples = [] ->
  exists r,
    calculate_offset_from_samples samples = Ok r
    /\ res_offset r = None
    /\ confidence r = NONE
    /\ samples_processed r = List.length samples
    /\ samples_agreed r = 0%nat
    /\ samples_valid r = None
    /\ offset_distribution r = None
    /\ message r = Some no_detection_message
    /\ evidence r
       = map (fun s => {| ev_pdf_page := pdf_page s;
                          ev_detected_label := detected_label s;
                          ev_offset := offset s;
                          agrees_with_consensus := None |}) samples.
Proof.
  intros Hnone. unfold calculate_offset_from_samples. rewrite Hnone.
  eexists. split; [reflexivity|]. simpl. now repeat split.
Qed.

(** Some valid sample: the consensus path, which does not raise. *)
Lemma calculate_offset_some_valid (samples : list OffsetSample) :
  filter is_valid_sample samples <> [] ->
  let valid_samples := filter is_valid_sample samples in
  let offsets := offsets_of valid_samples in
  exists r o,
    calculate_offset_from_samples samples = Ok r
    /\ (forall x, (count_occ Z.eq_dec offsets x <= count_occ Z.eq_dec offsets o)%nat)
    /\ (exists l1 l2,
          offsets = l1 ++ o :: l2
          /\ ~ In o l1
          /\ forall x, In x l1 ->
               (count_occ Z.eq_dec offsets x < count_occ Z.eq_dec offsets o)%nat)
    /\ res_offset r = Some o
    /\ samples_agreed r = count_occ Z.eq_dec offsets o
    /\ samples_valid r = Some (List.length valid_samples)
    /\ agreement_ratio r
       = Some (PyFloat.truediv (Z.of_nat (count_occ Z.eq_dec offsets o))
                               (Z.of_nat (List.length valid_samples)))
    /\ confidence r
       = (let ratio := PyFloat.truediv (Z.of_nat (count_occ Z.eq_dec offsets o))
                                       (Z.of_nat (List.length valid_samples)) in
          if PyFloat.eqb ratio PyFloat.lit_1_0 then HIGH
          else if PyFloat.leb PyFloat.lit_0_66 ratio then MEDIUM else LOW)
    /\ samples_processed r = List.length samples
    /\ offset_distribution r = Some (Counter offsets)
    /\ evidence r
       = map (fun s => {| ev_pdf_page := pdf_page s;
                          ev_detected_label := detected_label s;
                          ev_offset := offset s;
                          agrees_with_consensus :=
                            Some (opt_eqb (offset s) (Some o)) |}) samples.
Proof.
  intros Hsome valid_samples offsets.
  assert (Hne : offsets <> []).
  { intros Hnil. apply Hsome. apply length_zero_iff_nil.
    subst offsets valid_samples. rewrite offsets_of_valid in Hnil.
    rewrite <- offsets_of_length, Hnil. reflexivity. }
  destruct (most_common_1_mode offsets Hne) as (o & Hmc & Hmode & Hfirst).
  unfold calculate_offset_from_samples.
  fold valid_samples. fold offsets. rewrite Hmc.
  destruct valid_samples as [|s0 rest] eqn:Hvalid; [contradiction|].
  eexists. exists o. split; [reflexivity|].
  split; [exact Hmode|]. split; [exact Hfirst|]. simpl. now repeat split.
Qed.

(** *** Confidence tiers *)

Lemma forallb_pairs (P : nat -> nat -> bool) (n : nat) :
  forallb (fun t => forallb (fun c => P c t) (seq 1 t)) (seq 1 n) = true ->
  forall c t, (1 <= c <= t)%nat -> (t <= n)%nat -> P c t = true.
Proof.
  intros Hall c t Hc Ht. rewrite forallb_forall in Hall.
  specialize (Hall t ltac:(apply in_seq; lia)).
  rewrite forallb_forall in Hall. apply Hall. apply in_seq. lia.
Qed.

(** Checked by evaluation for every count of agreeing samples among up to
    64 valid samples. *)
Lemma ratio_exact_64 :
  forallb (fun t => forallb (fun c => ratio_exact c t) (seq 1 t)) (seq 1 64) = true.
Proof. vm_compute. reflexivity. Qed.

Lemma ratio_exact_small (c t : nat) :
  (1 <= c <= t)%nat -> (t <= 64)%nat -> ratio_exact c t = true.
Proof. exact (forallb_pairs ratio_exact 64 ratio_exact_64 c t). Qed.

(** The comparisons of a double are exclusive. *)
Lemma float_ltb_not_eqb (x y : PyFloat.float) :
  PyFloat.ltb x y = true -> PyFloat.eqb x y = false.
Proof.
  unfold PyFloat.ltb, PyFloat.eqb, SFltb, SFeqb.
  now destruct (SFcompare x y) as [[| |]|].
Qed.

(** The consensus count of a non-empty list of offsets is between 1 and the
    length of the list. *)
Lemma mode_count_bounds (offsets : list Z) (o : Z) :
  offsets <> [] ->
  (forall x, (count_occ Z.eq_dec offsets x <= count_occ Z.eq_dec offsets o)%nat) ->
  (1 <= count_occ Z.eq_dec offsets o <= List.length offsets)%nat.
Proof.
  intros Hne Hmode. split; [|apply count_occ_bound].
  destruct offsets as [|x rest]; [contradiction|].
  pose proof (proj1 (count_occ_In Z.eq_dec (x :: rest) x) (or_introl eq_refl)).
  specialize (Hmode x). lia.
Qed.

(** C1: the result is [NONE] exactly when no sample has a label; otherwise,
    with [agreement_ratio] the double quotient of the number of valid samples
    whose offset is the consensus offset by the number of valid samples, it is
    [HIGH] exactly when the ratio equals 1.0, [MEDIUM] exactly when it is at
    least 0.66 and not 1.0, [LOW] otherwise; up to 64 valid samples the ratio
    is below 1.0 whenever it is not 1.0, and the comparisons of the double
    are those of the exact fraction. *)
Theorem confidence_tiers (samples : list OffsetSample) :
  let valid := filter has_label samples in
  exists r,
    calculate_offset_from_samples samples = Ok r
    /\ (confidence r = NONE <-> valid = [])
    /\ (valid <> [] ->
        exists o,
          res_offset r = Some o
          /\ let agreed := List.length (agreeing o valid) in
             let total := List.length valid in
             let ratio := PyFloat.truediv (Z.of_nat agreed) (Z.of_nat total) in
             agreement_ratio r = Some ratio
             /\ samples_agreed r = agreed
             /\ (confidence r = HIGH <-> PyFloat.eqb ratio PyFloat.lit_1_0 = true)
             /\ (confidence r = MEDIUM <->
                   PyFloat.leb PyFloat.lit_0_66 ratio = true
                   /\ PyFloat.eqb ratio PyFloat.lit_1_0 = false)
             /\ (confidence r = LOW <->
                   PyFloat.leb PyFloat.lit_0_66 ratio = false
                   /\ PyFloat.eqb ratio PyFloat.lit_1_0 = false)
             /\ ((total <= 64)%nat ->
                   (PyFloat.eqb ratio PyFloat.lit_1_0 = false <->
                      PyFloat.ltb ratio PyFloat.lit_1_0 = true)
                   /\ (PyFloat.eqb ratio PyFloat.lit_1_0 = true <-> agreed = total)
                   /\ (PyFloat.leb PyFloat.lit_0_66 ratio = true <->
                         (66 * total <= 100 * agreed)%nat))).
Proof.
  intros valid. subst valid. rewrite filter_has_label.
  destruct (filter is_valid_sample samples) as [|s0 rest] eqn:Hvalid.
  - destruct (calculate_offset_no_valid samples Hvalid) as (r & Hr & _ & Hconf & _).
    exists r. split; [exact Hr|]. split; [now split|]. intros Hne. contradiction.
  - assert (Hsome : filter is_valid_sample samples <> []) by (rewrite Hvalid; discriminate).
    destruct (calculate_offset_some_valid samples Hsome)
      as (r & o & Hr & Hmode & _ & Hoff & Hagreed & _ & Hratio & Hconf & _).
    rewrite Hvalid in *.
    set (valid := s0 :: rest) in *.
    assert (Hcount : count_occ Z.eq_dec (offsets_of valid) o
                     = List.length (agreeing o valid)) by apply offsets_of_count.
    rewrite Hcount in *.
    set (ratio := PyFloat.truediv (Z.of_nat (List.length (agreeing o valid)))
                                  (Z.of_nat (List.length valid))) in *.
    assert (Hbounds : (1 <= List.length (agreeing o valid) <= List.length valid)%nat).
    { assert (Hvv : filter is_valid_sample valid = valid).
      { subst valid. rewrite <- Hvalid, filter_filter_andb.
        apply filter_ext. intros s. apply andb_diag. }
      assert (Hne : offsets_of valid <> []).
      { intros Hnil. apply (f_equal (@List.length Z)) in Hnil.
        rewrite offsets_of_length, Hvv in Hnil. discriminate. }
      pose proof (mode_count_bounds (offsets_of valid) o Hne) as Hb.
      rewrite offsets_of_length, Hvv, Hcount in Hb. apply Hb. exact Hmode. }
    cbv zeta in Hconf.
    exists r. split; [exact Hr|]. split.
    { split; [|discriminate]. rewrite Hconf.
      destruct (PyFloat.eqb ratio PyFloat.lit_1_0); [discriminate|].
      destruct (PyFloat.leb PyFloat.lit_0_66 ratio); discriminate. }
    intros _. exists o. split; [exact Hoff|]. cbv zeta. fold ratio.
    split; [exact Hratio|]. split; [exact Hagreed|].
    split; [|split; [|split]].
    + rewrite Hconf. destruct (PyFloat.eqb ratio PyFloat.lit_1_0);
        destruct (PyFloat.leb PyFloat.lit_0_66 ratio); intuition congruence.
    + rewrite Hconf. destruct (PyFloat.eqb ratio PyFloat.lit_1_0);
        destruct (PyFloat.leb PyFloat.lit_0_66 ratio); intuition congruence.
    + rewrite Hconf. destruct (PyFloat.eqb ratio PyFloat.lit_1_0);
        destruct (PyFloat.leb PyFloat.lit_0_66 ratio); intuition congruence.
    + intros Hsmall.
      pose proof (ratio_exact_small _ _ Hbounds Hsmall) as Hexact.
      unfold ratio_exact in Hexact. cbv zeta in Hexact. fold ratio in Hexact.
      apply andb_prop in Hexact. destruct Hexact as [Hexact Hle].
      apply andb_prop in Hexact. destruct Hexact as [Heq Hlt].
      apply eqb_prop in Heq, Hlt, Hle. rewrite Heq, Hlt, Hle.
      rewrite Nat.eqb_neq, Nat.ltb_lt, Nat.eqb_eq, Nat.leb_le.
      repeat split; lia.
Qed.

Lemma confidence_tiers_witness :
  let samples := [ {| pdf_page := 10; detected_label := Some 8 |};
                   {| pdf_page := 20; detected_label := Some 17 |};
                   {| pdf_page := 30; detected_label := Some 27 |} ] in
  exists r, calculate_offset_from_samples samples = Ok r
            /\ (confidence r = NONE <-> filter has_label samples = []).
Proof.
  intros samples.
  destruct (confidence_tiers samples) as (r & Hr & Hnone & _).
  exists r. split; [exact Hr|exact Hnone].
Defined.

(** The examples of section 8 of the specification. *)
Example consensus_all_agree :
  exists r,
    calculate_offset_from_samples
      [ {| pdf_page := 25; detected_label := Some 21 |};
        {| pdf_page := 50; detected_label := Some 46 |};
        {| pdf_page := 75; detected_label := Some 71 |} ] = Ok r
    /\ res_offset r = Some 4 /\ confidence r = HIGH
    /\ samples_agreed r = 3%nat /\ samples_processed r = 3%nat
    /\ warning r = None.
Proof. eexists. split; [vm_compute; reflexivity|]. now repeat split. Qed.

Example consensus_with_disagreement :
  exists r,
    calculate_offset_from_samples
      [ {| pdf_page := 10; detected_label := Some 8 |};
        {| pdf_page := 20; detected_label := Some 17 |};
        {| pdf_page := 30; detected_label := Some 27 |} ] = Ok r
    /\ all_offsets r = [2; 3; 3]
    /\ res_offset r = Some 3 /\ confidence r = MEDIUM
    /\ warning r
       = Some "Medium confidence: 2/3 samples agree. Consider manual verification."%string.
Proof. eexists. split; [vm_compute; reflexivity|]. now repeat split. Qed.

(** Two offsets tied for most frequent: the one that occurs first wins. *)
Example consensus_tie_first_wins :
  exists r,
    calculate_offset_from_samples
      [ {| pdf_page := 10; detected_label := Some 3 |};
        {| pdf_page := 20; detected_label := Some 18 |};
        {| pdf_page := 30; detected_label := Some 28 |};
        {| pdf_page := 40; detected_label := Some 33 |} ] = Ok r
    /\ all_offsets r = [7; 2; 2; 7]
    /\ res_offset r = Some 7 /\ confidence r = LOW.
Proof. eexists. split; [vm_compute; reflexivity|]. now repeat split. Qed.

(** C2: with at least one valid sample the consensus offset is a most
    frequent offset of the valid samples, and every offset that occurs
    before its first occurrence is strictly less frequent: among offsets
    tied for most frequent, it is the one that occurs first. *)
Theorem consensus_offset_first_mode (samples : list OffsetSample) :
  filter has_label samples <> [] ->
  let offsets := offsets_of (filter has_label samples) in
  let count := count_occ Z.eq_dec offsets in
  exists r o,
    calculate_offset_from_samples samples = Ok r
    /\ res_offset r = Some o
    /\ In o offsets
    /\ (forall x, (count x <= count o)%nat)
    /\ (exists l1 l2,
          offsets = l1 ++ o :: l2
          /\ ~ In o l1
          /\ forall x, In x l1 -> (count x < count o)%nat)
    /\ (forall x, x <> o -> count x = count o ->
        exists l1 l2, offsets = l1 ++ o :: l2 /\ ~ In o l1 /\ ~ In x l1).
Proof.
  rewrite filter_has_label. intros Hsome offsets count.
  destruct (calculate_offset_some_valid samples Hsome)
    as (r & o & Hr & Hmode & Hfirst & Hoff & _).
  fold offsets in Hmode, Hfirst. fold count in Hmode, Hfirst.
  exists r, o. split; [exact Hr|]. split; [exact Hoff|].
  destruct Hfirst as (l1 & l2 & Hsplit & Hnot & Hless).
  split; [rewrite Hsplit; apply in_or_app; right; now left|].
  split; [exact Hmode|]. split.
  - exists l1, l2. now repeat split.
  - intros x Hne Htie. exists l1, l2. split; [exact Hsplit|]. split; [exact Hnot|].
    intros Hin. specialize (Hless x Hin). lia.
Qed.

Lemma consensus_offset_first_mode_witness :
  let samples := [ {| pdf_page := 10; detected_label := Some 3 |};
                   {| pdf_page := 20; detected_label := Some 18 |};
                   {| pdf_page := 30; detected_label := Some 28 |};
                   {| pdf_page := 40; detected_label := Some 33 |} ] in
  filter has_label samples <> []
  /\ exists r o, calculate_offset_from_samples samples = Ok r
                 /\ res_offset r = Some o
                 /\ In o (offsets_of (filter has_label samples)).
Proof.
  intros samples.
  assert (Hsome : filter has_label samples <> []) by (simpl; discriminate).
  split; [exact Hsome|].
  destruct (consensus_offset_first_mode samples Hsome) as (r & o & Hr & Hoff & Hin & _).
  exists r, o. split; [exact Hr|]. split; [exact Hoff|exact Hin].
Defined.

(** C5, as stated, fails when no sample has a label: the result then has
    neither [offset_distribution] nor [samples_valid], where the claim has
    the counts of the first add up to the second for every result. *)
Lemma distribution_absent_counterexample :
  exists r,
    calculate_offset_from_samples [ {| pdf_page := 3; detected_label := None |} ] = Ok r
    /\ offset_distribution r = None
    /\ samples_valid r = None
    /\ ~ distribution_invariant_spec r.
Proof.
  eexists. split; [vm_compute; reflexivity|]. split; [reflexivity|].
  split; [reflexivity|]. intros (d & n & Hd & _). discriminate Hd.
Qed.

(** C5 (amended): when some sample has a label, the result has
    [offset_distribution], [samples_valid] and [offset]; the counts of the
    distribution add up to [samples_valid], which is the number of samples
    with a label, and [samples_agreed] is the distribution's entry for
    [offset].  When no sample has a label the result has none of the three,
    and [samples_agreed] is 0. *)
Theorem distribution_invariant (samples : list OffsetSample) :
  let n_valid := List.length (filter has_label samples) in
  exists r,
    calculate_offset_from_samples samples = Ok r
    /\ (n_valid <> 0%nat ->
        exists d o,
          offset_distribution r = Some d
          /\ samples_valid r = Some n_valid
          /\ sum_values d = n_valid
          /\ res_offset r = Some o
          /\ dict_get d o = Some (samples_agreed r))
    /\ (n_valid = 0%nat ->
        offset_distribution r = None
        /\ samples_valid r = None
        /\ res_offset r = None
        /\ samples_agreed r = 0%nat)
    /\ (res_offset r = None <-> n_valid = 0%nat).
Proof.
  intros n_valid. subst n_valid. rewrite filter_has_label.
  destruct (filter is_valid_sample samples) as [|s0 rest] eqn:Hvalid.
  - destruct (calculate_offset_no_valid samples Hvalid)
      as (r & Hr & Hoff & _ & _ & Hagreed & Hsv & Hdist & _).
    exists r. split; [exact Hr|]. cbn [List.length].
    split; [intros Hne; now contradiction Hne|].
    split; [intros _; now repeat split|]. now split.
  - assert (Hsome : filter is_valid_sample samples <> []) by (rewrite Hvalid; discriminate).
    destruct (calculate_offset_some_valid samples Hsome)
      as (r & o & Hr & _ & Hfirst & Hoff & Hagreed & Hsv & _ & _ & _ & Hdist & _).
    rewrite Hvalid in *. set (valid := s0 :: rest) in *.
    assert (Hsum : sum_values (Counter (offsets_of valid)) = List.length valid).
    { rewrite sum_values_Counter, <- Hvalid, offsets_of_valid, offsets_of_length.
      reflexivity. }
    exists r. split; [exact Hr|]. split.
    + intros _. exists (Counter (offsets_of valid)), o.
      split; [exact Hdist|]. split; [exact Hsv|]. split; [exact Hsum|].
      split; [exact Hoff|]. rewrite Hagreed. apply dict_get_Counter.
      destruct Hfirst as (l1 & l2 & -> & _). apply in_or_app. right. now left.
    + split; [discriminate|]. rewrite Hoff. split; discriminate.
Qed.

(** C6, as stated, fails when no sample has a label: the entries of
    [evidence] then carry no agreement flag at all, where the claim has
    the flag present and false. *)
Lemma evidence_annotation_counterexample :
  exists r,
    calculate_offset_from_samples [ {| pdf_page := 3; detected_label := None |} ] = Ok r
    /\ map agrees_with_consensus (evidence r) = [None]
    /\ map agrees_with_consensus (evidence r) <> [Some false].
Proof.
  eexists. split; [vm_compute; reflexivity|]. split; [reflexivity|discriminate].
Qed.

(** C6 (amended): [evidence] has one entry per input sample
    ([samples_processed] of them), in the input order, each with the
    sample's page, label and offset; when some sample has a label each entry
    is flagged with whether its offset equals the consensus offset, the flag
    being false for a sample without label; when none has, the entries
    carry no flag. *)
Theorem evidence_lists_samples (samples : list OffsetSample) :
  exists r,
    calculate_offset_from_samples samples = Ok r
    /\ List.length (evidence r) = samples_processed r
    /\ samples_processed r = List.length samples
    /\ (res_offset r = None <-> filter has_label samples = [])
    /\ Forall2
         (fun s e =>
            ev_pdf_page e = pdf_page s
            /\ ev_detected_label e = detected_label s
            /\ ev_offset e = offset s
            /\ match res_offset r with
               | Some o =>
                   agrees_with_consensus e = Some (opt_eqb (offset s) (Some o))
                   /\ (has_label s = false -> agrees_with_consensus e = Some false)
               | None => agrees_with_consensus e = None
               end)
         samples (evidence r).
Proof.
  rewrite filter_has_label.
  destruct (filter is_valid_sample samples) as [|s0 rest] eqn:Hvalid.
  - destruct (calculate_offset_no_valid samples Hvalid)
      as (r & Hr & Hoff & _ & Hproc & _ & _ & _ & _ & Hev).
    exists r. split; [exact Hr|]. rewrite Hev, Hoff, Hproc, length_map.
    split; [reflexivity|]. split; [reflexivity|]. split; [tauto|].
    clear. induction samples as [|s samples IH]; simpl; constructor; auto.
  - assert (Hsome : filter is_valid_sample samples <> []) by (rewrite Hvalid; discriminate).
    destruct (calculate_offset_some_valid samples Hsome)
      as (r & o & Hr & _ & _ & Hoff & _ & _ & _ & _ & Hproc & _ & Hev).
    exists r. split; [exact Hr|]. rewrite Hev, Hoff, Hproc, length_map.
    split; [reflexivity|]. split; [reflexivity|].
    split; [split; discriminate|].
    clear. induction samples as [|s samples IH]; simpl; constructor; auto.
    repeat split. intros Hnolabel. f_equal.
    unfold has_label in Hnolabel. unfold offset.
    now destruct (detected_label s).
Qed.

(** ** Mapping builder *)

(** The verdict of [validate_offset], case by case. *)
Lemma validate_offset_verdict (o max_offset : Z) :
  fst (validate_offset (Some o) max_offset) = (Z.abs o <=? max_offset).
Proof.
  unfold validate_offset. rewrite Z.leb_antisym.
  destruct (max_offset <? Z.abs o); [reflexivity|]. simpl.
  destruct (o <? 0); [reflexivity|]. now destruct (o =? 0).
Qed.

Example validate_offset_zero :
  validate_offset (Some 0) default_max_offset
  = (true, "Zero offset: PDF and document pages match"%string).
Proof. reflexivity. Qed.

Example validate_offset_75 :
  validate_offset (Some 75) default_max_offset
  = (false, "Offset 75 exceeds maximum 50. May be incorrect."%string).
Proof. reflexivity. Qed.

Lemma create_offset_mapping_validation_field (company document_name : string)
    (offset_result : OffsetResult) (evidence_images : list string)
    (method : string) :
  validation (create_offset_mapping company document_name offset_result
                                    evidence_images method)
  = match res_offset offset_result with
    | Some o =>
        Some {| is_valid := fst (validate_offset (Some o) default_max_offset);
                validation_message :=
                  snd (validate_offset (Some o) default_max_offset) |}
    | None => None
    end.
Proof.
  unfold create_offset_mapping. cbn [validation].
  destruct (res_offset offset_result) as [o|]; [|reflexivity].
  now destruct (validate_offset (Some o) default_max_offset).
Qed.

(** C4, as stated, fails for an absent offset: the mapping built from a
    result without offset has no validation record, where the claim has it
    hold the verdict of [validate_offset]. *)
Lemma create_offset_mapping_absent_offset_counterexample :
  exists r,
    calculate_offset_from_samples [ {| pdf_page := 3; detected_label := None |} ] = Ok r
    /\ res_offset r = None
    /\ validate_offset (res_offset r) default_max_offset
       = (false, "No offset detected"%string)
    /\ validation (create_offset_mapping "ACME" "report.pdf" r [] "ocr_auto") = None.
Proof.
  eexists. split; [vm_compute; reflexivity|]. now repeat split.
Qed.

(** C4 (amended): [validate_offset] answers [(false, "No offset detected")]
    on an absent offset, invalid when [|offset| > 50], valid for
    [-50 <= offset < 0], for [offset = 0] and for [0 < offset <= 50]; the
    mapping holds that verdict as its validation record when the offset is
    present, and has no validation record when the offset is absent. *)
Theorem create_offset_mapping_validation (company document_name : string)
    (offset_result : OffsetResult) (evidence_images : list string)
    (method : string) :
  let m := create_offset_mapping company document_name offset_result
                                 evidence_images method in
  validate_offset None default_max_offset = (false, "No offset detected"%string)
  /\ (res_offset offset_result = None -> validation m = None)
  /\ (forall o, res_offset offset_result = Some o ->
      exists v,
        validation m = Some v
        /\ (is_valid v, validation_message v)
           = validate_offset (Some o) default_max_offset
        /\ (50 < Z.abs o -> is_valid v = false)
        /\ (-50 <= o < 0 -> is_valid v = true)
        /\ (o = 0 -> is_valid v = true)
        /\ (0 < o <= 50 -> is_valid v = true)).
Proof.
  intros m. split; [reflexivity|]. subst m.
  rewrite create_offset_mapping_validation_field. split.
  - intros Hnone. now rewrite Hnone.
  - intros o Hsome. rewrite Hsome. eexists. split; [reflexivity|].
    cbn [is_valid validation_message]. rewrite <- surjective_pairing.
    split; [reflexivity|]. rewrite validate_offset_verdict.
    unfold default_max_offset. repeat split; intros Hrange.
    + apply Z.leb_gt. lia.
    + apply Z.leb_le. lia.
    + apply Z.leb_le. lia.
    + apply Z.leb_le. lia.
Qed.

Lemma create_offset_mapping_validation_witness :
  exists r v,
    calculate_offset_from_samples
      [ {| pdf_page := 25; detected_label := Some 21 |} ] = Ok r
    /\ validation (create_offset_mapping "ACME" "report.pdf" r [] "ocr_auto") = Some v
    /\ is_valid v = true.
Proof.
  eexists.
  destruct (create_offset_mapping_validation "ACME" "report.pdf"
              {| res_offset := Some 4; confidence := HIGH;
                 samples_processed := 1; samples_agreed := 1;
                 samples_valid := Some 1%nat;
                 agreement_ratio := Some PyFloat.lit_1_0;
                 all_offsets := [4];
                 offset_distribution := Some [(4, 1%nat)];
                 evidence := [ {| ev_pdf_page := 25; ev_detected_label := Some 21;
                                  ev_offset := Some 4;
                                  agrees_with_consensus := Some true |} ];
                 warning := None; message := None |}
              [] "ocr_auto") as (_ & _ & Hsome).
  destruct (Hsome 4 eq_refl) as (v & Hv & _ & _ & _ & _ & Hpos).
  exists v. split; [vm_compute; reflexivity|]. split; [exact Hv|].
  apply Hpos. lia.
Defined.

(** ** Label recognizer *)

Lemma enumerate_In {A : Type} (l : list A) (i : nat) (a : A) :
  In (i, a) (enumerate l) <-> nth_error l i = Some a.
Proof.
  unfold enumerate.
  assert (Hgen : forall start,
             In (i, a) (combine (seq start (List.length l)) l)
             <-> (start <= i)%nat /\ nth_error l (i - start) = Some a).
  { induction l as [|x l IH]; intros start; simpl.
    - split; [intros []|]. intros [_ Hnth]. now destruct (i - start)%nat.
    - rewrite IH. split.
      + intros [Heq|[Hle Hnth]].
        * injection Heq as -> ->. split; [lia|]. now rewrite Nat.sub_diag.
        * split; [lia|]. now replace (i - start)%nat with (S (i - S start)) by lia.
      + intros [Hle Hnth]. destruct (i - start)%nat as [|k] eqn:Hk.
        * left. injection Hnth as ->. f_equal. lia.
        * right. split; [lia|]. now replace (i - S start)%nat with k by lia. }
  rewrite Hgen, Nat.sub_0_r. intuition lia.
Qed.


Lemma positional_candidate_In (ocr_data : OcrData) (height : Z)
    (i : nat) (word : string) (p : Z) :
  In p (positional_candidate ocr_data height i word)
  <-> is_positional_candidate ocr_data height i word p.
Proof.
  unfold positional_candidate, is_positional_candidate.
  destruct (strip word) as [|a stripped] eqn:Hstrip.
  { split; [intros []|]. intros (t & c & _ & _ & Hdigit & _). discriminate. }
  destruct (nth_error (top ocr_data) i) as [t|];
    [|split; [intros []|intros (t & c & Ht & _); discriminate]].
  destruct (nth_error (conf ocr_data) i) as [c|];
    [|split; [intros []|intros (t' & c & _ & Hc & _); discriminate]].
  set (in_footer := PyFloat.leb _ (PyFloat.of_int t)).
  set (in_header := PyFloat.leb (PyFloat.of_int t) _).
  destruct (isdigit (String a stripped)) eqn:Hdigit;
    [|destruct (negb (in_footer || in_header));
      (split; [intros []|intros (t' & c' & _ & _ & Hd & _); discriminate])].
  destruct (py_int (String a stripped)) as [page_num|] eqn:Hint;
    [|destruct (negb (in_footer || in_header));
      (split; [intros []|intros (t' & c' & _ & _ & _ & Hp & _); discriminate])].
  destruct (in_footer || in_header) eqn:Hzone; cbn [negb].
  - destruct (reasonable_page_number page_num && (50 <? c)) eqn:Hok.
    + apply andb_true_iff in Hok. destruct Hok as [Hrange Hconf].
      unfold reasonable_page_number in Hrange. apply andb_true_iff in Hrange.
      destruct Hrange as [Hlo Hhi].
      apply Z.leb_le in Hlo, Hhi. apply Z.ltb_lt in Hconf. split.
      * intros [<-|[]]. exists t, c. repeat split; try assumption.
        now apply orb_true_iff in Hzone.
      * intros (t' & c' & _ & _ & _ & [= <-] & _). now left.
    + split; [intros []|].
      intros (t' & c' & _ & [= <-] & _ & [= <-] & Hrange & Hconf & _).
      unfold reasonable_page_number in Hok.
      destruct (Z.leb_spec 1 page_num), (Z.leb_spec page_num 9999),
        (Z.ltb_spec 50 c); simpl in Hok; try discriminate; lia.
  - split; [intros []|].
    intros (t' & c' & Ht & _ & _ & _ & _ & _ & Hz). injection Ht as <-.
    apply orb_false_iff in Hzone. destruct Hzone as [Hfooter Hheader].
    subst in_footer in_header. destruct Hz as [Hz|Hz]; congruence.
Qed.

Lemma find_positional_page_numbers_In (ocr_data : OcrData)
    (image_size : Z * Z) (p : Z) :
  In p (find_positional_page_numbers ocr_data image_size)
  <-> exists i word,
        nth_error (text ocr_data) i = Some word
        /\ is_positional_candidate ocr_data (snd image_size) i word p.
Proof.
  destruct image_size as [width height]. unfold find_positional_page_numbers.
  rewrite in_flat_map. split.
  - intros ([i word] & Hin & Hp). exists i, word.
    split; [now apply enumerate_In|now apply positional_candidate_In].
  - intros (i & word & Hnth & Hp). exists (i, word).
    split; [now apply enumerate_In|now apply positional_candidate_In].
Qed.

Section DetectorProperties.

Context {Image : Type} `{Recognizer Image}.

Lemma find_page_number_patterns_range (text : string) (p : Z) :
  In p (find_page_number_patterns text) -> 1 <= p <= 9999.
Proof.
  unfold find_page_number_patterns. rewrite in_flat_map.
  intros (pattern & _ & Hin). rewrite in_flat_map in Hin.
  destruct Hin as (group1 & _ & Hin).
  destruct (py_int group1) as [page_num|]; [|destruct Hin].
  unfold reasonable_page_number in Hin.
  destruct (Z.leb_spec 1 page_num), (Z.leb_spec page_num 9999);
    simpl in Hin; try destruct Hin as [<-|[]]; try destruct Hin. lia.
Qed.

Lemma detect_labeled_page_number_unfold (image : Image) :
  detect_labeled_page_number image
  = match image_to_string image, image_to_data image with
    | Ok text, Ok ocr_data =>
        hd_error (find_positional_page_numbers ocr_data (size image)
                  ++ find_page_number_patterns text)
    | _, _ => None
    end.
Proof.
  unfold detect_labeled_page_number, detect_body.
  destruct (image_to_string image) as [text|e]; [|reflexivity]. simpl.
  destruct (image_to_data image) as [ocr_data|e]; [|reflexivity]. simpl.
  now destruct (find_positional_page_numbers ocr_data (size image)
                ++ find_page_number_patterns text).
Qed.

End DetectorProperties.

(** C7: the detector returns the first element of the positional candidates
    followed by the pattern candidates, so a positional candidate wins
    whenever there is one, and nothing when both lists are empty; a positional
    candidate is the value of a token that is all digits once stripped, lies
    in [1, 9999], has confidence above 50, and whose top is at most
    [height * 0.10] or at least [height * 0.90]. *)
Theorem detect_label_positional_first {Image : Type} `{Recognizer Image}
    (image : Image) (page_text : string) (ocr_data : OcrData) :
  image_to_string image = Ok page_text ->
  image_to_data image = Ok ocr_data ->
  let positional := find_positional_page_numbers ocr_data (size image) in
  let pattern := find_page_number_patterns page_text in
  detect_labeled_page_number image = hd_error (positional ++ pattern)
  /\ (positional <> [] -> detect_labeled_page_number image = hd_error positional)
  /\ (positional = [] -> detect_labeled_page_number image = hd_error pattern)
  /\ (positional = [] -> pattern = [] -> detect_labeled_page_number image = None)
  /\ (forall p, In p positional <->
       exists i word,
         nth_error (text ocr_data) i = Some word
         /\ is_positional_candidate ocr_data (snd (size image)) i word p).
Proof.
  intros Htext Hdata positional pattern.
  rewrite detect_labeled_page_number_unfold, Htext, Hdata.
  fold positional. fold pattern.
  split; [reflexivity|]. split; [|split; [|split]].
  - intros Hne. destruct positional; [contradiction|reflexivity].
  - now intros ->.
  - now intros -> ->.
  - intros p. apply find_positional_page_numbers_In.
Qed.

Lemma detect_label_positional_first_witness :
  @image_to_string unit footer_recognizer tt = Ok "Annual report page 7 of 90"%string
  /\ @find_page_number_patterns unit footer_recognizer "Annual report page 7 of 90" = [7]
  /\ @detect_labeled_page_number unit footer_recognizer tt = Some 12.
Proof.
  split; [reflexivity|]. split; [vm_compute; reflexivity|].
  destruct (@detect_label_positional_first unit footer_recognizer tt _ _
              eq_refl eq_refl) as (Hfirst & _).
  exact (eq_trans Hfirst ltac:(vm_compute; reflexivity)).
Defined.

(** Without a positional candidate the first pattern candidate is returned. *)
Example detect_label_pattern_fallback :
  @detect_labeled_page_number unit
    {| image_to_string := fun _ => Ok "Annual report page 7 of 90"%string;
       image_to_data := fun _ =>
         Ok {| text := ["12"]%string; top := [500]; conf := [91] |};
       size := fun _ => (800, 1000);
       finditer_group1 := @finditer_group1 unit footer_recognizer |} tt
  = Some 7.
Proof. vm_compute. reflexivity. Qed.

(** C9: when the recognizer raises, in either of its two calls, the detector
    returns [None] and raises nothing, and the sample recorded for the page
    has no offset, exactly as when no label is found. *)
Theorem recognizer_exception_is_no_label {Image : Type} `{Recognizer Image}
    (image : Image) (page : Z) :
  (exists e, image_to_string image = Raise e)
  \/ (exists e, image_to_data image = Raise e) ->
  detect_labeled_page_number image = None
  /\ offset {| pdf_page := page;
               detected_label := detect_labeled_page_number image |} = None.
Proof.
  intros Hraise.
  assert (Hnone : detect_labeled_page_number image = None).
  { rewrite detect_labeled_page_number_unfold.
    destruct Hraise as [(e & ->)|(e & ->)]; [reflexivity|].
    now destruct (image_to_string image). }
  split; [exact Hnone|]. unfold offset. simpl. now rewrite Hnone.
Qed.

Lemma recognizer_exception_is_no_label_witness :
  (exists e, @image_to_string unit failing_recognizer tt = Raise e)
  /\ @detect_labeled_page_number unit failing_recognizer tt = None.
Proof.
  assert (Hraise : exists e, @image_to_string unit failing_recognizer tt = Raise e)
    by (exists "TesseractError"%string; reflexivity).
  split; [exact Hraise|].
  apply (@recognizer_exception_is_no_label unit failing_recognizer tt 7).
  left. exact Hraise.
Defined.

(** ** More on the consensus engine *)

(** The dictionary returned on the consensus path, in full. *)
Lemma calculate_offset_consensus_record (samples : list OffsetSample) :
  filter is_valid_sample samples <> [] ->
  let valid_samples := filter is_valid_sample samples in
  let offsets := offsets_of valid_samples in
  exists o,
    In o offsets
    /\ let consensus_count := count_occ Z.eq_dec offsets o in
       let total_valid := List.length valid_samples in
       let ratio := PyFloat.truediv (Z.of_nat consensus_count) (Z.of_nat total_valid) in
       let tier :=
         if PyFloat.eqb ratio PyFloat.lit_1_0 then HIGH
         else if PyFloat.leb PyFloat.lit_0_66 ratio then MEDIUM else LOW in
       calculate_offset_from_samples samples
       = Ok {| res_offset := Some o;
               confidence := tier;
               samples_processed := List.length samples;
               samples_agreed := consensus_count;
               samples_valid := Some total_valid;
               agreement_ratio := Some ratio;
               all_offsets := offsets;
               offset_distribution := Some (Counter offsets);
               evidence :=
                 map (fun s => {| ev_pdf_page := pdf_page s;
                                  ev_detected_label := detected_label s;
                                  ev_offset := offset s;
                                  agrees_with_consensus :=
                                    Some (opt_eqb (offset s) (Some o)) |}) samples;
               warning :=
                 match tier with
                 | LOW =>
                     Some ("Low confidence: Only " ++ str_nat consensus_count ++ "/"
                           ++ str_nat total_valid
                           ++ " samples agree. Manual review recommended.")%string
                 | MEDIUM =>
                     Some ("Medium confidence: " ++ str_nat consensus_count ++ "/"
                           ++ str_nat total_valid
                           ++ " samples agree. Consider manual verification.")%string
                 | _ => None
                 end;
               message := None |}.
Proof.
  intros Hsome valid_samples offsets.
  assert (Hne : offsets <> []).
  { intros Hnil. apply Hsome. apply length_zero_iff_nil.
    subst offsets valid_samples. rewrite offsets_of_valid in Hnil.
    rewrite <- offsets_of_length, Hnil. reflexivity. }
  destruct (most_common_1_mode offsets Hne) as (o & Hmc & _ & (l1 & l2 & Hsplit & _)).
  exists o. split; [rewrite Hsplit; apply in_or_app; right; now left|].
  cbv zeta. unfold calculate_offset_from_samples.
  fold valid_samples. fold offsets. rewrite Hmc.
  destruct valid_samples as [|s0 rest] eqn:Hvalid; [contradiction|].
  reflexivity.
Qed.

Lemma filter_valid_nil_offsets (samples : list OffsetSample) :
  filter is_valid_sample samples = [] <-> offsets_of samples = [].
Proof.
  rewrite <- !length_zero_iff_nil, offsets_of_length. tauto.
Qed.

(** X1: the counts of a result are ordered: the agreeing samples are among
    the valid ones, the valid ones among the processed ones; [all_offsets]
    lists the offsets of the valid samples in input order; an offset is
    present exactly when some sample is valid, and it is then one of
    [all_offsets], with at least one sample agreeing. *)
Theorem consensus_counts_ordered (samples : list OffsetSample) :
  exists r,
    calculate_offset_from_samples samples = Ok r
    /\ let n_valid := List.length (filter has_label samples) in
       (samples_agreed r <= n_valid <= samples_processed r)%nat
       /\ all_offsets r = offsets_of samples
       /\ List.length (all_offsets r) = n_valid
       /\ (res_offset r = None <-> n_valid = 0%nat)
       /\ (forall o, res_offset r = Some o ->
           (1 <= samples_agreed r)%nat /\ In o (all_offsets r)).
Proof.
  rewrite filter_has_label.
  destruct (filter is_valid_sample samples) as [|s0 rest] eqn:Hvalid.
  - destruct (calculate_offset_no_valid samples Hvalid)
      as (r & Hr & Hoff & _ & Hproc & Hagreed & _).
    exists r. split; [exact Hr|]. cbv zeta. rewrite Hagreed, Hproc, Hoff.
    assert (Hall : all_offsets r = []).
    { unfold calculate_offset_from_samples in Hr. rewrite Hvalid in Hr.
      injection Hr as <-. reflexivity. }
    rewrite Hall. apply filter_valid_nil_offsets in Hvalid. rewrite Hvalid.
    simpl. repeat split; try lia; discriminate.
  - assert (Hsome : filter is_valid_sample samples <> []) by (rewrite Hvalid; discriminate).
    destruct (calculate_offset_consensus_record samples Hsome) as (o & Hin & Hr).
    cbv zeta in Hr. rewrite offsets_of_valid in Hr, Hin.
    eexists. split; [exact Hr|]. cbn [samples_agreed samples_processed all_offsets res_offset].
    rewrite <- Hvalid, <- offsets_of_length.
    pose proof (count_occ_bound Z.eq_dec o (offsets_of samples)) as Hbound.
    pose proof (proj1 (count_occ_In Z.eq_dec (offsets_of samples) o) Hin) as Hpos.
    pose proof (filter_length_le is_valid_sample samples) as Hle.
    rewrite <- offsets_of_length in Hle.
    split; [lia|]. split; [reflexivity|]. split; [reflexivity|].
    split; [split; [discriminate|intros Hzero; rewrite Hzero in Hbound; lia]|].
    intros o' [= <-]. split; [lia|exact Hin].
Qed.



(** X3: when exactly one sample has a label the result is [HIGH] with that
    sample's offset, one sample agreeing and no warning, however many
    samples failed. *)
Theorem single_valid_sample_is_high (samples : list OffsetSample) (s : OffsetSample) :
  filter has_label samples = [s] ->
  exists r,
    calculate_offset_from_samples samples = Ok r
    /\ res_offset r = offset s
    /\ confidence r = HIGH
    /\ samples_agreed r = 1%nat
    /\ samples_valid r = Some 1%nat
    /\ samples_processed r = List.length samples
    /\ warning r = None.
Proof.
  rewrite filter_has_label. intros Hone.
  assert (Hs : has_label s = true).
  { rewrite <- is_valid_sample_has_label.
    assert (Hin : In s (filter is_valid_sample samples)) by (rewrite Hone; now left).
    now apply filter_In in Hin. }
  unfold has_label in Hs. unfold calculate_offset_from_samples. rewrite Hone.
  unfold offsets_of, offset. simpl flat_map.
  destruct (detected_label s) as [label|]; [|discriminate].
  cbn [app Counter fold_left counter_incr most_common_1 max_by_count index
       nth_error bind fst snd List.length].
  eexists. split; [reflexivity|]. cbn [res_offset confidence samples_agreed
    samples_valid samples_processed warning].
  repeat split.
Qed.

Lemma single_valid_sample_is_high_witness :
  let samples := [ {| pdf_page := 29; detected_label := None |};
                   {| pdf_page := 53; detected_label := Some 49 |};
                   {| pdf_page := 76; detected_label := None |} ] in
  exists r, calculate_offset_from_samples samples = Ok r
            /\ res_offset r = Some 4 /\ confidence r = HIGH.
Proof.
  intros samples.
  destruct (single_valid_sample_is_high samples
              {| pdf_page := 53; detected_label := Some 49 |} eq_refl)
    as (r & Hr & Hoff & Hconf & _).
  exists r. split; [exact Hr|]. split; [exact Hoff|exact Hconf].
Defined.

(** X4: [samples_agreed] is the number of evidence entries flagged as
    agreeing with the consensus. *)
Theorem samples_agreed_counts_flags (samples : list OffsetSample) :
  exists r,
    calculate_offset_from_samples samples = Ok r
    /\ List.length (filter flagged_agreeing (evidence r)) = samples_agreed r.
Proof.
  destruct (filter is_valid_sample samples) as [|s0 rest] eqn:Hvalid.
  - destruct (calculate_offset_no_valid samples Hvalid)
      as (r & Hr & _ & _ & _ & Hagreed & _ & _ & _ & Hev).
    exists r. split; [exact Hr|]. rewrite Hagreed, Hev. clear.
    induction samples as [|s samples IH]; [reflexivity|exact IH].
  - assert (Hsome : filter is_valid_sample samples <> []) by (rewrite Hvalid; discriminate).
    destruct (calculate_offset_some_valid samples Hsome)
      as (r & o & Hr & _ & _ & _ & Hagreed & _ & _ & _ & _ & _ & Hev).
    exists r. split; [exact Hr|].
    rewrite Hagreed, Hev, offsets_of_valid, offsets_of_count. clear.
    unfold agreeing. induction samples as [|s samples IH]; [reflexivity|].
    simpl. unfold flagged_agreeing at 1. simpl.
    destruct (opt_eqb (offset s) (Some o)); simpl; now rewrite IH.
Qed.

(** *** Outliers *)

(** The consensus path, with the item [most_common(1)] returned. *)
Lemma calculate_offset_most_common (samples : list OffsetSample) :
  filter is_valid_sample samples <> [] ->
  exists r o,
    calculate_offset_from_samples samples = Ok r
    /\ res_offset r = Some o
    /\ samples_agreed r = count_occ Z.eq_dec (offsets_of samples) o
    /\ most_common_1 (Counter (offsets_of samples))
       = [(o, count_occ Z.eq_dec (offsets_of samples) o)]
    /\ In o (offsets_of samples).
Proof.
  intros Hsome.
  assert (Hne : offsets_of samples <> []).
  { intros Hnil. apply filter_valid_nil_offsets in Hnil. contradiction. }
  destruct (most_common_1_mode (offsets_of samples) Hne)
    as (o & Hmc & _ & (l1 & l2 & Hsplit & _)).
  unfold calculate_offset_from_samples. rewrite offsets_of_valid, Hmc.
  destruct (filter is_valid_sample samples) as [|s0 rest]; [contradiction|].
  eexists. exists o. split; [reflexivity|].
  cbn [res_offset samples_agreed]. repeat split; try assumption.
  rewrite Hsplit. apply in_or_app. right. now left.
Qed.

Lemma filter_partition_length {A : Type} (f g : A -> bool) (l : list A) :
  (List.length (filter (fun x => f x && negb (g x)) l)
   + List.length (filter (fun x => f x && g x) l)
   = List.length (filter f l))%nat.
Proof.
  induction l as [|x l IH]; [reflexivity|]. simpl.
  destruct (f x), (g x); simpl; lia.
Qed.

Lemma disagreeing_valid (samples : list OffsetSample) (o : Z) :
  filter (fun s => negb (opt_eqb (offset s) (Some o)))
         (filter is_valid_sample samples)
  = filter (fun s => has_label s && negb (opt_eqb (offset s) (Some o))) samples.
Proof.
  rewrite filter_filter_andb. apply filter_ext.
  intros s. now rewrite is_valid_sample_has_label.
Qed.

Lemma disagreeing_count (samples : list OffsetSample) (o : Z) :
  (List.length (filter (fun s => has_label s && negb (opt_eqb (offset s) (Some o)))
                       samples)
   + count_occ Z.eq_dec (offsets_of samples) o
   = List.length (filter is_valid_sample samples))%nat.
Proof.
  rewrite offsets_of_count. unfold agreeing. rewrite <- filter_has_label.
  rewrite <- (filter_partition_length has_label
                (fun s => opt_eqb (offset s) (Some o)) samples).
  f_equal. f_equal. apply filter_ext. intros s.
  unfold has_label, offset. destruct (detected_label s); reflexivity.
Qed.

Lemma detect_outliers_unfold (samples : list OffsetSample) (o : Z) (c : nat) :
  most_common_1 (Counter (offsets_of samples)) = [(o, c)] ->
  detect_outliers samples
  = Ok (if (List.length (filter is_valid_sample samples) <? 2)%nat then []
        else filter (fun s => has_label s && negb (opt_eqb (offset s) (Some o)))
                    samples).
Proof.
  intros Hmc. unfold detect_outliers. rewrite offsets_of_valid, Hmc.
  destruct (List.length (filter is_valid_sample samples) <? 2)%nat; [reflexivity|].
  cbn [index nth_error bind fst]. now rewrite disagreeing_valid.
Qed.

(** X5: [detect_outliers] does not raise; the outliers are the valid samples
    whose offset differs from the consensus offset of
    [calculate_offset_from_samples], in input order; together with the
    agreeing samples they are all the valid samples; and there is none when
    fewer than two samples are valid. *)
Theorem detect_outliers_complement (samples : list OffsetSample) :
  exists outliers r,
    detect_outliers samples = Ok outliers
    /\ calculate_offset_from_samples samples = Ok r
    /\ outliers
       = filter (fun s => has_label s && negb (opt_eqb (offset s) (res_offset r)))
                samples
    /\ (List.length outliers + samples_agreed r
        = List.length (filter has_label samples))%nat
    /\ ((List.length (filter has_label samples) < 2)%nat -> outliers = []).
Proof.
  rewrite filter_has_label.
  destruct (filter is_valid_sample samples) as [|s0 rest] eqn:Hvalid.
  - destruct (calculate_offset_no_valid samples Hvalid) as (r & Hr & Hoff & _ & _ & Hagreed & _).
    exists [], r. unfold detect_outliers. rewrite Hvalid. simpl.
    split; [reflexivity|]. split; [exact Hr|]. rewrite Hoff, Hagreed.
    assert (Hnone : filter (fun s => has_label s && negb (opt_eqb (offset s) None))
                           samples = []).
    { rewrite <- (filter_filter_andb (fun s => negb (opt_eqb (offset s) None))
                                     has_label).
      rewrite filter_has_label, Hvalid. reflexivity. }
    rewrite Hnone. now repeat split.
  - assert (Hsome : filter is_valid_sample samples <> []) by (rewrite Hvalid; discriminate).
    destruct (calculate_offset_most_common samples Hsome)
      as (r & o & Hr & Hoff & Hagreed & Hmc & Hin).
    pose proof (disagreeing_count samples o) as Hcount.
    pose proof (proj1 (count_occ_In Z.eq_dec (offsets_of samples) o) Hin) as Hpos.
    eexists. exists r. split; [apply (detect_outliers_unfold samples o _ Hmc)|].
    split; [exact Hr|]. rewrite Hoff, Hagreed, <- Hvalid.
    destruct (Nat.ltb_spec (List.length (filter is_valid_sample samples)) 2)
      as [Hlt|Hge].
    + assert (Hzero : List.length
                (filter (fun s => has_label s && negb (opt_eqb (offset s) (Some o)))
                        samples) = 0%nat) by lia.
      apply length_zero_iff_nil in Hzero. rewrite Hzero.
      split; [reflexivity|]. split; [simpl; lia|reflexivity].
    + split; [reflexivity|]. split; [exact Hcount|]. intros Hlt. lia.
Qed.

(** ** Merging mappings *)

Lemma dict_getitem_setitem {V : Type} (d : Dict V) (key key' : string) (value : V) :
  dict_getitem (dict_setitem d key value) key'
  = if String.eqb key key' then Some value else dict_getitem d key'.
Proof.
  induction d as [|[k v] d IH]; simpl.
  - reflexivity.
  - destruct (String.eqb_spec k key) as [->|Hne]; simpl.
    + now destruct (String.eqb key key').
    + rewrite IH. destruct (String.eqb_spec k key') as [->|Hne'];
        [|reflexivity].
      destruct (String.eqb_spec key key') as [->|_]; [contradiction|reflexivity].
Qed.

Lemma dict_getitem_keys {V : Type} (d : Dict V) (key : string) :
  In key (dict_keys d) <-> dict_getitem d key <> None.
Proof.
  induction d as [|[k v] d IH]; simpl.
  - tauto.
  - destruct (String.eqb_spec k key) as [->|Hne].
    + split; [discriminate|now left].
    + rewrite <- IH. tauto.
Qed.

Lemma dict_getitem_In {V : Type} (d : Dict V) (key : string) (value : V) :
  dict_getitem d key = Some value -> In (key, value) d.
Proof.
  induction d as [|[k v] d IH]; simpl; [discriminate|].
  destruct (String.eqb_spec k key) as [->|Hne].
  - intros [= ->]. now left.
  - intros Hget. right. now apply IH.
Qed.

Lemma dict_setitem_keys {V : Type} (d : Dict V) (key : string) (value : V) :
  dict_keys (dict_setitem d key value)
  = if in_dec string_dec key (dict_keys d) then dict_keys d
    else dict_keys d ++ [key].
Proof.
  induction d as [|[k v] d IH]; simpl; [reflexivity|].
  destruct (String.eqb_spec k key) as [->|Hne]; simpl.
  - destruct (string_dec key key); [reflexivity|contradiction].
  - rewrite IH. destruct (string_dec k key); [contradiction|].
    now destruct (in_dec string_dec key (dict_keys d)).
Qed.

Lemma dict_setitem_NoDup {V : Type} (d : Dict V) (key : string) (value : V) :
  NoDup (dict_keys d) -> NoDup (dict_keys (dict_setitem d key value)).
Proof.
  intros Hnd. rewrite dict_setitem_keys.
  destruct (in_dec string_dec key (dict_keys d)) as [Hin|Hnot]; [assumption|].
  apply NoDup_app; [assumption|repeat constructor; intros []|].
  intros k Hk [<-|[]]. contradiction.
Qed.

Lemma dict_setitem_length {V : Type} (d : Dict V) (key : string) (value : V) :
  (List.length (dict_setitem d key value) <= S (List.length d))%nat.
Proof.
  induction d as [|[k v] d IH]; simpl; [lia|].
  destruct (String.eqb k key); simpl; lia.
Qed.

Lemma dict_setitem_In {V : Type} (d : Dict V) (key : string) (value : V)
    (k : string) (v : V) :
  In (k, v) (dict_setitem d key value) -> (k, v) = (key, value) \/ In (k, v) d.
Proof.
  induction d as [|[k' v'] d IH]; simpl.
  - intros [Heq|[]]. now left.
  - destruct (String.eqb_spec k' key) as [->|Hne]; simpl.
    + intros [Heq|Hin]; [now left|right; now right].
    + intros [Heq|Hin]; [right; now left|].
      destruct (IH Hin); [now left|right; now right].
Qed.

(** One turn of the loop of [merge_offset_mappings]. *)
Lemma merge_offset_mappings_snoc (mappings : list DocumentMapping)
    (mapping : DocumentMapping) :
  merge_offset_mappings (mappings ++ [mapping])
  = match company_key mapping with
    | Some key =>
        if str_truthy key
        then dict_setitem (merge_offset_mappings mappings) key mapping
        else merge_offset_mappings mappings
    | None => merge_offset_mappings mappings
    end.
Proof. unfold merge_offset_mappings. now rewrite fold_left_app. Qed.

Lemma merge_offset_mappings_getitem (mappings : list DocumentMapping) (key : string) :
  dict_getitem (merge_offset_mappings mappings) key
  = if str_truthy key then last_with_key key mappings else None.
Proof.
  induction mappings as [|m mappings IH] using rev_ind.
  - unfold last_with_key. simpl. now destruct (str_truthy key).
  - rewrite merge_offset_mappings_snoc. unfold last_with_key in *.
    rewrite rev_app_distr. simpl.
    destruct (company_key m) as [km|]; [|exact IH].
    destruct (str_truthy km) eqn:Hkm.
    + rewrite dict_getitem_setitem.
      destruct (String.eqb_spec km key) as [->|Hne]; [|exact IH].
      now rewrite Hkm.
    + rewrite IH. destruct (String.eqb_spec km key) as [->|Hne]; [|reflexivity].
      now rewrite Hkm.
Qed.

Lemma merge_offset_mappings_invariant (mappings : list DocumentMapping) :
  NoDup (dict_keys (merge_offset_mappings mappings))
  /\ (List.length (merge_offset_mappings mappings) <= List.length mappings)%nat
  /\ forall k m, In (k, m) (merge_offset_mappings mappings) ->
                 company_key m = Some k /\ In m mappings.
Proof.
  induction mappings as [|m mappings IH] using rev_ind.
  - split; [constructor|]. split; [simpl; lia|]. intros k m' [].
  - destruct IH as (Hnd & Hlen & Hentries).
    rewrite merge_offset_mappings_snoc, length_app. simpl.
    assert (Hkeep : forall k m', In (k, m') (merge_offset_mappings mappings) ->
                                 company_key m' = Some k /\ In m' (mappings ++ [m])).
    { intros k m' Hin. destruct (Hentries k m' Hin). split; [assumption|].
      apply in_or_app. now left. }
    destruct (company_key m) as [km|] eqn:Hkm;
      [|split; [assumption|split; [lia|assumption]]].
    destruct (str_truthy km);
      [|split; [assumption|split; [lia|assumption]]].
    split; [now apply dict_setitem_NoDup|]. split.
    + pose proof (dict_setitem_length (merge_offset_mappings mappings) km m). lia.
    + intros k m' Hin. apply dict_setitem_In in Hin.
      destruct Hin as [[= -> ->]|Hin]; [|now apply Hkeep].
      split; [assumption|]. apply in_or_app. right. now left.
Qed.

(** X6: the merged dictionary holds, under each non-empty key, the last
    mapping of the list filed under that key (a later mapping replaces an
    earlier one), and nothing under the empty key: mappings whose
    [company_key] is missing or empty are dropped. *)
Theorem merge_offset_mappings_last_wins (mappings : list DocumentMapping)
    (key : string) :
  (str_truthy key = true ->
   dict_getitem (merge_offset_mappings mappings) key = last_with_key key mappings)
  /\ dict_getitem (merge_offset_mappings mappings) EmptyString = None
  /\ (forall m, dict_getitem (merge_offset_mappings mappings) key = Some m ->
      company_key m = Some key /\ In m mappings).
Proof.
  split; [|split].
  - intros Htruthy. now rewrite merge_offset_mappings_getitem, Htruthy.
  - now rewrite merge_offset_mappings_getitem.
  - intros m Hget. apply dict_getitem_In in Hget.
    now apply merge_offset_mappings_invariant.
Qed.

(** X7: the keys of the merged dictionary are distinct, they are exactly
    the non-empty company keys of the mappings given, and the dictionary has
    no more entries than there are mappings. *)
Theorem merge_offset_mappings_keys (mappings : list DocumentMapping) :
  NoDup (dict_keys (merge_offset_mappings mappings))
  /\ (List.length (merge_offset_mappings mappings) <= List.length mappings)%nat
  /\ forall key,
       In key (dict_keys (merge_offset_mappings mappings))
       <-> str_truthy key = true
           /\ exists m, In m mappings /\ company_key m = Some key.
Proof.
  destruct (merge_offset_mappings_invariant mappings) as (Hnd & Hlen & _).
  split; [exact Hnd|]. split; [exact Hlen|].
  intros key. rewrite dict_getitem_keys, merge_offset_mappings_getitem.
  unfold last_with_key. destruct (str_truthy key); [|intuition congruence].
  split.
  - intros Hfound.
    destruct (find _ (rev mappings)) as [m|] eqn:Hfind; [|contradiction].
    apply find_some in Hfind. destruct Hfind as [Hin Htest].
    split; [reflexivity|]. exists m. split; [now apply in_rev|].
    destruct (company_key m) as [k|]; [|discriminate].
    apply String.eqb_eq in Htest. now subst.
  - intros (_ & m & Hin & Hkey) Hnone.
    pose proof (find_none _ _ Hnone m (proj1 (in_rev _ _) Hin)) as Htest.
    simpl in Htest. rewrite Hkey, String.eqb_refl in Htest. discriminate.
Qed.

(** ** Summary statistics *)

Lemma insert_sorted_length (x : Z) (l : list Z) :
  List.length (insert_sorted x l) = S (List.length l).
Proof.
  induction l as [|y l IH]; simpl; [reflexivity|].
  destruct (x <=? y); simpl; [reflexivity|now rewrite IH].
Qed.

Lemma sorted_length (data : list Z) : List.length (sorted data) = List.length data.
Proof.
  unfold sorted. induction data as [|x data IH]; simpl; [reflexivity|].
  now rewrite insert_sorted_length, IH.
Qed.

Lemma index_in_range {A : Type} (l : list A) (i : nat) :
  (i < List.length l)%nat -> exists a, index l i = Ok a /\ In a l.
Proof.
  intros Hlt. unfold index. destruct (nth_error l i) as [a|] eqn:Hnth.
  - exists a. split; [reflexivity|]. now apply nth_error_In in Hnth.
  - apply nth_error_None in Hnth. lia.
Qed.

Lemma mean_returns (data : list Z) :
  data <> [] -> exists v, mean data = Ok v.
Proof.
  intros Hne. unfold mean.
  destruct (Z.ltb_spec (Z.of_nat (List.length data)) 1) as [Hlt|_].
  - destruct data; [contradiction|simpl in Hlt; lia].
  - destruct (_ =? 1); eexists; reflexivity.
Qed.

Lemma median_returns (data : list Z) :
  data <> [] -> exists v, median data = Ok v.
Proof.
  intros Hne. unfold median.
  assert (Hpos : (0 < List.length (sorted data))%nat).
  { rewrite sorted_length. destruct data; [contradiction|simpl; lia]. }
  destruct (Nat.eqb_spec (List.length (sorted data)) 0) as [Hzero|_]; [lia|].
  destruct (List.length (sorted data) mod 2 =? 1)%nat.
  - destruct (index_in_range (sorted data) (List.length (sorted data) / 2))
      as (x & -> & _).
    + apply Nat.div_lt; lia.
    + eexists. reflexivity.
  - destruct (index_in_range (sorted data) (List.length (sorted data) / 2 - 1))
      as (a & -> & _).
    + pose proof (Nat.div_lt (List.length (sorted data)) 2). lia.
    + destruct (index_in_range (sorted data) (List.length (sorted data) / 2))
        as (b & -> & _).
      * apply Nat.div_lt; lia.
      * eexists. reflexivity.
Qed.

Lemma fold_min_spec (rest : list Z) (first : Z) :
  In (fold_left Z.min rest first) (first :: rest)
  /\ forall x, In x (first :: rest) -> fold_left Z.min rest first <= x.
Proof.
  revert first. induction rest as [|y rest IH]; intros first; simpl.
  - split; [now left|]. intros x [<-|[]]. lia.
  - destruct (IH (Z.min first y)) as [Hin Hle]. split.
    + destruct Hin as [Heq|Hin]; [|right; now right].
      rewrite <- Heq. destruct (Z.min_spec first y) as [[_ ->]|[_ ->]];
        [now left|right; now left].
    + intros x [<-|[<-|Hx]].
      * specialize (Hle (Z.min first y) (or_introl eq_refl)). lia.
      * specialize (Hle (Z.min first y) (or_introl eq_refl)). lia.
      * apply Hle. now right.
Qed.

Lemma fold_max_spec (rest : list Z) (first : Z) :
  In (fold_left Z.max rest first) (first :: rest)
  /\ forall x, In x (first :: rest) -> x <= fold_left Z.max rest first.
Proof.
  revert first. induction rest as [|y rest IH]; intros first; simpl.
  - split; [now left|]. intros x [<-|[]]. lia.
  - destruct (IH (Z.max first y)) as [Hin Hle]. split.
    + destruct Hin as [Heq|Hin]; [|right; now right].
      rewrite <- Heq. destruct (Z.max_spec first y) as [[_ ->]|[_ ->]];
        [right; now left|now left].
    + intros x [<-|[<-|Hx]].
      * specialize (Hle (Z.max first y) (or_introl eq_refl)). lia.
      * specialize (Hle (Z.max first y) (or_introl eq_refl)). lia.
      * apply Hle. now right.
Qed.

Lemma generate_summary_statistics_returns (all_mappings : Dict DocumentMapping) :
  exists stats,
    generate_summary_statistics all_mappings = Ok stats
    /\ total_documents stats = Z.of_nat (List.length all_mappings)
    /\ dist_HIGH (confidence_distribution stats)
       = count_if (fun m => confidence_eqb (map_confidence (core m)) HIGH)
                  (dict_values all_mappings)
    /\ dist_MEDIUM (confidence_distribution stats)
       = count_if (fun m => confidence_eqb (map_confidence (core m)) MEDIUM)
                  (dict_values all_mappings)
    /\ dist_LOW (confidence_distribution stats)
       = count_if (fun m => confidence_eqb (map_confidence (core m)) LOW)
                  (dict_values all_mappings)
    /\ dist_NONE (confidence_distribution stats)
       = total_documents stats - dist_HIGH (confidence_distribution stats)
         - dist_MEDIUM (confidence_distribution stats)
         - dist_LOW (confidence_distribution stats)
    /\ documents_no_offset stats
       = count_if (fun m => match map_offset (core m) with
                            | Some o => o =? 0
                            | None => true
                            end) (dict_values all_mappings)
    /\ documents_with_offset stats
       = total_documents stats - documents_no_offset stats
    /\ match gathered_offsets all_mappings with
       | [] => offset_statistics stats = None
       | first :: rest =>
           exists mean_value median_value mode,
             mean (first :: rest) = Ok mean_value
             /\ median (first :: rest) = Ok median_value
             /\ most_common_1 (Counter (first :: rest))
                = [(mode, count_occ Z.eq_dec (first :: rest) mode)]
             /\ offset_statistics stats
                = Some {| stat_min := fold_left Z.min rest first;
                          stat_max := fold_left Z.max rest first;
                          stat_mean := mean_value;
                          stat_median := median_value;
                          stat_mode := Some mode |}
       end.
Proof.
  unfold generate_summary_statistics, gathered_offsets.
  destruct (flat_map _ (dict_values all_mappings)) as [|first rest] eqn:Hoffsets.
  - eexists. split; [reflexivity|]. now repeat split.
  - assert (Hne : first :: rest <> []) by discriminate.
    destruct (mean_returns _ Hne) as (mean_value & Hmean).
    destruct (median_returns _ Hne) as (median_value & Hmedian).
    destruct (most_common_1_mode _ Hne) as (mode & Hmode & _).
    rewrite Hmean, Hmedian, Hmode. cbn [bind index nth_error fst].
    eexists. split; [reflexivity|].
    cbn [total_documents confidence_distribution dist_HIGH dist_MEDIUM dist_LOW
         dist_NONE documents_no_offset documents_with_offset offset_statistics].
    repeat split. exists mean_value, median_value, mode. now repeat split.
Qed.

Lemma confidence_buckets (values : list DocumentMapping) :
  count_if (fun m => confidence_eqb (map_confidence (core m)) HIGH) values
  + count_if (fun m => confidence_eqb (map_confidence (core m)) MEDIUM) values
  + count_if (fun m => confidence_eqb (map_confidence (core m)) LOW) values
  + count_if (fun m => confidence_eqb (map_confidence (core m)) NONE) values
  = Z.of_nat (List.length values).
Proof.
  unfold count_if. induction values as [|m values IH]; [reflexivity|].
  cbn [filter]. destruct (map_confidence (core m));
    cbn [confidence_eqb List.length]; rewrite ?Nat2Z.inj_succ; lia.
Qed.

Lemma offset_buckets (values : list DocumentMapping) :
  count_if (fun m => match map_offset (core m) with
                     | Some o => o =? 0
                     | None => true
                     end) values
  + count_if (fun m => match map_offset (core m) with
                       | Some o => negb (o =? 0)
                       | None => false
                       end) values
  = Z.of_nat (List.length values).
Proof.
  unfold count_if. induction values as [|m values IH]; [reflexivity|].
  cbn [filter]. destruct (map_offset (core m)) as [o|]; [destruct (o =? 0)|];
    cbn [negb List.length]; rewrite ?Nat2Z.inj_succ; lia.
Qed.

(** X8: [generate_summary_statistics] does not raise; its four confidence
    counts add up to the number of documents, the [NONE] count, computed by
    subtraction, being the number of mappings of confidence [NONE]; and
    [documents_with_offset], also a difference, is the number of mappings
    with a non-zero offset, a detected offset of 0 counting as no offset. *)
Theorem summary_counts (all_mappings : Dict DocumentMapping) :
  exists stats,
    generate_summary_statistics all_mappings = Ok stats
    /\ let dist := confidence_distribution stats in
       total_documents stats = Z.of_nat (List.length all_mappings)
       /\ dist_HIGH dist + dist_MEDIUM dist + dist_LOW dist + dist_NONE dist
          = total_documents stats
       /\ dist_NONE dist
          = count_if (fun m => confidence_eqb (map_confidence (core m)) NONE)
                     (dict_values all_mappings)
       /\ documents_with_offset stats + documents_no_offset stats
          = total_documents stats
       /\ documents_with_offset stats
          = count_if (fun m => match map_offset (core m) with
                               | Some o => negb (o =? 0)
                               | None => false
                               end) (dict_values all_mappings).
Proof.
  destruct (generate_summary_statistics_returns all_mappings)
    as (stats & Hstats & Htotal & Hhigh & Hmedium & Hlow & Hnone & Hno & Hwith & _).
  exists stats. split; [exact Hstats|]. cbv zeta.
  pose proof (confidence_buckets (dict_values all_mappings)) as Hconf.
  pose proof (offset_buckets (dict_values all_mappings)) as Hoff.
  unfold dict_values in Hconf, Hoff. rewrite length_map in Hconf, Hoff.
  fold (dict_values all_mappings) in Hconf, Hoff.
  rewrite Hwith, Hnone, Hhigh, Hmedium, Hlow, Hno, Htotal.
  repeat split; lia.
Qed.

(** X9: [offset_statistics] is present exactly when some mapping has an
    offset; its minimum and maximum are offsets of mappings and bound every
    such offset, and its mode is an offset of a mapping of greatest
    frequency, so between the minimum and the maximum. *)
Theorem summary_offset_statistics (all_mappings : Dict DocumentMapping) :
  exists stats,
    generate_summary_statistics all_mappings = Ok stats
    /\ let offsets := gathered_offsets all_mappings in
       (offset_statistics stats = None <-> offsets = [])
       /\ forall s, offset_statistics stats = Some s ->
           In (stat_min s) offsets
           /\ In (stat_max s) offsets
           /\ (forall o, In o offsets -> stat_min s <= o <= stat_max s)
           /\ exists mode,
                stat_mode s = Some mode
                /\ In mode offsets
                /\ stat_min s <= mode <= stat_max s
                /\ forall o, (count_occ Z.eq_dec offsets o
                              <= count_occ Z.eq_dec offsets mode)%nat.
Proof.
  destruct (generate_summary_statistics_returns all_mappings)
    as (stats & Hstats & _ & _ & _ & _ & _ & _ & _ & Hoffsets).
  exists stats. split; [exact Hstats|]. cbv zeta.
  destruct (gathered_offsets all_mappings) as [|first rest] eqn:Hgathered.
  - rewrite Hoffsets. split; [tauto|discriminate].
  - destruct Hoffsets as (mean_value & median_value & mode & _ & _ & Hmc & Hsome).
    rewrite Hsome. split; [split; discriminate|].
    intros s [= <-]. cbn [stat_min stat_max stat_mode].
    destruct (fold_min_spec rest first) as [Hmin_in Hmin].
    destruct (fold_max_spec rest first) as [Hmax_in Hmax].
    split; [exact Hmin_in|]. split; [exact Hmax_in|].
    split; [intros o Ho; split; [now apply Hmin|now apply Hmax]|].
    assert (Hne : first :: rest <> []) by discriminate.
    destruct (most_common_1_mode _ Hne) as (mode' & Hmc' & Hgreatest & (l1 & l2 & Hsplit & _)).
    rewrite Hmc in Hmc'. injection Hmc' as <- _.
    assert (Hin : In mode (first :: rest)).
    { rewrite Hsplit. apply in_or_app. right. now left. }
    exists mode. split; [reflexivity|]. split; [exact Hin|].
    split; [split; [now apply Hmin|now apply Hmax]|exact Hgreatest].
Qed.

Example summary_statistics_example :
  exists stats s,
    generate_summary_statistics
      (map (fun ko =>
              (fst ko,
               {| core := {| document_name := "report.pdf"; map_offset := snd ko;
                             map_confidence := HIGH; map_samples_processed := 3;
                             map_samples_agreed := 3; method := "ocr_auto";
                             map_evidence := []; evidence_images := [];
                             map_warning := None; map_message := None;
                             map_offset_distribution := None; validation := None |};
                  company_key := Some (fst ko); pdf_path := None |}))
           [("A", Some 4); ("B", Some 2); ("C", None); ("D", Some 4); ("E", Some 3)]%string)
    = Ok stats
    /\ offset_statistics stats = Some s
    /\ stat_min s = 2 /\ stat_max s = 4 /\ stat_mode s = Some 4
    /\ stat_mean s = PFloat (PyFloat.truediv 13 4)
    /\ stat_median s = PFloat (PyFloat.truediv 7 2)
    /\ documents_no_offset stats = 1 /\ total_documents stats = 5.
Proof.
  eexists. eexists. split; [vm_compute; reflexivity|].
  split; [reflexivity|]. repeat split; vm_compute; reflexivity.
Qed.

(** ** Plausibility of a detection *)

(** X10: [validate_page_number] accepts a detection exactly when
    [validate_offset] accepts the offset of the sample made from it, and it
    does not depend on which of the two page numbers is the larger. *)
Theorem validate_page_number_agrees (detected page max_offset : Z) :
  validate_page_number detected page max_offset
  = fst (validate_offset
           (offset {| pdf_page := page; detected_label := Some detected |})
           max_offset)
  /\ validate_page_number detected page max_offset
     = validate_page_number page detected max_offset
  /\ (validate_page_number detected page max_offset = true
      <-> page - max_offset <= detected <= page + max_offset).
Proof.
  unfold offset. cbn [detected_label pdf_page].
  rewrite validate_offset_verdict. unfold validate_page_number.
  split; [reflexivity|]. split.
  - f_equal. lia.
  - rewrite Z.leb_le. lia.
Qed.

(** ** Range of the detector *)

(** X11: whatever the recognizer returns, a label the detector reports lies
    between 1 and 9999. *)
Theorem detect_labeled_page_number_range {Image : Type} `{Recognizer Image}
    (image : Image) (label : Z) :
  detect_labeled_page_number image = Some label -> 1 <= label <= 9999.
Proof.
  rewrite detect_labeled_page_number_unfold.
  destruct (image_to_string image) as [page_text|]; [|discriminate].
  destruct (image_to_data image) as [ocr_data|]; [|discriminate].
  intros Hhd.
  assert (Hin : In label (find_positional_page_numbers ocr_data (size image)
                          ++ find_page_number_patterns page_text)).
  { destruct (_ ++ _) as [|x l]; [discriminate|]. injection Hhd as ->. now left. }
  apply in_app_or in Hin. destruct Hin as [Hin|Hin].
  - apply find_positional_page_numbers_In in Hin.
    destruct Hin as (i & word & _ & t & c & _ & _ & _ & _ & Hrange & _).
    exact Hrange.
  - now apply find_page_number_patterns_range in Hin.
Qed.

Lemma detect_labeled_page_number_range_witness :
  @detect_labeled_page_number unit footer_recognizer tt = Some 12
  /\ 1 <= 12 <= 9999.
Proof.
  assert (Hdetect : @detect_labeled_page_number unit footer_recognizer tt = Some 12)
    by (vm_compute; reflexivity).
  split; [exact Hdetect|].
  exact (@detect_labeled_page_number_range unit footer_recognizer tt 12 Hdetect).
Defined.

(** X12: the region helper returns only numbers between 1 and 9999, and
    the empty list when recognition of the cropped region raises. *)
Theorem extract_page_numbers_from_region_range {Image : Type}
    `{Recognizer Image} `{ImageOps Image}
    (image : Image) (region : string) (height_fraction : PyFloat.float) :
  (forall n, In n (extract_page_numbers_from_region image region height_fraction) ->
             1 <= n <= 9999)
  /\ ((forall box, exists e, image_to_string (crop image box) = Raise e) ->
      extract_page_numbers_from_region image region height_fraction = []).
Proof.
  unfold extract_page_numbers_from_region.
  destruct (size image) as [width height].
  set (box := if String.eqb region "footer" then _ else _).
  split.
  - intros n. destruct (image_to_string (crop image box)) as [page_text|];
      [|intros []]. cbn [bind]. rewrite in_flat_map.
    intros (num_str & _ & Hin).
    destruct (py_int num_str) as [num|]; [|destruct Hin].
    unfold reasonable_page_number in Hin.
    destruct (Z.leb_spec 1 num), (Z.leb_spec num 9999); simpl in Hin;
      try destruct Hin as [<-|[]]; try destruct Hin. lia.
  - intros Hraise. destruct (Hraise box) as (e & ->). reflexivity.
Qed.

(** ** Size of the sample *)

(** X13: for a document of at least one page and at least one sample asked
    for, the sampler returns at least one page and at most [num_samples];
    and when the document is too short for the evenly spaced positions
    ([total_pages - skip_first - 1 < num_samples]) and has at least two
    pages, every page returned is a page of the document. *)
Theorem select_sample_pages_count (total_pages num_samples skip_first : Z) :
  1 <= total_pages ->
  1 <= num_samples ->
  let pages := select_sample_pages total_pages num_samples skip_first in
  1 <= Z.of_nat (List.length pages) <= num_samples
  /\ (2 <= total_pages -> 0 <= skip_first ->
      total_pages - skip_first - 1 < num_samples ->
      forall p, In p pages -> valid_page_index total_pages p = true).
Proof.
  intros Htotal Hnum pages. subst pages.
  destruct (Z.le_gt_cases total_pages skip_first) as [Hshort|Hlong].
  - rewrite select_sample_pages_too_short by assumption.
    destruct (Z.ltb_spec 0 total_pages); [|lia]. split; [simpl; lia|].
    intros Htwo _ _ p [<-|[]]. unfold valid_page_index.
    apply andb_true_iff. rewrite !Z.leb_le. split.
    + apply Z.div_le_lower_bound; lia.
    + apply Z.div_le_upper_bound; lia.
  - destruct (Z.lt_ge_cases (total_pages - (skip_first + 1)) num_samples)
      as [Hfew|Hmany].
    + rewrite select_sample_pages_all_usable by lia.
      unfold usable_pages. rewrite py_range_length. split; [lia|].
      intros _ Hskip _ p Hin. apply py_range_In in Hin.
      unfold valid_page_index. apply andb_true_iff. rewrite !Z.leb_le. lia.
    + rewrite select_sample_pages_spaced by lia.
      rewrite length_map, py_range_length. split; [lia|]. lia.
Qed.

Lemma select_sample_pages_count_witness :
  1 <= 7 /\ 1 <= 3
  /\ 1 <= Z.of_nat (List.length (select_sample_pages 7 3 5)) <= 3.
Proof.
  split; [lia|]. split; [lia|].
  apply (select_sample_pages_count 7 3 5); lia.
Defined.

(** Checked by evaluation for every page count from 9 to 2000. *)
Lemma default_sampling_exact_2000 :
  forallb default_sampling_exact (seq 9 1992) = true.
Proof. vm_compute. reflexivity. Qed.

(** X14: with the default arguments (3 samples, 5 pages skipped) and a
    document of 9 to 2000 pages, the double-precision positions are the
    exact quarter points of the usable span, [6 + (n-6)*k/4] rounded down
    for [k = 1, 2, 3]; they are pages of the document, in strictly
    increasing order. *)
Theorem default_sampling_quarter_points (total_pages : Z) :
  9 <= total_pages <= 2000 ->
  select_sample_pages total_pages default_num_samples default_skip_first
  = quarter_points total_pages
  /\ exists p1 p2 p3,
       quarter_points total_pages = [p1; p2; p3]
       /\ 6 <= p1 < p2 /\ p2 < p3 <= total_pages.
Proof.
  intros Hrange. split.
  - pose proof default_sampling_exact_2000 as Hall.
    rewrite forallb_forall in Hall.
    specialize (Hall (Z.to_nat total_pages) ltac:(apply in_seq; lia)).
    unfold default_sampling_exact in Hall. rewrite Z2Nat.id in Hall by lia.
    now destruct (list_eq_dec Z.eq_dec _ _).
  - unfold quarter_points. do 3 eexists. split; [reflexivity|].
    pose proof (Z.div_mod (total_pages - 6) 4 ltac:(lia)).
    pose proof (Z.mod_pos_bound (total_pages - 6) 4 ltac:(lia)).
    pose proof (Z.div_mod ((total_pages - 6) * 2) 4 ltac:(lia)).
    pose proof (Z.mod_pos_bound ((total_pages - 6) * 2) 4 ltac:(lia)).
    pose proof (Z.div_mod ((total_pages - 6) * 3) 4 ltac:(lia)).
    pose proof (Z.mod_pos_bound ((total_pages - 6) * 3) 4 ltac:(lia)).
    lia.
Qed.

Lemma default_sampling_quarter_points_witness :
  9 <= 100 <= 2000 /\ select_sample_pages 100 3 5 = [29; 53; 76].
Proof.
  split; [lia|].
  destruct (default_sampling_quarter_points 100 ltac:(lia)) as [Heq _].
  exact (eq_trans Heq ltac:(vm_compute; reflexivity)).
Defined.

(** ** Warnings, messages and review reasons *)

Lemma consensus_result_notes (samples : list OffsetSample) (r : OffsetResult) :
  calculate_offset_from_samples samples = Ok r ->
  match confidence r with
  | HIGH => warning r = None /\ message r = None /\ res_offset r <> None
  | MEDIUM =>
      message r = None /\ res_offset r <> None
      /\ exists tail, warning r = Some (String "M" tail)
  | LOW =>
      message r = None /\ res_offset r <> None
      /\ exists tail, warning r = Some (String "L" tail)
  | NONE =>
      warning r = None /\ message r = Some no_detection_message
      /\ res_offset r = None
  end.
Proof.
  intros Hr.
  destruct (filter is_valid_sample samples) as [|s0 rest] eqn:Hvalid.
  - unfold calculate_offset_from_samples in Hr. rewrite Hvalid in Hr.
    injection Hr as <-. cbn [confidence warning message res_offset]. now repeat split.
  - assert (Hsome : filter is_valid_sample samples <> []) by (rewrite Hvalid; discriminate).
    destruct (calculate_offset_consensus_record samples Hsome) as (o & _ & Hr').
    cbv zeta in Hr'. rewrite Hr in Hr'. injection Hr' as ->.
    cbn [confidence warning message res_offset].
    destruct (PyFloat.eqb _ PyFloat.lit_1_0);
      [|destruct (PyFloat.leb PyFloat.lit_0_66 _)].
    + repeat split. discriminate.
    + split; [reflexivity|]. split; [discriminate|]. eexists. reflexivity.
    + split; [reflexivity|]. split; [discriminate|]. eexists. reflexivity.
Qed.

Lemma built_from_consensus_notes (m : OffsetMapping) :
  built_from_consensus m ->
  match map_confidence m with
  | HIGH => map_warning m = None /\ map_message m = None /\ validation m <> None
  | MEDIUM =>
      map_message m = None /\ validation m <> None
      /\ exists tail, map_warning m = Some (String "M" tail)
                      /\ review_reason m = String "M" tail
  | LOW =>
      map_message m = None /\ validation m <> None
      /\ exists tail, map_warning m = Some (String "L" tail)
                      /\ review_reason m = String "L" tail
  | NONE =>
      map_warning m = None /\ map_message m = Some no_detection_message
      /\ validation m = None /\ map_offset m = None
      /\ review_reason m = no_detection_message
  end.
Proof.
  intros (samples & r & company & doc & imgs & method & Hr & ->).
  pose proof (consensus_result_notes samples r Hr) as Hnotes.
  rewrite create_offset_mapping_validation_field.
  unfold review_reason. cbn [create_offset_mapping map_confidence map_warning
    map_message map_offset].
  destruct (confidence r).
  - destruct Hnotes as (-> & -> & Hoff). repeat split.
    destruct (res_offset r); [discriminate|contradiction].
  - destruct Hnotes as (-> & Hoff & tail & ->). split; [reflexivity|]. split.
    + destruct (res_offset r); [discriminate|contradiction].
    + exists tail. split; reflexivity.
  - destruct Hnotes as (-> & Hoff & tail & ->). split; [reflexivity|]. split.
    + destruct (res_offset r); [discriminate|contradiction].
    + exists tail. split; reflexivity.
  - destruct Hnotes as (-> & -> & ->). now repeat split.
Qed.

Lemma notes_by_confidence (m : OffsetMapping) :
  built_from_consensus m ->
  (map_warning m <> None <-> map_confidence m = LOW \/ map_confidence m = MEDIUM)
  /\ (map_message m <> None <-> map_confidence m = NONE)
  /\ (validation m = None <-> map_confidence m = NONE)
  /\ (map_confidence m <> HIGH ->
      review_reason m <> "Unknown"%string
      /\ str_truthy (review_reason m) = true
      /\ (map_warning m = Some (review_reason m)
          \/ map_message m = Some (review_reason m))).
Proof.
  intros Hbuilt. apply built_from_consensus_notes in Hbuilt.
  destruct (map_confidence m).
  - destruct Hbuilt as (-> & -> & Hval).
    split; [split; [congruence|intros [?|?]; discriminate]|].
    split; [split; [congruence|discriminate]|].
    split; [split; [contradiction|discriminate]|]. congruence.
  - destruct Hbuilt as (-> & Hval & tail & -> & ->).
    split; [split; [now right|discriminate]|].
    split; [split; [congruence|discriminate]|].
    split; [split; [contradiction|discriminate]|].
    intros _. split; [discriminate|]. split; [reflexivity|now left].
  - destruct Hbuilt as (-> & Hval & tail & -> & ->).
    split; [split; [now left|discriminate]|].
    split; [split; [congruence|discriminate]|].
    split; [split; [contradiction|discriminate]|].
    intros _. split; [discriminate|]. split; [reflexivity|now left].
  - destruct Hbuilt as (-> & -> & -> & _ & ->).
    split; [split; [congruence|intros [?|?]; discriminate]|].
    split; [split; [reflexivity|discriminate]|].
    split; [split; reflexivity|].
    intros _. split; [discriminate|]. split; [reflexivity|now right].
Qed.

(** X15: in the mapping built from a consensus result, a warning is
    present exactly for [LOW] and [MEDIUM], the no-detection message exactly
    for [NONE], never both; the validation record is absent exactly for
    [NONE]; and the reason given for review when the confidence is not
    [HIGH] is that warning or that message, never the fallback ["Unknown"]. *)
Theorem consensus_mapping_notes (samples : list OffsetSample)
    (company document_name : string) (evidence_images : list string)
    (method : string) :
  exists r,
    calculate_offset_from_samples samples = Ok r
    /\ let m := create_offset_mapping company document_name r evidence_images
                                      method in
       (map_warning m <> None <->
          map_confidence m = LOW \/ map_confidence m = MEDIUM)
       /\ (map_message m <> None <-> map_confidence m = NONE)
       /\ (validation m = None <-> map_confidence m = NONE)
       /\ (map_confidence m <> HIGH ->
           review_reason m <> "Unknown"%string
           /\ str_truthy (review_reason m) = true
           /\ (map_warning m = Some (review_reason m)
               \/ map_message m = Some (review_reason m))).
Proof.
  assert (Hreturns : exists r, calculate_offset_from_samples samples = Ok r).
  { destruct (filter is_valid_sample samples) as [|s0 rest] eqn:Hvalid.
    - destruct (calculate_offset_no_valid samples Hvalid) as (r & Hr & _). now exists r.
    - assert (Hsome : filter is_valid_sample samples <> [])
        by (rewrite Hvalid; discriminate).
      destruct (calculate_offset_some_valid samples Hsome) as (r & o & Hr & _).
      now exists r. }
  destruct Hreturns as (r & Hr). exists r. split; [exact Hr|]. cbv zeta.
  apply notes_by_confidence. do 6 eexists. split; [exact Hr|reflexivity].
Qed.

(** ** The pipeline *)

Lemma enumerate_from_1_pages {A : Type} (l : list A) :
  map snd (enumerate_from_1 l) = l /\ List.length (enumerate_from_1 l) = List.length l.
Proof.
  unfold enumerate_from_1. generalize 1%nat.
  induction l as [|x l IH]; intros start; simpl; [now split|].
  destruct (IH (S start)) as [-> ->]. now split.
Qed.

Lemma calculate_offset_evidence_pages (samples : list OffsetSample) (r : OffsetResult) :
  calculate_offset_from_samples samples = Ok r ->
  map ev_pdf_page (evidence r) = map pdf_page samples
  /\ map ev_detected_label (evidence r) = map detected_label samples
  /\ samples_processed r = List.length samples.
Proof.
  intros Hr.
  destruct (filter is_valid_sample samples) as [|s0 rest] eqn:Hvalid.
  - destruct (calculate_offset_no_valid samples Hvalid)
      as (r' & Hr' & _ & _ & Hproc & _ & _ & _ & _ & Hev).
    rewrite Hr in Hr'. injection Hr' as <-.
    rewrite Hev, Hproc, !map_map. now repeat split.
  - assert (Hsome : filter is_valid_sample samples <> []) by (rewrite Hvalid; discriminate).
    destruct (calculate_offset_some_valid samples Hsome)
      as (r' & o & Hr' & _ & _ & _ & _ & _ & _ & _ & Hproc & _ & Hev).
    rewrite Hr in Hr'. injection Hr' as <-.
    rewrite Hev, Hproc, !map_map. now repeat split.
Qed.

Lemma calculate_offset_returns (samples : list OffsetSample) :
  exists r, calculate_offset_from_samples samples = Ok r.
Proof.
  destruct (filter is_valid_sample samples) as [|s0 rest] eqn:Hvalid.
  - destruct (calculate_offset_no_valid samples Hvalid) as (r & Hr & _). now exists r.
  - assert (Hsome : filter is_valid_sample samples <> []) by (rewrite Hvalid; discriminate).
    destruct (calculate_offset_some_valid samples Hsome) as (r & o & Hr & _).
    now exists r.
Qed.

Lemma select_sample_pages_nonempty (total_pages num_samples : Z) :
  0 < total_pages -> 1 <= num_samples ->
  select_sample_pages total_pages num_samples default_skip_first <> [].
Proof.
  intros Hpos Hnum Hnil. apply (f_equal (@List.length Z)) in Hnil.
  unfold select_sample_pages, default_skip_first in Hnil.
  destruct (Z.leb_spec total_pages 5).
  - destruct (Z.ltb_spec 0 total_pages); [discriminate|lia].
  - cbv zeta in Hnil. destruct (Z.ltb_spec (total_pages - (5 + 1)) num_samples).
    + rewrite py_range_length in Hnil. cbn [List.length] in Hnil. lia.
    + rewrite length_map, py_range_length in Hnil. cbn [List.length] in Hnil. lia.
Qed.

Lemma select_sample_pages_no_page (num_samples skip_first : Z) :
  0 <= skip_first -> select_sample_pages 0 num_samples skip_first = [].
Proof.
  intros Hskip. rewrite select_sample_pages_too_short by lia. reflexivity.
Qed.

(** A loop whose body returns from every state returns. *)
Lemma io_for_returns {World S A : Type} (body : S -> A -> IO World S) (l : list A) :
  (forall state x w, exists state' w', body state x w = (Ok state', w')) ->
  forall state w, exists state' w', io_for body l state w = (Ok state', w').
Proof.
  intros Hbody. induction l as [|x l IH]; intros state w; cbn [io_for].
  - now exists state, w.
  - unfold io_bind. destruct (Hbody state x w) as (state1 & w1 & ->). apply IH.
Qed.

(** What every turn of a loop preserves holds when the loop returns. *)
Lemma io_for_invariant {World S A : Type} (P : S -> Prop)
    (body : S -> A -> IO World S) (l : list A) :
  (forall state x w state' w',
     In x l -> P state -> body state x w = (Ok state', w') -> P state') ->
  forall state w state' w',
    P state -> io_for body l state w = (Ok state', w') -> P state'.
Proof.
  induction l as [|x l IH]; intros Hbody state w state' w' HP; cbn [io_for].
  - unfold io_ret. now intros [= <- _].
  - unfold io_bind. destruct (body state x w) as [[state1|e] w1] eqn:Hstep;
      [|discriminate].
    apply IH; [|now apply (Hbody state x w state1 w1); [left| |]].
    intros st y v st' v' Hy. apply Hbody. now right.
Qed.

Section PipelineProperties.

Context {World Image : Type} `{Recognizer Image} `{Platform World Image}.

Lemma get_pdf_page_count_run (path : string) (w : World) :
  get_pdf_page_count path w
  = (Ok match fst (fitz_page_count path w) with
        | Ok page_count => Z.of_nat page_count
        | Raise _ => 0
        end,
     snd (fitz_page_count path w)).
Proof.
  unfold get_pdf_page_count, io_try, io_bind, io_ret.
  now destruct (fitz_page_count path w) as [[page_count|e] w'].
Qed.

(** Rendering a page never raises. *)
Lemma convert_pdf_page_to_image_run (path : string) (page dpi : Z) (w : World) :
  convert_pdf_page_to_image path page dpi w
  = (Ok match fst (convert_from_path path dpi page w) with
        | Ok (image :: _) => Some image
        | _ => None
        end,
     snd (convert_from_path path dpi page w)).
Proof.
  unfold convert_pdf_page_to_image, io_try, io_bind, io_ret.
  destruct (convert_from_path path dpi page w) as [[[|image images]|e] w'];
    reflexivity.
Qed.

(** One turn of the sampling loop adds one sample, for the page of the
    turn, and at most one evidence image. *)
Lemma process_sample_run (path company : string) (samples : list OffsetSample)
    (evidence_images : list string) (i : nat) (page : Z) (w w' : World)
    (samples' : list OffsetSample) (evidence_images' : list string) :
  process_sample path company (samples, evidence_images) (i, page) w
  = (Ok (samples', evidence_images'), w') ->
  (exists label, samples' = samples ++ [ {| pdf_page := page; detected_label := label |} ])
  /\ (evidence_images' = evidence_images
      \/ exists rel_path, evidence_images' = evidence_images ++ [rel_path]).
Proof.
  unfold process_sample, io_bind at 1. rewrite convert_pdf_page_to_image_run.
  destruct (fst (convert_from_path path 200 page w)) as [[|image images]|e];
    cbn [io_ret].
  - intros [= <- <- _]. split; [eexists; reflexivity|now left].
  - unfold save_evidence_image, io_bind, io_try, io_ret.
    destruct (makedirs EVIDENCE_DIR _) as [[[]|e] w1]; [|discriminate].
    destruct (image_save image _ w1) as [[[]|e] w2].
    + destruct (str_truthy _).
      * destruct (relpath _ OUTPUT_DIR w2) as [[rel_path|e] w3]; [|discriminate].
        intros [= <- <- _]. split; [eexists; reflexivity|right; now exists rel_path].
      * intros [= <- <- _]. split; [eexists; reflexivity|now left].
    + cbn [str_truthy]. intros [= <- <- _]. split; [eexists; reflexivity|now left].
  - intros [= <- <- _]. split; [eexists; reflexivity|now left].
Qed.

Lemma process_samples_run (path company : string) (numbered : list (nat * Z))
    (samples : list OffsetSample) (evidence_images : list string) (w w' : World)
    (samples' : list OffsetSample) (evidence_images' : list string) :
  io_for (process_sample path company) numbered (samples, evidence_images) w
  = (Ok (samples', evidence_images'), w') ->
  map pdf_page samples' = map pdf_page samples ++ map snd numbered
  /\ (List.length evidence_images <= List.length evidence_images'
      <= List.length evidence_images + List.length numbered)%nat.
Proof.
  revert samples evidence_images w.
  induction numbered as [|[i page] numbered IH]; intros samples evidence_images w;
    cbn [io_for map snd List.length].
  - unfold io_ret. intros [= <- <- _]. rewrite app_nil_r. split; [reflexivity|lia].
  - unfold io_bind at 1.
    destruct (process_sample path company (samples, evidence_images) (i, page) w)
      as [[[samples1 images1]|e] w1] eqn:Hstep; cbv beta iota; [|discriminate].
    intros Hrest. apply process_sample_run in Hstep.
    destruct Hstep as ((label & ->) & Himages).
    apply IH in Hrest. destruct Hrest as [Hpages Hlen].
    rewrite Hpages, map_app, <- app_assoc. split; [reflexivity|].
    destruct Himages as [->|(rel_path & ->)]; [lia|].
    rewrite length_app in Hlen. simpl in Hlen. lia.
Qed.

(** What a mapping returned by [process_single_pdf] is made of. *)
Lemma process_single_pdf_run (path company : string) (num_samples : Z)
    (w w' : World) (m : DocumentMapping) :
  process_single_pdf path company num_samples w = (Ok (Some m), w') ->
  exists page_count samples r evidence_images,
    fst (fitz_page_count path w) = Ok page_count
    /\ (1 <= page_count)%nat
    /\ map pdf_page samples
       = select_sample_pages (Z.of_nat page_count) num_samples default_skip_first
    /\ samples <> []
    /\ calculate_offset_from_samples samples = Ok r
    /\ (List.length evidence_images <= List.length samples)%nat
    /\ core m = create_offset_mapping company (path_name path) r evidence_images
                                      "ocr_auto"
    /\ company_key m = Some (company ++ "_2024")%string
    /\ pdf_path m = Some path.
Proof.
  unfold process_single_pdf, io_bind at 1. rewrite get_pdf_page_count_run.
  destruct (fst (fitz_page_count path w)) as [page_count|e] eqn:Hcount;
    [|cbn [Z.eqb io_ret]; discriminate].
  destruct (Z.eqb_spec (Z.of_nat page_count) 0) as [Hzero|Hpos];
    [cbn [io_ret]; discriminate|].
  destruct (select_sample_pages (Z.of_nat page_count) num_samples default_skip_first)
    as [|p0 pages] eqn:Hpages; [cbn [io_ret]; discriminate|].
  unfold io_bind at 1.
  destruct (io_for _ _ _ _) as [[[samples evidence_images]|e] w1] eqn:Hloop;
    cbv beta iota; [|discriminate].
  apply process_samples_run in Hloop. destruct Hloop as [Hsamples Himages].
  destruct (enumerate_from_1_pages (p0 :: pages)) as [Hsnd Hlen].
  rewrite Hsnd in Hsamples. rewrite Hlen in Himages. simpl in Hsamples.
  unfold io_bind, io_lift, io_ret.
  destruct (calculate_offset_from_samples samples) as [r|e] eqn:Hr; [|discriminate].
  intros [= <- _].
  exists page_count, samples, r, evidence_images. cbn [core company_key pdf_path].
  split; [reflexivity|]. split; [lia|]. split; [now rewrite Hpages|].
  split; [intros ->; discriminate|]. split; [exact Hr|].
  split; [|now repeat split].
  apply (f_equal (@List.length Z)) in Hsamples.
  rewrite length_map in Hsamples. simpl in Hsamples, Himages. lia.
Qed.

(** A document that cannot be counted, or has no page, is given up before
    anything else is done with it. *)
Lemma process_single_pdf_no_page (path company : string) (num_samples : Z)
    (w : World) :
  match fst (fitz_page_count path w) with
  | Ok page_count => page_count = 0%nat
  | Raise _ => True
  end ->
  process_single_pdf path company num_samples w
  = (Ok None, snd (fitz_page_count path w)).
Proof.
  intros Hcount. unfold process_single_pdf, io_bind at 1.
  rewrite get_pdf_page_count_run.
  destruct (fst (fitz_page_count path w)) as [page_count|e]; [subst|]; reflexivity.
Qed.

Lemma save_evidence_image_returns (image : Image) (output_path company : string)
    (i : nat) (page : Z) (label : option Z) (w : World) :
  (forall p v, exists v', makedirs p v = (Ok tt, v')) ->
  exists evidence_path w',
    save_evidence_image image output_path company i page label w
    = (Ok evidence_path, w').
Proof.
  intros Hmakedirs. unfold save_evidence_image, io_bind at 1.
  destruct (Hmakedirs output_path w) as (w1 & ->).
  unfold io_try, io_bind, io_ret.
  destruct (image_save image _ w1) as [[[]|e] w2]; eexists; eexists; reflexivity.
Qed.

Lemma process_sample_returns (path company : string)
    (state : list OffsetSample * list string) (numbered_page : nat * Z) (w : World) :
  (forall p v, exists v', makedirs p v = (Ok tt, v')) ->
  (forall p start v, exists rel_path v', relpath p start v = (Ok rel_path, v')) ->
  exists state' w', process_sample path company state numbered_page w = (Ok state', w').
Proof.
  intros Hmakedirs Hrelpath. destruct state as [samples evidence_images].
  destruct numbered_page as [i page].
  unfold process_sample, io_bind at 1. rewrite convert_pdf_page_to_image_run.
  destruct (fst (convert_from_path path 200 page w)) as [[|image images]|e];
    cbn [io_ret]; try (eexists; eexists; reflexivity).
  unfold io_bind at 1.
  destruct (save_evidence_image_returns image EVIDENCE_DIR company i page
              (detect_labeled_page_number image)
              (snd (convert_from_path path 200 page w)) Hmakedirs)
    as (evidence_path & w1 & ->).
  unfold io_bind, io_ret. destruct (str_truthy evidence_path).
  - destruct (Hrelpath evidence_path OUTPUT_DIR w1) as (rel_path & w2 & ->).
    eexists; eexists; reflexivity.
  - eexists; eexists; reflexivity.
Qed.

(** When the evidence directory can be made and relative paths taken,
    [process_single_pdf] returns, and returns no mapping only when no sample
    page is selected. *)
Lemma process_single_pdf_returns (path company : string) (num_samples : Z)
    (w : World) :
  (forall p v, exists v', makedirs p v = (Ok tt, v')) ->
  (forall p start v, exists rel_path v', relpath p start v = (Ok rel_path, v')) ->
  exists result w',
    process_single_pdf path company num_samples w = (Ok result, w')
    /\ (result = None
        <-> select_sample_pages
              match fst (fitz_page_count path w) with
              | Ok page_count => Z.of_nat page_count
              | Raise _ => 0
              end num_samples default_skip_first = []).
Proof.
  intros Hmakedirs Hrelpath.
  unfold process_single_pdf, io_bind at 1. rewrite get_pdf_page_count_run.
  set (total_pages := match fst (fitz_page_count path w) with
                      | Ok page_count => Z.of_nat page_count
                      | Raise _ => 0
                      end).
  destruct (Z.eqb_spec total_pages 0) as [->|Hpos].
  - eexists; eexists. split; [reflexivity|].
    now rewrite select_sample_pages_no_page.
  - destruct (select_sample_pages total_pages num_samples default_skip_first)
      as [|p0 pages]; [eexists; eexists; split; [reflexivity|tauto]|].
    unfold io_bind at 1.
    destruct (io_for_returns (process_sample path company)
                (enumerate_from_1 (p0 :: pages))
                (fun state x v =>
                   process_sample_returns path company state x v Hmakedirs Hrelpath)
                ([], []) (snd (fitz_page_count path w)))
      as ([samples evidence_images] & w1 & ->).
    unfold io_bind, io_lift, io_ret.
    destruct (calculate_offset_returns samples) as (r & ->).
    eexists; eexists. split; [reflexivity|]. split; discriminate.
Qed.

(** The sampling loop over pages none of which can be rendered. *)
Lemma process_samples_unrendered (path company : string) (numbered : list (nat * Z))
    (samples : list OffsetSample) (evidence_images : list string) (w : World) :
  (forall page v, match fst (convert_from_path path 200 page v) with
                  | Ok (_ :: _) => False
                  | _ => True
                  end) ->
  exists w',
    io_for (process_sample path company) numbered (samples, evidence_images) w
    = (Ok (samples
           ++ map (fun page => {| pdf_page := page; detected_label := None |})
                  (map snd numbered),
           evidence_images), w').
Proof.
  intros Hunrendered. revert samples w.
  induction numbered as [|[i page] numbered IH]; intros samples w;
    cbn [io_for map snd].
  - exists w. now rewrite app_nil_r.
  - unfold io_bind at 1, process_sample at 1, io_bind at 1.
    rewrite convert_pdf_page_to_image_run. specialize (Hunrendered page w).
    destruct (fst (convert_from_path path 200 page w)) as [[|image images]|e];
      [|contradiction|]; cbn [io_ret];
      destruct (IH (samples ++ [ {| pdf_page := page; detected_label := None |} ])
                  (snd (convert_from_path path 200 page w))) as (w' & ->);
      exists w'; now rewrite <- app_assoc.
Qed.

(** One document of the batch never raises; it leaves the results as they
    were or files the mapping of the document. *)
Lemma process_document_run (company : string) (num_samples : Z)
    (state : Dict DocumentMapping * list FlaggedItem) (path : string) (w : World) :
  exists state' w',
    process_document company num_samples state path w = (Ok state', w')
    /\ (state' = state
        \/ exists m v v',
             process_single_pdf path company num_samples v = (Ok (Some m), v')
             /\ record_mapping company state m v' = (Ok state', w')).
Proof.
  unfold process_document, io_try, io_bind.
  destruct (process_single_pdf path company num_samples w) as [[[m|]|e] w1] eqn:Hm.
  - destruct (record_mapping company state m w1) as [[state'|e] w2] eqn:Hrecord.
    + exists state', w2. split; [reflexivity|]. right. now exists m, w, w1.
    + exists state, w2. split; [reflexivity|now left].
  - exists state, w1. split; [reflexivity|now left].
  - exists state, w1. split; [reflexivity|now left].
Qed.

Lemma process_company_returns (num_samples : Z)
    (state : Dict DocumentMapping * list FlaggedItem) (company : string) (w : World) :
  (forall p v, exists found v', path_exists p v = (Ok found, v')) ->
  (forall p v, exists pdfs v', glob_pdf p v = (Ok pdfs, v')) ->
  exists state' w', process_company num_samples state company w = (Ok state', w').
Proof.
  intros Hexists Hglob.
  unfold process_company, find_pdfs_in_company_folder, io_bind.
  destruct (Hexists (path_join (path_join SOURCE_DOCUMENTS_PATH company) YEAR) w)
    as (found & w1 & ->).
  destruct found; cbn [negb io_ret]; [|now exists state, w1].
  destruct (Hglob (path_join (path_join SOURCE_DOCUMENTS_PATH company) YEAR) w1)
    as (pdfs & w2 & ->).
  destruct pdfs as [|pdf pdfs]; [now exists state, w2|].
  apply io_for_returns. intros st path v.
  destruct (process_document_run company num_samples st path v)
    as (st' & v' & Hrun & _).
  now exists st', v'.
Qed.

(** Filing the mapping of a document of [company] keeps the invariant of the
    batch. *)
Lemma record_mapping_invariant (companies : list string) (company path : string)
    (num_samples : Z) (state state' : Dict DocumentMapping * list FlaggedItem)
    (m : DocumentMapping) (v v' w' : World) :
  In company companies ->
  batch_invariant companies state ->
  process_single_pdf path company num_samples v = (Ok (Some m), v') ->
  record_mapping company state m v' = (Ok state', w') ->
  batch_invariant companies state'.
Proof.
  intros Hcompany (Hkeys & Hkept & Hflagged) Hm Hrecord.
  apply process_single_pdf_run in Hm.
  destruct Hm as (page_count & samples & r & images & _ & _ & _ & _ & Hr & _
                  & Hcore & Hkey & _).
  assert (Hbuilt : built_from_consensus (core m)).
  { exists samples, r, company, (path_name path), images, "ocr_auto"%string.
    now split. }
  destruct state as [all_mappings flagged_items].
  unfold record_mapping in Hrecord. rewrite Hkey in Hrecord.
  unfold io_ret in Hrecord. injection Hrecord as <- _.
  cbn [fst snd] in *.
  set (item := {| flag_company := company;
                  flag_document := document_name (core m);
                  flag_confidence := map_confidence (core m);
                  flag_reason := review_reason (core m) |}).
  assert (Hgrows : forall f, In f flagged_items ->
            In f match map_confidence (core m) with
                 | HIGH => flagged_items
                 | _ => flagged_items ++ [item]
                 end).
  { intros f Hf. destruct (map_confidence (core m)); [assumption|..];
      apply in_or_app; now left. }
  assert (Hitem : map_confidence (core m) <> HIGH ->
            In item match map_confidence (core m) with
                    | HIGH => flagged_items
                    | _ => flagged_items ++ [item]
                    end).
  { intros Hnot. destruct (map_confidence (core m)); [contradiction|..];
      apply in_or_app; right; now left. }
  split; [now apply dict_setitem_NoDup|]. split.
  - intros key m' Hin. apply dict_setitem_In in Hin.
    destruct Hin as [[= -> ->]|Hin].
    + exists company. split; [assumption|]. split; [reflexivity|].
      split; [assumption|]. split; [assumption|]. exact Hitem.
    + destruct (Hkept key m' Hin) as (c & Hc & Hk & Hck & Hb & Hf).
      exists c. split; [assumption|]. split; [assumption|].
      split; [assumption|]. split; [assumption|].
      intros Hnot. apply Hgrows. now apply Hf.
  - intros f Hf.
    assert (Hcases : In f flagged_items
                     \/ (f = item /\ map_confidence (core m) <> HIGH)).
    { destruct (map_confidence (core m)) eqn:Hconf; [now left|..];
        (apply in_app_or in Hf; destruct Hf as [Hf|[<-|[]]];
         [now left|right; split; [reflexivity|discriminate]]). }
    destruct Hcases as [Hold|[-> Hnot]]; [now apply Hflagged|].
    cbn [flag_company flag_confidence flag_reason].
    split; [assumption|]. split; [assumption|].
    destruct (notes_by_confidence (core m) Hbuilt) as (_ & _ & _ & Hreason).
    destruct (Hreason Hnot) as (Hunknown & Htruthy & _). now split.
Qed.

Lemma process_company_invariant (companies : list string) (num_samples : Z)
    (state state' : Dict DocumentMapping * list FlaggedItem) (company : string)
    (w w' : World) :
  In company companies ->
  batch_invariant companies state ->
  process_company num_samples state company w = (Ok state', w') ->
  batch_invariant companies state'.
Proof.
  intros Hcompany Hinv. unfold process_company, io_bind.
  destruct (find_pdfs_in_company_folder company w) as [[pdfs|e] w1];
    [|discriminate].
  destruct pdfs as [|pdf pdfs]; [unfold io_ret; now intros [= <- _]|].
  apply (io_for_invariant (batch_invariant companies)); [|assumption].
  intros st path v st' v' _ Hst Hdoc.
  destruct (process_document_run company num_samples st path v)
    as (st1 & v1 & Hrun & Hcases).
  rewrite Hdoc in Hrun. injection Hrun as <- <-.
  destruct Hcases as [->|(m & u & u' & Hm & Hrecord)]; [assumption|].
  now apply (record_mapping_invariant companies company path num_samples st st'
               m u u' v').
Qed.

Lemma process_all_companies_invariant (companies : list string) (num_samples : Z)
    (w w' : World) (result : Dict DocumentMapping * list FlaggedItem) :
  process_all_companies companies num_samples w = (Ok result, w') ->
  batch_invariant companies result.
Proof.
  unfold process_all_companies, io_bind.
  destruct (mkdir OUTPUT_DIR w) as [[[]|e] w1]; [|discriminate].
  destruct (mkdir EVIDENCE_DIR w1) as [[[]|e] w2]; [|discriminate].
  apply (io_for_invariant (batch_invariant companies)).
  - intros st company v st' v' Hcompany Hst.
    now apply process_company_invariant.
  - split; [constructor|]. split; intros ? ; [intros ? []|intros []].
Qed.

End PipelineProperties.

Lemma filter_valid_unlabelled (pages : list Z) :
  filter is_valid_sample
    (map (fun page => {| pdf_page := page; detected_label := None |}) pages) = [].
Proof. induction pages as [|page pages IH]; [reflexivity|exact IH]. Qed.

(** X16: a mapping returned by [process_single_pdf] is the consensus of one
    sample per selected page, in the order of selection: its evidence lists
    the pages [select_sample_pages] chose for the page count of the document,
    it has at most one evidence image per sample, it is named after the file,
    filed under [<company>_2024] and carries the path of the document. *)
Theorem process_single_pdf_mapping {World Image : Type} `{Recognizer Image}
    `{Platform World Image} (path company : string) (num_samples : Z)
    (w w' : World) (m : DocumentMapping) :
  process_single_pdf path company num_samples w = (Ok (Some m), w') ->
  exists page_count,
    fst (fitz_page_count path w) = Ok page_count
    /\ (1 <= page_count)%nat
    /\ let sample_pages :=
         select_sample_pages (Z.of_nat page_count) num_samples default_skip_first in
       sample_pages <> []
       /\ map ev_pdf_page (map_evidence (core m)) = sample_pages
       /\ map_samples_processed (core m) = List.length sample_pages
       /\ (List.length (evidence_images (core m)) <= List.length sample_pages)%nat
       /\ document_name (core m) = path_name path
       /\ method (core m) = "ocr_auto"%string
       /\ company_key m = Some (company ++ "_2024")%string
       /\ pdf_path m = Some path
       /\ built_from_consensus (core m).
Proof.
  intros Hm. apply process_single_pdf_run in Hm.
  destruct Hm as (page_count & samples & r & images & Hcount & Hpos & Hpages
                  & Hsome & Hr & Himages & Hcore & Hkey & Hpath).
  destruct (calculate_offset_evidence_pages samples r Hr) as (Hev & _ & Hproc).
  exists page_count. split; [assumption|]. split; [assumption|]. cbv zeta.
  rewrite <- Hpages, Hcore.
  cbn [create_offset_mapping map_evidence map_samples_processed evidence_images
       document_name method].
  rewrite length_map.
  split; [destruct samples; [contradiction|discriminate]|].
  split; [assumption|]. split; [assumption|]. split; [assumption|].
  split; [reflexivity|]. split; [reflexivity|]. split; [assumption|].
  split; [assumption|].
  exists samples, r, company, (path_name path), images, "ocr_auto"%string.
  now split.
Qed.

Lemma process_single_pdf_mapping_witness :
  exists m w',
    @process_single_pdf nat unit footer_recognizer example_platform
      "report.pdf" "ACME" 3 0%nat = (Ok (Some m), w')
    /\ map ev_pdf_page (map_evidence (core m)) = [29; 53; 76]
    /\ company_key m = Some "ACME_2024"%string.
Proof.
  eexists; eexists. split; [vm_compute; reflexivity|].
  destruct (@process_single_pdf_mapping nat unit footer_recognizer example_platform
              "report.pdf" "ACME" 3 0%nat _ _ ltac:(vm_compute; reflexivity))
    as (page_count & Hcount & _ & _ & Hpages & _ & _ & _ & _ & Hkey & _).
  injection Hcount as <-. split; [exact Hpages|exact Hkey].
Defined.

(** X17: when the evidence directory can be made and relative paths can be
    taken, [process_single_pdf] asked for at least one sample raises nothing,
    whatever the rendering, the recognizer and the saving of images do; and it
    returns no mapping exactly when the document cannot be opened or has no
    page. *)
Theorem process_single_pdf_none_iff {World Image : Type} `{Recognizer Image}
    `{Platform World Image} (path company : string) (num_samples : Z) (w : World) :
  1 <= num_samples ->
  (forall p v, exists v', makedirs p v = (Ok tt, v')) ->
  (forall p start v, exists rel_path v', relpath p start v = (Ok rel_path, v')) ->
  exists result w',
    process_single_pdf path company num_samples w = (Ok result, w')
    /\ (result = None
        <-> fst (fitz_page_count path w) = Ok 0%nat
            \/ exists e, fst (fitz_page_count path w) = Raise e).
Proof.
  intros Hnum Hmakedirs Hrelpath.
  destruct (process_single_pdf_returns path company num_samples w Hmakedirs Hrelpath)
    as (result & w' & Hrun & Hnone).
  exists result, w'. split; [assumption|]. rewrite Hnone.
  destruct (fst (fitz_page_count path w)) as [[|page_count]|e].
  - rewrite select_sample_pages_no_page by (unfold default_skip_first; lia).
    split; [now left|reflexivity].
  - split.
    + intros Hnil. apply select_sample_pages_nonempty in Hnil; [contradiction|lia|lia].
    + intros [[=]|[e [=]]].
  - rewrite select_sample_pages_no_page by (unfold default_skip_first; lia).
    split; [right; now exists e|reflexivity].
Qed.

Lemma process_single_pdf_none_iff_witness :
  exists result w',
    @process_single_pdf nat unit footer_recognizer example_platform
      "broken.pdf" "ACME" 3 0%nat = (Ok result, w')
    /\ (result = None
        <-> fst (@fitz_page_count nat unit example_platform "broken.pdf" 0%nat)
            = Ok 0%nat
            \/ exists e,
                 fst (@fitz_page_count nat unit example_platform "broken.pdf" 0%nat)
                 = Raise e).
Proof.
  apply (@process_single_pdf_none_iff nat unit footer_recognizer example_platform
           "broken.pdf" "ACME" 3 0%nat).
  - lia.
  - intros p v. exists v. reflexivity.
  - intros p start v. exists p, v. reflexivity.
Defined.

(** X18: a document none of whose sample pages can be rendered is not a
    failure: [process_single_pdf] returns a mapping for it, of confidence
    NONE, with no offset, no validation record and no evidence image, whose
    evidence lists every selected page without a label.  The evidence
    directory is not needed for it. *)
Theorem unrendered_document_mapping {World Image : Type} `{Recognizer Image}
    `{Platform World Image} (path company : string) (num_samples : Z) (w : World)
    (page_count : nat) :
  fst (fitz_page_count path w) = Ok page_count ->
  (1 <= page_count)%nat ->
  1 <= num_samples ->
  (forall page v, match fst (convert_from_path path 200 page v) with
                  | Ok (_ :: _) => False
                  | _ => True
                  end) ->
  exists m w',
    process_single_pdf path company num_samples w = (Ok (Some m), w')
    /\ map_confidence (core m) = NONE
    /\ map_offset (core m) = None
    /\ validation (core m) = None
    /\ map_message (core m) = Some no_detection_message
    /\ map_samples_agreed (core m) = 0%nat
    /\ evidence_images (core m) = []
    /\ map_evidence (core m)
       = map (fun page => {| ev_pdf_page := page;
                             ev_detected_label := None;
                             ev_offset := None;
                             agrees_with_consensus := None |})
             (select_sample_pages (Z.of_nat page_count) num_samples
                                  default_skip_first).
Proof.
  intros Hcount Hpos Hnum Hunrendered.
  unfold process_single_pdf, io_bind at 1. rewrite get_pdf_page_count_run, Hcount.
  destruct (Z.eqb_spec (Z.of_nat page_count) 0) as [Hzero|_]; [lia|].
  pose proof (select_sample_pages_nonempty (Z.of_nat page_count) num_samples
                ltac:(lia) Hnum) as Hsome.
  destruct (select_sample_pages (Z.of_nat page_count) num_samples default_skip_first)
    as [|p0 pages]; [contradiction|].
  unfold io_bind at 1.
  destruct (process_samples_unrendered path company (enumerate_from_1 (p0 :: pages))
              [] [] (snd (fitz_page_count path w)) Hunrendered) as (w1 & ->).
  destruct (enumerate_from_1_pages (p0 :: pages)) as [-> _].
  rewrite app_nil_l. unfold io_bind, io_lift, io_ret.
  destruct (calculate_offset_no_valid _ (filter_valid_unlabelled (p0 :: pages)))
    as (r & -> & Hoffset & Hconf & _ & Hagreed & _ & _ & Hmessage & Hev).
  eexists; eexists. split; [reflexivity|]. cbn [core].
  rewrite create_offset_mapping_validation_field.
  cbn [create_offset_mapping map_confidence map_offset map_message
       map_samples_agreed evidence_images map_evidence].
  rewrite Hoffset, Hconf, Hmessage, Hagreed, Hev, map_map.
  now repeat split.
Qed.

Lemma unrendered_document_mapping_witness :
  exists m w',
    @process_single_pdf nat unit footer_recognizer example_platform
      "scan.pdf" "ACME" 3 0%nat = (Ok (Some m), w')
    /\ map_confidence (core m) = NONE
    /\ evidence_images (core m) = [].
Proof.
  destruct (@unrendered_document_mapping nat unit footer_recognizer example_platform
              "scan.pdf" "ACME" 3 0%nat 40%nat eq_refl ltac:(lia) ltac:(lia)
              (fun page v => I))
    as (m & w' & Hrun & Hconf & _ & _ & _ & _ & Himages & _).
  exists m, w'. now repeat split.
Defined.

(** X19: a document that cannot be opened, or has no page, does not stop the
    batch and changes none of its results: [process_document] returns the
    mappings and flagged items it was given, and nothing was rendered, saved
    or created for that document. *)
Theorem unreadable_document_skipped {World Image : Type} `{Recognizer Image}
    `{Platform World Image} (company path : string) (num_samples : Z)
    (state : Dict DocumentMapping * list FlaggedItem) (w : World) :
  fst (fitz_page_count path w) = Ok 0%nat
  \/ (exists e, fst (fitz_page_count path w) = Raise e) ->
  process_document company num_samples state path w
  = (Ok state, snd (fitz_page_count path w)).
Proof.
  intros Hcount. unfold process_document, io_try, io_bind.
  rewrite process_single_pdf_no_page; [reflexivity|].
  destruct Hcount as [->|[e ->]]; [reflexivity|exact I].
Qed.

Lemma unreadable_document_skipped_witness :
  @process_document nat unit footer_recognizer example_platform
    "ACME" 3 ([], []) "broken.pdf" 7%nat = (Ok ([], []), 7%nat).
Proof.
  apply (@unreadable_document_skipped nat unit footer_recognizer example_platform
           "ACME" "broken.pdf" 3 ([], []) 7%nat).
  right. exists "FileDataError"%string. reflexivity.
Defined.

(** X20: the batch raises only through its own directory and folder
    operations.  When [mkdir], [exists] and [glob] do not raise,
    [process_all_companies] returns, whatever happens while the documents
    are opened, rendered, recognized and saved. *)
Theorem process_all_companies_returns {World Image : Type} `{Recognizer Image}
    `{Platform World Image} (companies : list string) (num_samples : Z) (w : World) :
  (forall p v, exists v', mkdir p v = (Ok tt, v')) ->
  (forall p v, exists found v', path_exists p v = (Ok found, v')) ->
  (forall p v, exists pdfs v', glob_pdf p v = (Ok pdfs, v')) ->
  exists all_mappings flagged_items w',
    process_all_companies companies num_samples w
    = (Ok (all_mappings, flagged_items), w').
Proof.
  intros Hmkdir Hexists Hglob. unfold process_all_companies, io_bind.
  destruct (Hmkdir OUTPUT_DIR w) as (w1 & ->).
  destruct (Hmkdir EVIDENCE_DIR w1) as (w2 & ->).
  destruct (io_for_returns (process_company num_samples) companies
              (fun state company v =>
                 process_company_returns num_samples state company v Hexists Hglob)
              ([], []) w2) as ([all_mappings flagged_items] & w' & ->).
  now exists all_mappings, flagged_items, w'.
Qed.

Lemma process_all_companies_returns_witness :
  exists all_mappings flagged_items w',
    @process_all_companies nat unit failing_recognizer example_platform
      ["ACME"; "Borealis"]%string 3 0%nat
    = (Ok (all_mappings, flagged_items), w').
Proof.
  apply (@process_all_companies_returns nat unit failing_recognizer example_platform
           ["ACME"; "Borealis"]%string 3 0%nat).
  - intros p v. exists v. reflexivity.
  - intros p v. exists true, v. reflexivity.
  - intros p v. eexists; exists v. reflexivity.
Defined.

(** X21: the batch keeps at most one mapping per company, however many
    documents the company's folder holds: the keys of the returned mappings
    are distinct, each is [<company>_2024] for a company of the list and is the
    key the mapping itself carries, so there are no more mappings than
    companies. *)
Theorem batch_one_mapping_per_company {World Image : Type} `{Recognizer Image}
    `{Platform World Image} (companies : list string) (num_samples : Z)
    (w w' : World) (all_mappings : Dict DocumentMapping)
    (flagged_items : list FlaggedItem) :
  process_all_companies companies num_samples w
  = (Ok (all_mappings, flagged_items), w') ->
  NoDup (dict_keys all_mappings)
  /\ (forall key m, In (key, m) all_mappings ->
        company_key m = Some key
        /\ exists company,
             In company companies /\ key = (company ++ "_2024")%string)
  /\ (List.length all_mappings <= List.length companies)%nat.
Proof.
  intros Hrun. apply process_all_companies_invariant in Hrun.
  destruct Hrun as (Hkeys & Hkept & _). cbn [fst snd] in *.
  split; [assumption|]. split.
  - intros key m Hin. destruct (Hkept key m Hin) as (c & Hc & Hk & Hck & _).
    split; [assumption|now exists c].
  - replace (List.length all_mappings) with (List.length (dict_keys all_mappings))
      by (unfold dict_keys; apply length_map).
    rewrite <- (length_map (fun company => (company ++ "_2024")%string) companies).
    apply NoDup_incl_length; [assumption|].
    intros key Hkey. unfold dict_keys in Hkey. apply in_map_iff in Hkey.
    destruct Hkey as ([k m] & <- & Hin).
    destruct (Hkept k m Hin) as (c & Hc & -> & _).
    apply in_map_iff. now exists c.
Qed.

Lemma batch_one_mapping_per_company_witness :
  exists all_mappings flagged_items w',
    @process_all_companies nat unit footer_recognizer example_platform
      ["ACME"; "Borealis"]%string 3 0%nat
    = (Ok (all_mappings, flagged_items), w')
    /\ dict_keys all_mappings = ["ACME_2024"; "Borealis_2024"]%string
    /\ NoDup (dict_keys all_mappings)
    /\ (List.length all_mappings <= 2)%nat.
Proof.
  eexists; eexists; eexists. split; [vm_compute; reflexivity|].
  split; [reflexivity|].
  destruct (@batch_one_mapping_per_company nat unit footer_recognizer
              example_platform ["ACME"; "Borealis"]%string 3 0%nat _ _ _
              ltac:(vm_compute; reflexivity)) as (Hkeys & _ & Hlen).
  split; [exact Hkeys|exact Hlen].
Defined.

(** X22: the review list of the batch is sound and covers the output: every
    flagged item belongs to a company of the list, has a confidence other than
    HIGH and a reason that is a warning or message of the consensus, never
    the fallback [Unknown]; and every returned mapping whose confidence is not
    HIGH has its item in the list, with its document name, confidence and
    reason. *)
Theorem batch_flagged_items {World Image : Type} `{Recognizer Image}
    `{Platform World Image} (companies : list string) (num_samples : Z)
    (w w' : World) (all_mappings : Dict DocumentMapping)
    (flagged_items : list FlaggedItem) :
  process_all_companies companies num_samples w
  = (Ok (all_mappings, flagged_items), w') ->
  (forall f, In f flagged_items ->
     In (flag_company f) companies
     /\ flag_confidence f <> HIGH
     /\ flag_reason f <> "Unknown"%string
     /\ str_truthy (flag_reason f) = true)
  /\ (forall key m, In (key, m) all_mappings ->
        map_confidence (core m) <> HIGH ->
        exists f,
          In f flagged_items
          /\ key = (flag_company f ++ "_2024")%string
          /\ flag_document f = document_name (core m)
          /\ flag_confidence f = map_confidence (core m)
          /\ flag_reason f = review_reason (core m)).
Proof.
  intros Hrun. apply process_all_companies_invariant in Hrun.
  destruct Hrun as (_ & Hkept & Hflagged). cbn [fst snd] in *.
  split; [assumption|].
  intros key m Hin Hnot.
  destruct (Hkept key m Hin) as (c & _ & Hk & _ & _ & Hf).
  eexists. split; [exact (Hf Hnot)|]. now repeat split.
Qed.

Lemma batch_flagged_items_witness :
  exists all_mappings flagged_items w',
    @process_all_companies nat unit footer_recognizer example_platform
      ["ACME"; "Borealis"]%string 3 0%nat
    = (Ok (all_mappings, flagged_items), w')
    /\ map flag_document flagged_items
       = ["report.pdf"; "scan.pdf"; "report.pdf"; "scan.pdf"]%string
    /\ forall f, In f flagged_items ->
         In (flag_company f) ["ACME"; "Borealis"]%string
         /\ flag_confidence f <> HIGH
         /\ flag_reason f <> "Unknown"%string
         /\ str_truthy (flag_reason f) = true.
Proof.
  eexists; eexists; eexists. split; [vm_compute; reflexivity|].
  split; [reflexivity|].
  exact (proj1 (@batch_flagged_items nat unit footer_recognizer example_platform
                  ["ACME"; "Borealis"]%string 3 0%nat _ _ _
                  ltac:(vm_compute; reflexivity))).
Defined.

(** ** The files of the results *)



Lemma io_bind_returns {World A B : Type} (m : IO World A) (k : A -> IO World B) :
  always_returns m -> (forall a, always_returns (k a)) ->
  always_returns (io_bind m k).
Proof.
  intros Hm Hk w. unfold io_bind. destruct (Hm w) as (a & w1 & ->). apply Hk.
Qed.

Lemma io_ret_returns {World A : Type} (a : A) : always_returns (@io_ret World A a).
Proof. intros w. now exists a, w. Qed.

Lemma io_for_always_returns {World S A : Type} (body : S -> A -> IO World S)
    (l : list A) (state : S) :
  (forall st x, In x l -> always_returns (body st x)) ->
  always_returns (io_for body l state).
Proof.
  revert state. induction l as [|x l IH]; intros state Hbody; cbn [io_for].
  - apply io_ret_returns.
  - apply io_bind_returns; [apply Hbody; now left|].
    intros st. apply IH. intros st' y Hy. apply Hbody. now right.
Qed.

Section ResultsProperties.

Context {World Image : Type} `{Platform World Image} `{Reporter World}.


Lemma with_open_w_returns {A : Type} (path : string) (body : IO World A) :
  always_returns (open_w path) -> always_returns (f_close path) ->
  always_returns body -> always_returns (with_open_w path body).
Proof.
  intros Hopen Hclose Hbody. unfold with_open_w.
  apply io_bind_returns; [assumption|]. intros _ w.
  destruct (Hbody w) as (a & w1 & ->).
  unfold io_bind, io_ret. destruct (Hclose w1) as ([] & w2 & ->). now exists a, w2.
Qed.


Lemma write_confidence_line_returns (report_file : string) (total_documents : Z)
    (entry : string * Z) :
  total_documents <> 0 ->
  (forall text, always_returns (f_write report_file text)) ->
  always_returns (write_confidence_line report_file total_documents tt entry).
Proof.
  intros Htotal Hwrite. destruct entry as [conf count].
  unfold write_confidence_line. apply io_bind_returns; [|intros ratio; apply Hwrite].
  intros w. unfold io_lift, py_truediv.
  destruct (Z.eqb_spec total_documents 0); [contradiction|].
  eexists; eexists; reflexivity.
Qed.

Lemma write_document_returns (report_file : string)
    (item : string * DocumentMapping) :
  (forall text, always_returns (f_write report_file text)) ->
  always_returns (write_document report_file tt item).
Proof.
  intros Hwrite. destruct item as [key mapping]. unfold write_document. cbv zeta.
  do 5 (apply io_bind_returns; [apply Hwrite|intros ?]).
  apply io_bind_returns;
    [destruct (map_warning (core mapping)); [apply Hwrite|apply io_ret_returns]
    |intros ?].
  apply io_bind_returns;
    [destruct (map_message (core mapping)); [apply Hwrite|apply io_ret_returns]
    |intros ?].
  apply Hwrite.
Qed.

Lemma write_report_returns (report_file : string)
    (all_mappings : Dict DocumentMapping) (stats : SummaryStatistics) :
  total_documents stats <> 0 ->
  (forall text, always_returns (f_write report_file text)) ->
  always_returns strftime_now ->
  always_returns (write_report report_file all_mappings stats).
Proof.
  intros Htotal Hwrite Hnow. unfold write_report. cbv zeta.
  do 3 (apply io_bind_returns; [apply Hwrite|intros ?]).
  apply io_bind_returns; [assumption|intros now].
  do 7 (apply io_bind_returns; [apply Hwrite|intros ?]).
  apply io_bind_returns;
    [apply io_for_always_returns; intros st x _; destruct st;
     now apply write_confidence_line_returns|intros ?].
  do 2 (apply io_bind_returns; [apply Hwrite|intros ?]).
  apply io_bind_returns.
  - destruct (offset_statistics stats) as [offset_stats|]; [|apply io_ret_returns].
    do 5 (apply io_bind_returns; [apply Hwrite|intros ?]). apply Hwrite.
  - intros ?. do 2 (apply io_bind_returns; [apply Hwrite|intros ?]).
    apply io_for_always_returns. intros st x _. destruct st.
    now apply write_document_returns.
Qed.

Lemma write_flagged_item_returns (flagged_file : string) (item : FlaggedItem) :
  (forall text, always_returns (f_write flagged_file text)) ->
  always_returns (write_flagged_item flagged_file tt item).
Proof.
  intros Hwrite. unfold write_flagged_item. cbv zeta.
  do 4 (apply io_bind_returns; [apply Hwrite|intros ?]). apply Hwrite.
Qed.

End ResultsProperties.


Lemma io_bind_raises_with {World A B : Type} (e : string) (m : IO World A)
    (k : A -> IO World B) :
  always_returns m -> (forall a, always_raises_with e (k a)) ->
  always_raises_with e (io_bind m k).
Proof.
  intros Hm Hk w. unfold io_bind. destruct (Hm w) as (a & w1 & ->). apply Hk.
Qed.

Lemma io_bind_raises_with_first {World A B : Type} (e : string) (m : IO World A)
    (k : A -> IO World B) :
  always_raises_with e m -> always_raises_with e (io_bind m k).
Proof.
  intros Hm w. unfold io_bind. destruct (Hm w) as (w1 & ->). now exists w1.
Qed.

(** X24: on a file system whose operations succeed, [save_results] completes
    exactly when there is a document to report: with at least one mapping
    it writes its files and returns, and with none it raises
    [ZeroDivisionError]. *)
Theorem save_results_outcome {World Image : Type} `{Platform World Image}
    `{Reporter World} (all_mappings : Dict DocumentMapping)
    (flagged_items : list FlaggedItem) (w : World) :
  (forall path d, always_returns (json_dump_file path d)) ->
  (forall path, always_returns (open_w path)) ->
  (forall path text, always_returns (f_write path text)) ->
  (forall path, always_returns (f_close path)) ->
  always_returns strftime_now ->
  exists w',
    save_results all_mappings flagged_items w
    = (match all_mappings with
       | [] => Raise "ZeroDivisionError"%string
       | _ :: _ => Ok tt
       end, w').
Proof.
  intros Hdump Hopen Hwrite Hclose Hnow.
  destruct (generate_summary_statistics_returns all_mappings)
    as (stats & Hstats & Htotal & _).
  destruct all_mappings as [|item rest].
  - revert w. change (always_raises_with "ZeroDivisionError"
                        (save_results [] flagged_items)).
    unfold save_results. cbv zeta.
    apply io_bind_raises_with; [apply Hdump|intros _].
    intros w. unfold io_bind at 1, io_lift. rewrite Hstats. revert w.
    apply io_bind_raises_with_first. unfold with_open_w.
    apply io_bind_raises_with; [apply Hopen|intros _]. intros w.
    assert (Hreport : always_raises_with "ZeroDivisionError"
              (write_report (path_join OUTPUT_DIR "detection_report.txt") [] stats)).
    { unfold write_report. cbv zeta.
      do 3 (apply io_bind_raises_with; [apply Hwrite|intros ?]).
      apply io_bind_raises_with; [assumption|intros now].
      do 7 (apply io_bind_raises_with; [apply Hwrite|intros ?]).
      apply io_bind_raises_with_first. cbn [io_for].
      apply io_bind_raises_with_first. unfold write_confidence_line.
      apply io_bind_raises_with_first. intros v. rewrite Htotal.
      now exists v. }
    destruct (Hreport w) as (w1 & ->). unfold io_bind, io_raise.
    destruct (Hclose (path_join OUTPUT_DIR "detection_report.txt") w1)
      as ([] & w2 & ->).
    now exists w2.
  - assert (Hreturns : always_returns (save_results (item :: rest) flagged_items)).
    { unfold save_results. cbv zeta.
      apply io_bind_returns; [apply Hdump|intros _].
      intros v. unfold io_bind at 1, io_lift. rewrite Hstats. revert v.
      apply io_bind_returns.
      - apply with_open_w_returns; [apply Hopen|apply Hclose|].
        apply write_report_returns;
          [rewrite Htotal; cbn [List.length]; lia|intros text; apply Hwrite
          |assumption].
      - intros _. destruct flagged_items as [|f fs]; [apply io_ret_returns|].
        apply with_open_w_returns; [apply Hopen|apply Hclose|]. cbv zeta.
        do 4 (apply io_bind_returns; [apply Hwrite|intros ?]).
        apply io_for_always_returns. intros st x _. destruct st.
        apply write_flagged_item_returns. intros text. apply Hwrite. }
    destruct (Hreturns w) as ([] & w' & ->). now exists w'.
Qed.

Lemma save_results_outcome_witness :
  (exists w',
     @save_results nat unit example_platform example_reporter
       example_mappings [] 0%nat = (Ok tt, w'))
  /\ (exists w',
        @save_results nat unit example_platform example_reporter
          [] [] 0%nat = (Raise "ZeroDivisionError"%string, w')).
Proof.
  split.
  - apply (@save_results_outcome nat unit example_platform example_reporter
             example_mappings [] 0%nat);
      intros; intros v; eexists; eexists; reflexivity.
  - apply (@save_results_outcome nat unit example_platform example_reporter
             [] [] 0%nat);
      intros; intros v; eexists; eexists; reflexivity.
Defined.
